(** * OmniSync framework: alignment, guidance weighting and the per-frame loop

    A shallow embedding of [omnisync_framework.py].  The file follows the
    Python source class by class:

    - [Py]: the fragment of Python and NumPy semantics the source relies on
      (exceptions, true division, [int()], [min], slices, indexing);
    - [DynamicGuidanceSystem.compute_guidance_strength];
    - [FaceDetector.extract_lip_region];
    - [OmniSyncFramework.align_audio_video], the per-frame loop of
      [generate_lip_sync] and [save_video];
    - [Detection]: [FaceDetector.detect_face], with the DNN model or with
      the Haar cascade;
    - [Program]: [AudioProcessor.load_audio] and [extract_audio_features],
      [preprocess_video], the whole of [generate_lip_sync] from its first
      [print] to its last, and [main].  [extract_audio_features] looks up
      [librosa.feature.chroma], which librosa does not have, so the whole
      of [generate_lip_sync] stops there; the alignment, the loop and
      [save_video] are modelled on their own, as functions of the
      features and the frames they are given.

    [SimpleLipSyncModel], [load_model], [save_model] and [train_model]
    are not modelled: the network is an oracle of the loop.

    Numeric model.  Python [int]s are [Z].  Python [float]s are modelled by
    exact rationals [Q]: every float expression of the source is evaluated
    without rounding, and decimal literals ([0.67], [0.3], ...) denote the
    decimal fraction they spell.  There is no infinity and no NaN in this
    model.  Module [Binary64] evaluates the same expressions with IEEE 754
    binary64 rounding, and the last section checks that the two agree on
    ranges of inputs (box sides up to 8192 pixels, small clips).  The
    products of [detect_face], which NumPy rounds to float32 or not at
    all depending on its version, are taken through an explicit rounding
    function; module [Binary32] gives the float32 one.

    External libraries.  OpenCV, PyTorch and librosa are not modelled:
    their entry points are oracles that return a value or raise, and the
    calls made to them are recorded, in program order, in an event trace.
    No oracle modifies its arguments, and the file system does not change
    during a run of [main]. *)

From Stdlib Require Import ZArith QArith Qabs Qround Lia Lqa String SpecFloat.
From stdpp Require Import base list.

Local Open Scope Z_scope.

(** ** Python and NumPy primitives *)

Module Py.

(** Exceptions.  The first five are raised by the interpreter or by the
    libraries the source calls.  The last two are the names of the error
    taxonomy of the specification; no statement of the source raises
    them. *)
Inductive exn : Type :=
| ZeroDivisionError
| IndexError
| AttributeError
| Cv2Error
| RuntimeError
| AlignmentError
| InvalidArgument.

Inductive result (A : Type) : Type :=
| Ok (a : A)
| Raise (e : exn).
Arguments Ok {A} a.
Arguments Raise {A} e.

Definition bind {A B} (r : result A) (k : A -> result B) : result B :=
  match r with
  | Ok a => k a
  | Raise e => Raise e
  end.

Definition is_ok {A} (r : result A) : bool :=
  match r with Ok _ => true | Raise _ => false end.

(** [a / b] on two [int]s: true division. *)
Definition truediv (a b : Z) : result Q :=
  if b =? 0 then Raise ZeroDivisionError
  else Ok (inject_Z a / inject_Z b)%Q.

(** [a / b] with [a] an [int] and [b] a [float]. *)
Definition truediv_float (a : Z) (b : Q) : result Q :=
  if Qeq_bool b 0 then Raise ZeroDivisionError
  else Ok (inject_Z a / b)%Q.

(** [int(q)]: truncation toward zero. *)
Definition int (q : Q) : Z := Z.quot (Qnum q) (Zpos (Qden q)).

(** [min(a, b)]: the first argument unless the second is smaller. *)
Definition min (a b : Q) : Q := if Qlt_le_dec b a then b else a.

(** [min(a, b)] on [int]s. *)
Definition min_int (a b : Z) : Z := if b <? a then b else a.

(** Normalisation of one bound of a slice over a sequence of length
    [len] (step 1): a negative bound counts from the end, and the result
    is clipped to [0, len]. *)
Definition slice_bound (len i : Z) : Z :=
  if i <? 0 then Z.max (i + len) 0 else Z.min i len.

(** [l[start:stop]] *)
Definition slice {A} (l : list A) (start stop : Z) : list A :=
  let len := Z.of_nat (length l) in
  let a := slice_bound len start in
  let b := slice_bound len stop in
  take (Z.to_nat (b - a)) (drop (Z.to_nat a) l).

(** [a[r0:r1, c0:c1]] on a two-dimensional array stored row by row. *)
Definition slice2 {A} (a : list (list A)) (r0 r1 c0 c1 : Z) : list (list A) :=
  (fun row => slice row c0 c1) <$> slice a r0 r1.

(** [l[k]] for an integer index: negative indices count from the end,
    anything outside [-len, len) raises [IndexError]. *)
Definition index {A} (l : list A) (k : Z) : result A :=
  let len := Z.of_nat (length l) in
  let k' := if k <? 0 then k + len else k in
  if (0 <=? k') && (k' <? len) then
    match l !! Z.to_nat k' with
    | Some a => Ok a
    | None => Raise IndexError
    end
  else Raise IndexError.

(** [l[i] = v] on an array with [i] a non-negative index. *)
Definition setitem {A} (l : list A) (i : nat) (v : A) : result (list A) :=
  if (i <? length l)%nat then Ok (<[i := v]> l) else Raise IndexError.

(** [np.mean(v)].  NumPy returns NaN for an empty vector; the rational
    model returns [0] there ([Qdiv] by zero).  No exception either way. *)
Definition mean (v : list Q) : Q :=
  (fold_right Qplus 0 v / inject_Z (Z.of_nat (length v)))%Q.

End Py.

Import Py.

Notation "'let?' x ':=' r 'in' k" := (Py.bind r (fun x => k))
  (at level 10, x name, r at level 100, k at level 200).

(** ** class DynamicGuidanceSystem *)

Module DynamicGuidanceSystem.

Record t : Type := { base_strength : Q }.

(** [__init__(self, base_strength=0.7)] *)
Definition default : t := {| base_strength := 0.7 |}.

Definition temporal_weight (q : Q) : Q := (1 - Qabs (q - 0.5) * 0.3)%Q.

Definition audio_weight (audio_power : Q) : Q := Py.min (audio_power * 2) 1.

Definition compute_guidance_strength
    (self : t) (audio_power : Q) (frame_idx total_frames : Z) : result Q :=
  let? q := truediv frame_idx total_frames in
  Ok (base_strength self * temporal_weight q * audio_weight audio_power)%Q.

End DynamicGuidanceSystem.

(** ** class FaceDetector *)

Module FaceDetector.

(** A bounding box [(x, y, w, h)]. *)
Definition bbox : Type := Z * Z * Z * Z.

(** A frame is an array of shape (height, width[, channels]); it is
    stored as its list of rows, a pixel being a value of [px]. *)
Abbreviation image px := (list (list px)).

Definition lip_y (b : bbox) : Z :=
  let '(x, y, w, h) := b in y + int (inject_Z h * 0.67).
Definition lip_h (b : bbox) : Z :=
  let '(x, y, w, h) := b in int (inject_Z h * 0.33).
Definition lip_x (b : bbox) : Z :=
  let '(x, y, w, h) := b in x + int (inject_Z w * 0.2).
Definition lip_w (b : bbox) : Z :=
  let '(x, y, w, h) := b in int (inject_Z w * 0.6).

Section Frames.
Context {px : Type}.

(** [frame.shape[0]] and [frame.shape[1]] *)
Definition height (f : image px) : nat := length f.
Definition width (f : image px) : nat := length (hd [] f).

Definition extract_lip_region (frame : image px) (face_bbox : bbox) : image px :=
  slice2 frame
    (lip_y face_bbox) (lip_y face_bbox + lip_h face_bbox)
    (lip_x face_bbox) (lip_x face_bbox + lip_w face_bbox).

End Frames.

End FaceDetector.

(** ** class OmniSyncFramework *)

Module OmniSyncFramework.
Import FaceDetector.

(** A two-dimensional feature array of shape [(shape0, shape1)], stored
    by columns: [columns] lists [a[:, 0]], [a[:, 1]], ...  Every column
    of a NumPy array has [shape0] entries. *)
Record ndarray : Type := { shape0 : nat; columns : list (list Q) }.

Definition shape1 (a : ndarray) : Z := Z.of_nat (length (columns a)).

(** The entries of the dictionary returned by
    [AudioProcessor.extract_audio_features] that the framework reads. *)
Record audio_features : Type :=
  { audio_length : Q; mel_spectrogram : ndarray }.

(** The two statements that select the source column of output row [i]. *)
Definition audio_idx (mel_spec : ndarray) (target_frames i : nat) : result Z :=
  let? q := truediv (Z.of_nat i * shape1 mel_spec) (Z.of_nat target_frames) in
  let audio_idx := int q in
  Ok (min_int audio_idx (shape1 mel_spec - 1)).

(** The body of [for i in range(target_frames)], over the remaining
    values of [i]. *)
Fixpoint align_rows (mel_spec : ndarray) (target_frames : nat)
    (range : list nat) (aligned_audio : list (list Q)) : result (list (list Q)) :=
  match range with
  | [] => Ok aligned_audio
  | i :: range' =>
      let? k := audio_idx mel_spec target_frames i in
      let? column := index (columns mel_spec) k in
      let? aligned_audio := setitem aligned_audio i column in
      align_rows mel_spec target_frames range' aligned_audio
  end.

Section Pipeline.
Context {px tensor : Type}.

Definition align_audio_video (features : audio_features)
    (video_frames : list (image px)) : result (list (list Q) * list (image px)) :=
  let audio_length := audio_length features in
  let? video_fps := truediv_float (Z.of_nat (length video_frames)) audio_length in
  let mel_spec := mel_spectrogram features in
  let target_frames := length video_frames in
  let aligned_audio := replicate target_frames (replicate (shape0 mel_spec) 0%Q) in
  let? aligned_audio :=
    align_rows mel_spec target_frames (seq 0 target_frames) aligned_audio in
  Ok (aligned_audio, video_frames).

(** Calls into OpenCV and PyTorch, in program order. *)
Inductive event : Type :=
| EvDetect (frame : image px)
| EvResize (src : image px) (dsize : Z * Z)
| EvForward (audio_input : list Q) (visual_input : tensor)
| EvFourcc (code : string)
| EvWriterOpen (output_path : string) (fps : Z) (frame_size : nat * nat)
| EvWriterWrite (frame : image px)
| EvWriterRelease.

(** A computation that may raise, together with the calls it made. *)
Definition traced (A : Type) : Type := list event * result A.

Definition ret {A} (a : A) : traced A := ([], Ok a).

Definition events {A} (m : traced A) : list event := fst m.
Definition outcome {A} (m : traced A) : result A := snd m.

(** [m], run after the calls [tr] have been made. *)
Definition after {A} (tr : list event) (m : traced A) : traced A :=
  (tr ++ events m, outcome m).

Definition bindT {A B} (m : traced A) (k : A -> traced B) : traced B :=
  match m with
  | (tr, Ok a) => after tr (k a)
  | (tr, Raise e) => (tr, Raise e)
  end.

Definition call {A} (ev : event) (r : result A) : traced A := ([ev], r).

Definition lift {A} (r : result A) : traced A := ([], r).

(** The collaborators of one framework instance.  [detect_face] is
    [FaceDetector.detect_face]; [cv2_resize] is [cv2.resize];
    [visual_tensor] is the conversion
    [torch.FloatTensor(_).permute(2, 0, 1).unsqueeze(0) / 255.0];
    [model] is [SimpleLipSyncModel.forward] applied to the audio row
    (as a tensor) and the visual tensor. *)
Record t : Type :=
  { detect_face : image px -> result (option bbox);
    cv2_resize : image px -> Z * Z -> result (image px);
    visual_tensor : image px -> result tensor;
    model : list Q -> tensor -> result tensor;
    guidance_system : DynamicGuidanceSystem.t }.


Notation "'let!' x ':=' m 'in' k" := (bindT m (fun x => k))
  (at level 10, x name, m at level 100, k at level 200).

(** One iteration of the loop of [generate_lip_sync] on [(i, frame)];
    the result is the new value of [output_frames]. *)
Definition process_frame (self : t) (aligned_audio : list (list Q))
    (total_frames : nat) (output_frames : list (image px))
    (i : nat) (frame : image px) : traced (list (image px)) :=
  let! face_bbox := call (EvDetect frame) (detect_face self frame) in
  match face_bbox with
  | None => ret (output_frames ++ [frame])
  | Some face_bbox =>
      let lip_region := extract_lip_region frame face_bbox in
      let! audio_input := lift (index aligned_audio (Z.of_nat i)) in
      let! lip_resized :=
        call (EvResize lip_region (64, 64)) (cv2_resize self lip_region (64, 64)) in
      let! visual_input := lift (visual_tensor self lip_resized) in
      let audio_power := mean ((fun v => v * v)%Q <$> audio_input) in
      let! guidance_strength :=
        lift (DynamicGuidanceSystem.compute_guidance_strength
                (guidance_system self) audio_power
                (Z.of_nat i) (Z.of_nat total_frames)) in
      let! output_features :=
        call (EvForward audio_input visual_input) (model self audio_input visual_input) in
      ret (output_frames ++ [frame])
  end.

(** [for i, frame in enumerate(aligned_frames)], from index [i] on. *)
Fixpoint lip_sync_loop (self : t) (aligned_audio : list (list Q))
    (total_frames : nat) (i : nat) (frames : list (image px))
    (output_frames : list (image px)) : traced (list (image px)) :=
  match frames with
  | [] => ret output_frames
  | frame :: frames' =>
      let! output_frames :=
        process_frame self aligned_audio total_frames output_frames i frame in
      lip_sync_loop self aligned_audio total_frames (S i) frames' output_frames
  end.

(** Lines 250-280: [output_frames = []] followed by the loop. *)
Definition lip_sync_frames (self : t) (aligned_audio : list (list Q))
    (aligned_frames : list (image px)) : traced (list (image px)) :=
  lip_sync_loop self aligned_audio (length aligned_frames) 0 aligned_frames [].

Fixpoint write_frames (frames : list (image px)) : traced unit :=
  match frames with
  | [] => ret tt
  | frame :: frames' =>
      let! _ := call (EvWriterWrite frame) (Ok tt) in
      write_frames frames'
  end.

Definition save_video (frames : list (image px)) (output_path : string)
    (fps : Z) : traced unit :=
  match frames with
  | [] => ret tt
  | frame0 :: _ =>
      let '(height, width) := (height frame0, width frame0) in
      let! fourcc := call (EvFourcc "mp4v") (Ok tt) in
      let! out := call (EvWriterOpen output_path fps (width, height)) (Ok tt) in
      let! _ := write_frames frames in
      call EvWriterRelease (Ok tt)
  end.

(** [generate_lip_sync] once the audio features and the video frames
    are loaded. *)
Definition generate_lip_sync (self : t) (features : audio_features)
    (video_frames : list (image px)) (output_path : string) : traced unit :=
  let! aligned := lift (align_audio_video features video_frames) in
  let '(aligned_audio, aligned_frames) := aligned in
  let! output_frames := lip_sync_frames self aligned_audio aligned_frames in
  save_video output_frames output_path 25.

End Pipeline.
Arguments event : clear implicits.
Arguments traced : clear implicits.
Arguments t : clear implicits.

End OmniSyncFramework.

(** ** The specification's formulas

    These definitions follow the words of the specification; they are
    compared with the code above. *)

Module Spec.
Import FaceDetector.

Definition clamp (v lo hi : Z) : Z := Z.max lo (Z.min v hi).

(** [clamp(floor(i * audioFrameCount / targetFrameCount), 0,
    audioFrameCount - 1)] *)
Definition source_column (i audioFrameCount targetFrameCount : Z) : Z :=
  clamp (i * audioFrameCount / targetFrameCount) 0 (audioFrameCount - 1).

(** [frame[y + 0.67h : y + h, x + 0.2w : x + 0.8w]].  The bounds are not
    integers in general; [rnd] is the rounding applied to them
    ([Qfloor] or [Qceiling]). *)
Definition extractRegion {px} (rnd : Q -> Z) (frame : image px) (b : bbox) : image px :=
  let '(x, y, w, h) := b in
  slice2 frame
    (rnd (inject_Z y + 0.67 * inject_Z h)%Q) (y + h)
    (rnd (inject_Z x + 0.2 * inject_Z w)%Q) (rnd (inject_Z x + 0.8 * inject_Z w)%Q).

End Spec.

(** ** Auxiliary notions used in the statements *)

Module Run.
Import FaceDetector OmniSyncFramework.

Section Run.
Context {px tensor : Type}.

(** The calls made for one frame whose audio row is [audio_input]: the
    detector alone when it finds no face (or raises); otherwise the
    detector, the resize and, when the resize and the tensor conversion
    return, the predictor. *)
Definition frame_trace (self : t px tensor) (audio_input : list Q)
    (frame : image px) : list (event px tensor) :=
  match detect_face self frame with
  | Ok (Some face_bbox) =>
      let lip_region := extract_lip_region frame face_bbox in
      match cv2_resize self lip_region (64, 64) with
      | Ok lip_resized =>
          match visual_tensor self lip_resized with
          | Ok visual_input =>
              [EvDetect frame; EvResize lip_region (64, 64);
               EvForward audio_input visual_input]
          | Raise _ => [EvDetect frame; EvResize lip_region (64, 64)]
          end
      | Raise _ => [EvDetect frame; EvResize lip_region (64, 64)]
      end
  | _ => [EvDetect frame]
  end.

(** Every collaborator called for [frame] returns. *)
Definition collaborators_return (self : t px tensor) (audio_input : list Q)
    (frame : image px) : Prop :=
  match detect_face self frame with
  | Ok None => True
  | Ok (Some face_bbox) =>
      exists lip_resized visual_input output_features,
        cv2_resize self (extract_lip_region frame face_bbox) (64, 64) = Ok lip_resized /\
        visual_tensor self lip_resized = Ok visual_input /\
        model self audio_input visual_input = Ok output_features
  | Raise _ => False
  end.

(** An image without pixels: no row, or rows of no column. *)
Definition empty_image (img : image px) : Prop :=
  height img = 0%nat \/ Forall (fun row => row = []) img.

(** All rows of [img] have [w] pixels. *)
Definition rectangular (w : nat) (img : image px) : Prop :=
  Forall (fun row => length row = w) img.

(** [img[r][c]] for an index inside the array. *)
Definition pixel (img : image px) (r c : nat) : option px :=
  match img !! r with
  | Some row => row !! c
  | None => None
  end.

End Run.
End Run.

(** ** The same expressions in IEEE 754 binary64

    The rational model above drops rounding.  This module evaluates the
    float expressions of the source with the binary64 operations of
    [SpecFloat] (round to nearest, ties to even), so that the two can be
    compared on ranges of inputs. *)

Module Binary64.

Definition prec : Z := 53.
Definition emax : Z := 1024.

(** [float(z)] *)
Definition of_int (z : Z) : spec_float := binary_normalize prec emax z 0 false.

Definition mul : spec_float -> spec_float -> spec_float := SFmul prec emax.
Definition div : spec_float -> spec_float -> spec_float := SFdiv prec emax.
Definition sub : spec_float -> spec_float -> spec_float := SFsub prec emax.

(** The float denoted by the decimal literal [num / den]: the correctly
    rounded quotient of two integers that are floats themselves. *)
Definition literal (num : Z) (den : positive) : spec_float :=
  div (of_int num) (of_int (Zpos den)).

(** The literals of the source. *)
Definition lit_0_67 : spec_float := Eval vm_compute in literal 67 100.
Definition lit_0_33 : spec_float := Eval vm_compute in literal 33 100.
Definition lit_0_2 : spec_float := Eval vm_compute in literal 2 10.
Definition lit_0_6 : spec_float := Eval vm_compute in literal 6 10.
Definition lit_0_5 : spec_float := Eval vm_compute in literal 5 10.
Definition lit_0_3 : spec_float := Eval vm_compute in literal 3 10.
Definition lit_0_7 : spec_float := Eval vm_compute in literal 7 10.

(** [int(f)]; Python raises on infinities and NaN. *)
Definition to_int (f : spec_float) : option Z :=
  match f with
  | S754_zero _ => Some 0
  | S754_finite s m e =>
      let magnitude :=
        match e with
        | Zneg p => Z.shiftr (Zpos m) (Zpos p)
        | _ => Z.shiftl (Zpos m) e
        end in
      Some (if s then - magnitude else magnitude)
  | S754_infinity _ | S754_nan => None
  end.

(** [min(a, b)] *)
Definition min (a b : spec_float) : spec_float := if SFltb b a then b else a.

(** [int(n * c)] for an [int] [n] and a float literal [c], as in
    [int(h * 0.67)]. *)
Definition int_scaled (n : Z) (c : spec_float) : option Z := to_int (mul (of_int n) c).

(** [int(i * n / t)]: the product is an exact [int]; the quotient of two
    [int]s below [2^53] is the float division of their conversions. *)
Definition int_quotient (i n t : Z) : option Z := to_int (div (of_int (i * n)) (of_int t)).

(** The body of [compute_guidance_strength] for [total_frames <> 0]. *)
Definition compute_guidance_strength
    (base_strength audio_power : spec_float) (frame_idx total_frames : Z) : spec_float :=
  let temporal_weight :=
    sub (of_int 1)
        (mul (SFabs (sub (div (of_int frame_idx) (of_int total_frames)) lit_0_5))
             lit_0_3) in
  let audio_weight := min (mul audio_power (of_int 2)) (of_int 1) in
  mul (mul base_strength temporal_weight) audio_weight.

(** The integers [lo], [lo + 1], ..., [lo + n - 1]. *)
Definition range (lo : Z) (n : nat) : list Z :=
  List.map (fun k => lo + Z.of_nat k) (List.seq 0 n).

(** At box side [n] the four truncations of [extract_lip_region] are the
    integers of the rational model. *)
Definition lip_window_agrees (n : Z) : bool :=
  match int_scaled n lit_0_67, int_scaled n lit_0_33,
        int_scaled n lit_0_2, int_scaled n lit_0_6 with
  | Some a, Some b, Some c, Some d =>
      (a =? Py.int (inject_Z n * 0.67)) && (b =? Py.int (inject_Z n * 0.33))
      && (c =? Py.int (inject_Z n * 0.2)) && (d =? Py.int (inject_Z n * 0.6))
  | _, _, _, _ => false
  end.

(** With [t] frames and [n] columns, the column index computed for every
    row [i < t] is the integer of the rational model. *)
Definition audio_idx_agrees (n t : Z) : bool :=
  forallb
    (fun i =>
       match int_quotient i n t with
       | Some k => k =? Py.int (inject_Z (i * n) / inject_Z t)
       | None => false
       end)
    (range 0 (Z.to_nat t)).

(** In a clip of [t] frames the guidance weight of every frame index from
    0 to [t] lies between 0 and the base strength, for each of the audio
    powers [powers]. *)
Definition guidance_bounded (base : spec_float) (powers : list spec_float)
    (t : Z) : bool :=
  forallb
    (fun i =>
       forallb
         (fun p =>
            let w := compute_guidance_strength base p i t in
            SFleb (of_int 0) w && SFleb w base)
         powers)
    (range 0 (Z.to_nat (t + 1))).

(** The audio powers 0.0, 0.1, ..., 1.5. *)
Definition sample_powers : list spec_float :=
  List.map (fun k => div (of_int k) (of_int 10)) (range 0 16).

End Binary64.

(** ** Concrete data for the examples *)

Module Examples.
Import FaceDetector OmniSyncFramework.

(** A 10 x 10 frame whose pixel at row [r], column [c] is [10 r + c]. *)
Definition frame10 : image nat :=
  (fun r => (fun c => 10 * r + c)%nat <$> seq 0 10) <$> seq 0 10.

(** A 4 x 4 frame of zeros. *)
Definition blank4 : image nat := replicate 4 (replicate 4 0%nat).

(** Collaborators for the examples: the detector finds [face] in the
    10-row frames and nothing elsewhere; the resize raises on an image
    without pixels, as OpenCV does, and otherwise returns its source;
    tensors are images and the predictor returns its visual input. *)
Definition self (face : bbox) : OmniSyncFramework.t nat (image nat) :=
  {| detect_face := fun frame =>
       Ok (if (height frame =? 10)%nat then Some face else None);
     cv2_resize := fun src _ =>
       if ((height src =? 0)%nat || (width src =? 0)%nat)%bool
       then Raise Cv2Error else Ok src;
     visual_tensor := fun img => Ok img;
     model := fun _ visual_input => Ok visual_input;
     guidance_system := DynamicGuidanceSystem.default |}.

(** Two mel bands, four audio frames. *)
Definition mel4 : ndarray :=
  {| shape0 := 2; columns := [[1; 2]; [3; 4]; [5; 6]; [7; 8]]%Q |}.

(** No audio frame at all. *)
Definition mel0 : ndarray := {| shape0 := 2; columns := [] |}.

Definition features (duration : Q) (mel_spec : ndarray) : audio_features :=
  {| audio_length := duration; mel_spectrogram := mel_spec |}.

End Examples.

(** ** What a trace shows *)

Module Observe.
Import FaceDetector OmniSyncFramework.

Section Observe.
Context {px tensor : Type}.

(** The frames the detector was called on, in call order. *)
Definition detected (tr : list (event px tensor)) : list (image px) :=
  omap (fun ev => match ev with EvDetect frame => Some frame | _ => None end) tr.

(** The frames handed to the video writer, in call order. *)
Definition written (tr : list (event px tensor)) : list (image px) :=
  omap (fun ev => match ev with EvWriterWrite frame => Some frame | _ => None end) tr.

(** Whether an event is a call to the video codec. *)
Definition is_codec (ev : event px tensor) : bool :=
  match ev with
  | EvFourcc _ | EvWriterOpen _ _ _ | EvWriterWrite _ | EvWriterRelease => true
  | EvDetect _ | EvResize _ _ | EvForward _ _ => false
  end.

(** A collaborator raises [e] on [frame], whose audio row is
    [audio_input]: the detector, or, for a detected face, the resize, the
    tensor conversion or the predictor, those called before it having
    returned. *)
Definition collaborator_raises (self : OmniSyncFramework.t px tensor)
    (audio_input : list Q) (frame : image px) (e : exn) : Prop :=
  match detect_face self frame with
  | Raise e' => e' = e
  | Ok None => False
  | Ok (Some face_bbox) =>
      match cv2_resize self (extract_lip_region frame face_bbox) (64, 64) with
      | Raise e' => e' = e
      | Ok lip_resized =>
          match visual_tensor self lip_resized with
          | Raise e' => e' = e
          | Ok visual_input => model self audio_input visual_input = Raise e
          end
      end
  end.

End Observe.
End Observe.

(** ** FaceDetector.detect_face *)

Module Detection.
Import FaceDetector.

Section Detection.
Context {px : Type}.

(** A detector.  [face_net] is [self.face_net]: the forward pass of the
    DNN model on a frame (blob construction included), or nothing when
    the model file was not found.  Its result is [detections[0, 0]], one
    row of seven numbers per candidate.  [haar_cascade] is the fallback,
    [detectMultiScale] on the grey-level frame. *)
Record t : Type :=
  { face_net : option (image px -> result (list (list Q)));
    haar_cascade : image px -> result (list bbox) }.

(** The entries of [detections] are NumPy float32 numbers, and
    [detections[0, 0, i, 3] * w] multiplies one of them by a Python
    [int].  What NumPy returns depends on its version: NumPy 2 gives a
    float32, the product rounded to 24 bits; NumPy 1 gives a float64, in
    which the product of a float32 and an [int] below [2^29] is exact.
    [rounding] is the rounding that the installed NumPy applies to the
    exact product; it is the identity under NumPy 1.  The comparison
    [confidence > 0.5] is exact in either case. *)
Variable rounding : Q -> Q.

(** The box of one candidate, scaled to a frame of [w] by [h] pixels. *)
Definition box_of (row : list Q) (w h : Z) : result bbox :=
  let? d3 := index row 3 in
  let x1 := int (rounding (d3 * inject_Z w)) in
  let? d4 := index row 4 in
  let y1 := int (rounding (d4 * inject_Z h)) in
  let? d5 := index row 5 in
  let x2 := int (rounding (d5 * inject_Z w)) in
  let? d6 := index row 6 in
  let y2 := int (rounding (d6 * inject_Z h)) in
  Ok (x1, y1, x2 - x1, y2 - y1).

(** [for i in range(detections.shape[2])], over the remaining rows. *)
Fixpoint scan_detections (w h : Z) (detections : list (list Q)) : result (option bbox) :=
  match detections with
  | [] => Ok None
  | row :: detections' =>
      let? confidence := index row 2 in
      if Qlt_le_dec 0.5 confidence then
        let? face_bbox := box_of row w h in
        Ok (Some face_bbox)
      else scan_detections w h detections'
  end.

Definition detect_face (self : t) (frame : image px) : result (option bbox) :=
  match face_net self with
  | None =>
      let? faces := haar_cascade self frame in
      Ok (match faces with
          | face :: _ => Some face
          | [] => None
          end)
  | Some forward =>
      let '(h, w) := (height frame, width frame) in
      let? detections := forward frame in
      scan_detections (Z.of_nat w) (Z.of_nat h) detections
  end.

End Detection.
Arguments t : clear implicits.

End Detection.

(** ** Loading, the whole of [generate_lip_sync], and [main] *)

Module Program.
Import FaceDetector OmniSyncFramework.

(** class AudioProcessor *)
Record AudioProcessor : Type := { sample_rate : Z }.

(** [__init__(self, sample_rate=16000)] *)
Definition default_processor : AudioProcessor := {| sample_rate := 16000 |}.

(** The dictionary returned by [extract_audio_features]. *)
Record feature_dict : Type :=
  { mfcc : ndarray;
    mel_spectrogram : ndarray;
    chroma : ndarray;
    spectral_centroid : ndarray;
    audio_length : Q }.

(** The two entries of the dictionary that [align_audio_video] reads. *)
Definition read_by_align (d : feature_dict) : audio_features :=
  {| OmniSyncFramework.audio_length := audio_length d;
     OmniSyncFramework.mel_spectrogram := mel_spectrogram d |}.

(** What [print] is given. *)
Inductive line : Type :=
| Text (s : string)
| Processing (n_frames : nat)
| Saved (output_path : string)
| SamplePath (kind : string) (path : string).

Section Program.
Context {px tensor : Type}.

(** Calls that leave the program, in program order.  [IoCore] wraps the
    calls of the alignment, the loop and [save_video]. *)
Inductive io_event : Type :=
| IoPrint (l : line)
| IoLoad (audio_path : string) (sr : Z)
| IoFeature (name : string) (audio : list Q) (sr : Z)
| IoCapture (video_path : string)
| IoRead
| IoRelease
| IoExists (path : string)
| IoNew
| IoCore (ev : event px tensor).

(** The world outside the program.  [librosa_load] is [librosa.load];
    [librosa_feature] is [librosa.feature.<name>] for the extractors
    that librosa has; [video_capture] gives,
    for a path, the frames that successive [cap.read()] calls return, a
    [None] being a read that fails; once this list is used up every read
    fails.  [path_exists] is [os.path.exists] and [new_framework] is the
    constructor call [OmniSyncFramework()]. *)
Record world : Type :=
  { librosa_load : string -> Z -> result (list Q);
    librosa_feature : string -> list Q -> Z -> result ndarray;
    video_capture : string -> list (option (image px));
    path_exists : string -> bool;
    new_framework : result (OmniSyncFramework.t px tensor) }.

Definition io (A : Type) : Type := list io_event * result A.

Definition io_ret {A} (a : A) : io A := ([], Ok a).

Definition io_bind {A B} (m : io A) (k : A -> io B) : io B :=
  match m with
  | (tr, Ok a) => (tr ++ fst (k a), snd (k a))
  | (tr, Raise e) => (tr, Raise e)
  end.

Definition io_call {A} (ev : io_event) (r : result A) : io A := ([ev], r).

Definition io_lift {A} (r : result A) : io A := ([], r).

Definition print (l : line) : io unit := ([IoPrint l], Ok tt).

(** A computation of the framework, run inside the program. *)
Definition core {A} (m : traced px tensor A) : io A :=
  (IoCore <$> events m, outcome m).

Notation "'let!' x ':=' m 'in' k" := (io_bind m (fun x => k))
  (at level 10, x name, m at level 100, k at level 200).

Definition load_audio (w : world) (self : AudioProcessor) (audio_path : string)
    : io (list Q) :=
  io_call (IoLoad audio_path (sample_rate self))
          (librosa_load w audio_path (sample_rate self)).

(** [librosa.feature.chroma]: the module [librosa.feature] has no
    attribute of that name (its chroma extractors are [chroma_stft],
    [chroma_cqt], [chroma_cens] and [chroma_vqt]), so the attribute
    lookup raises before anything is called. *)
Definition librosa_feature_chroma : result ndarray := Raise AttributeError.

Definition extract_audio_features (w : world) (self : AudioProcessor) (audio : list Q)
    : io feature_dict :=
  let sr := sample_rate self in
  let! mfcc := io_call (IoFeature "mfcc" audio sr) (librosa_feature w "mfcc" audio sr) in
  let! mel_spec :=
    io_call (IoFeature "melspectrogram" audio sr)
            (librosa_feature w "melspectrogram" audio sr) in
  let! chroma := io_lift librosa_feature_chroma in
  let! spectral_centroid :=
    io_call (IoFeature "spectral_centroid" audio sr)
            (librosa_feature w "spectral_centroid" audio sr) in
  let! audio_length := io_lift (truediv (Z.of_nat (length audio)) sr) in
  io_ret {| mfcc := mfcc; mel_spectrogram := mel_spec; chroma := chroma;
            spectral_centroid := spectral_centroid; audio_length := audio_length |}.

(** [while True: ret, frame = cap.read() ...], on what the capture still
    has to give. *)
Fixpoint read_frames (pending : list (option (image px))) (frames : list (image px))
    : io (list (image px)) :=
  let! _ := io_call IoRead (Ok tt) in
  match pending with
  | Some frame :: pending' => read_frames pending' (frames ++ [frame])
  | None :: _ | [] => io_ret frames
  end.

Definition preprocess_video (w : world) (video_path : string) : io (list (image px)) :=
  let! _ := io_call (IoCapture video_path) (Ok tt) in
  let! frames := read_frames (video_capture w video_path) [] in
  let! _ := io_call IoRelease (Ok tt) in
  io_ret frames.

(** [OmniSyncFramework.generate_lip_sync(video_path, audio_path,
    output_path)], from the first [print] to the last. *)
Definition generate_lip_sync (w : world) (audio_processor : AudioProcessor)
    (self : OmniSyncFramework.t px tensor)
    (video_path audio_path output_path : string) : io unit :=
  let! _ := print (Text "Loading and processing inputs...") in
  let! audio := load_audio w audio_processor audio_path in
  let! audio_features := extract_audio_features w audio_processor audio in
  let! video_frames := preprocess_video w video_path in
  let! aligned := io_lift (align_audio_video (read_by_align audio_features) video_frames) in
  let '(aligned_audio, aligned_frames) := aligned in
  let! _ := print (Processing (length aligned_frames)) in
  let! output_frames := core (lip_sync_frames self aligned_audio aligned_frames) in
  let! _ := core (save_video output_frames output_path 25) in
  print (Saved output_path).

Definition exists_ (w : world) (path : string) : io bool :=
  io_call (IoExists path) (Ok (path_exists w path)).

Definition main (w : world) : io unit :=
  let! _ := print (Text "Initializing OmniSync Framework...") in
  let! omnisync := io_call IoNew (new_framework w) in
  let video_path := "input_video.mp4"%string in
  let audio_path := "target_audio.wav"%string in
  let output_path := "output_synced.mp4"%string in
  let! video_found := exists_ w video_path in
  let! _ :=
    if negb video_found then
      let! _ := print (SamplePath "video" video_path) in
      print (Text "Please provide actual video file")
    else io_ret tt in
  let! audio_found := exists_ w audio_path in
  let! _ :=
    if negb audio_found then
      let! _ := print (SamplePath "audio" audio_path) in
      print (Text "Please provide actual audio file")
    else io_ret tt in
  let! video_found := exists_ w video_path in
  let! both_found := if video_found then exists_ w audio_path else io_ret false in
  if both_found then
    generate_lip_sync w default_processor omnisync video_path audio_path output_path
  else
    let! _ := print (Text "Demo mode: Framework initialized successfully!") in
    let! _ := print (Text "To use:") in
    let! _ := print (Text "1. Provide input video and audio files") in
    let! _ :=
      print (Text "2. Call omnisync.generate_lip_sync(video_path, audio_path, output_path)") in
    print (Text "3. For training: omnisync.train_model(training_data_path)").

(** [m] after the calls [tr]. *)
Definition io_after {A} (tr : list io_event) (m : io A) : io A :=
  (tr ++ fst m, snd m).

(** The lines printed, in order. *)
Definition printed (tr : list io_event) : list line :=
  omap (fun ev => match ev with IoPrint l => Some l | _ => None end) tr.

(** Whether a call opens, reads or releases the video, or is a call of
    the framework (detector, resize, predictor, codec). *)
Definition reaches_video (ev : io_event) : bool :=
  match ev with
  | IoCapture _ | IoRead | IoRelease | IoCore _ => true
  | IoPrint _ | IoLoad _ _ | IoFeature _ _ _ | IoExists _ | IoNew => false
  end.

(** Whether a call reads the audio or the video, or is a call of the
    framework (detector, resize, predictor, codec). *)
Definition touches_media (ev : io_event) : bool :=
  match ev with
  | IoLoad _ _ | IoFeature _ _ _ | IoCapture _ | IoRead | IoRelease | IoCore _ => true
  | IoPrint _ | IoExists _ | IoNew => false
  end.

End Program.
Arguments io_event : clear implicits.
Arguments world : clear implicits.
Arguments io : clear implicits.

End Program.

(** ** The shape of the guidance weight in binary64 *)

Module Binary64Shape.

(** In a clip of [t] frames, for all frame indices [i <= j <= t] and
    each of the audio powers [powers]: the weight of frame [j] is at
    least that of frame [i] when [j] lies in the first half, and at most
    that when [i] lies in the second half. *)
Definition guidance_rises (base : spec_float) (powers : list spec_float) (t : Z) : bool :=
  forallb
    (fun j =>
       forallb
         (fun i =>
            forallb
              (fun p =>
                 let wi := Binary64.compute_guidance_strength base p i t in
                 let wj := Binary64.compute_guidance_strength base p j t in
                 (if 2 * j <=? t then SFleb wi wj else true)
                 && (if t <=? 2 * i then SFleb wj wi else true))
              powers)
         (Binary64.range 0 (Z.to_nat (j + 1))))
    (Binary64.range 0 (Z.to_nat (t + 1))).

End Binary64Shape.

(** ** The products of [detect_face] in IEEE 754 binary32

    Under NumPy 2 the product of a float32 and a Python [int] is a
    float32.  The rounding is computed with the Standard Library's
    [SpecFloat]: the numerator of the exact product is rounded to 24
    bits and divided by the denominator.  For the products of
    [detect_face] the denominator is a power of two, the division is
    exact and the result is the correctly rounded product. *)

Module Binary32.

Definition prec : Z := 24.
Definition emax : Z := 128.

Definition of_int (z : Z) : spec_float := binary_normalize prec emax z 0 false.

(** The rational number that a finite float is. *)
Definition to_Q (f : spec_float) : Q :=
  match f with
  | S754_finite s m e =>
      let magnitude :=
        match e with
        | Zneg p => Zpos m # Pos.shiftl 1 (Npos p)
        | _ => inject_Z (Z.shiftl (Zpos m) e)
        end in
      if s then Qopp magnitude else magnitude
  | S754_zero _ | S754_infinity _ | S754_nan => 0
  end.

(** The float32 nearest to the quotient of two integers that are
    float32 numbers themselves, such as the decimal fraction
    [num / den] of a literal. *)
Definition literal (num : Z) (den : positive) : Q :=
  to_Q (SFdiv prec emax (of_int num) (of_int (Zpos den))).

(** Rounding to float32 of a rational whose denominator is a power of
    two (the result stays below the overflow threshold for the sizes of
    a frame). *)
Definition rounding (q : Q) : Q :=
  to_Q (SFdiv prec emax (of_int (Qnum q)) (of_int (Zpos (Qden q)))).

End Binary32.

(** ** Sample data *)

Module Samples.
Import FaceDetector OmniSyncFramework.

(** A DNN detector that answers every frame with the same candidates. *)
Definition dnn (detections : list (list Q)) : Detection.t nat :=
  {| Detection.face_net := Some (fun _ => Ok detections);
     Detection.haar_cascade := fun _ => Ok [] |}.

(** The float32 numbers nearest to 0.1, 0.2, 0.6, 0.8, 0.9 and 0.99. *)
Definition f32_0_1 : Q := Eval vm_compute in Binary32.literal 1 10.
Definition f32_0_2 : Q := Eval vm_compute in Binary32.literal 2 10.
Definition f32_0_6 : Q := Eval vm_compute in Binary32.literal 6 10.
Definition f32_0_8 : Q := Eval vm_compute in Binary32.literal 8 10.
Definition f32_0_9 : Q := Eval vm_compute in Binary32.literal 9 10.
Definition f32_0_99 : Q := Eval vm_compute in Binary32.literal 99 100.

(** Three candidates, in float32: one at the threshold, one above it,
    and a more confident one behind. *)
Definition candidates : list (list Q) :=
  [[0; 1; 0.5; f32_0_1; f32_0_1; f32_0_9; f32_0_9];
   [0; 1; f32_0_6; f32_0_1; f32_0_2; f32_0_9; f32_0_8];
   [0; 1; f32_0_99; 0; 0; 1; 1]]%Q.

(** A world in which every audio file holds [audio], every feature is
    the four-column spectrogram, every video holds [capture], every path
    exists or none does, and the constructor returns the example
    framework. *)
Definition world (audio : list Q) (capture : list (option (image nat))) (found : bool)
    : Program.world nat (image nat) :=
  {| Program.librosa_load := fun _ _ => Ok audio;
     Program.librosa_feature := fun _ _ _ => Ok Examples.mel4;
     Program.video_capture := fun _ => capture;
     Program.path_exists := fun _ => found;
     Program.new_framework := Ok (Examples.self (0, 0, 10, 10)) |}.

End Samples.

(** * Properties *)

Import FaceDetector OmniSyncFramework Run.

(** ** Python and NumPy primitives *)

Section PyFacts.
Context {A : Type}.
Implicit Types (l : list A) (a n k : Z).

Lemma truediv_nonzero (x y : Z) :
  y <> 0 -> truediv x y = Ok (inject_Z x / inject_Z y)%Q.
Proof.
  intros Hy. unfold truediv.
  destruct (Z.eqb_spec y 0); [contradiction | reflexivity].
Qed.

Lemma truediv_float_nonzero (x : Z) (y : Q) :
  ~ (y == 0)%Q -> truediv_float x y = Ok (inject_Z x / y)%Q.
Proof.
  intros Hy. unfold truediv_float.
  destruct (Qeq_bool y 0) eqn:E; [| reflexivity].
  apply Qeq_bool_eq in E. contradiction.
Qed.

Lemma truediv_float_zero (x : Z) (y : Q) :
  (y == 0)%Q -> truediv_float x y = Raise ZeroDivisionError.
Proof.
  intros Hy. unfold truediv_float. rewrite (Qeq_eq_bool _ _ Hy). reflexivity.
Qed.

(** [int(h * c)] for a decimal literal [c = p / d]. *)
Lemma int_mul_literal (h p : Z) (d : positive) :
  int (inject_Z h * (p # d))%Q = Z.quot (h * p) (Zpos d).
Proof. unfold int. cbn. reflexivity. Qed.

(** [int(x / y)] for two [int]s. *)
Lemma int_truediv (x y : Z) :
  0 < y -> int (inject_Z x / inject_Z y)%Q = Z.quot x y.
Proof.
  intros Hy. destruct y as [| p | p]; try lia.
  unfold int. cbn. rewrite Z.mul_1_r. reflexivity.
Qed.

Lemma index_nat l (i : nat) (x : A) :
  l !! i = Some x -> index l (Z.of_nat i) = Ok x.
Proof.
  intros Hl. pose proof (lookup_lt_Some _ _ _ Hl) as Hlt.
  unfold index.
  destruct (Z.ltb_spec (Z.of_nat i) 0); [lia |].
  destruct (Z.leb_spec 0 (Z.of_nat i)); [| lia].
  destruct (Z.ltb_spec (Z.of_nat i) (Z.of_nat (length l))); [| lia].
  cbn. rewrite Nat2Z.id, Hl. reflexivity.
Qed.

Lemma index_nonneg l k (x : A) :
  0 <= k -> l !! Z.to_nat k = Some x -> index l k = Ok x.
Proof.
  intros Hk Hl. rewrite <- (Z2Nat.id k Hk). apply index_nat, Hl.
Qed.

Lemma slice_bound_inside (len i : Z) :
  0 <= i <= len -> slice_bound len i = i.
Proof.
  intros [H0 H1]. unfold slice_bound.
  destruct (Z.ltb_spec i 0); lia.
Qed.

Lemma slice_inside l a n :
  0 <= a -> 0 <= n -> a + n <= Z.of_nat (length l) ->
  slice l a (a + n) = take (Z.to_nat n) (drop (Z.to_nat a) l).
Proof.
  intros Ha Hn Hlen. unfold slice.
  rewrite !slice_bound_inside by lia.
  f_equal. lia.
Qed.

Lemma slice_inside_length l a n :
  0 <= a -> 0 <= n -> a + n <= Z.of_nat (length l) ->
  length (slice l a (a + n)) = Z.to_nat n.
Proof.
  intros Ha Hn Hlen. rewrite slice_inside by assumption.
  rewrite length_take, length_drop. lia.
Qed.

Lemma slice_inside_lookup l a n (r : nat) :
  0 <= a -> 0 <= n -> a + n <= Z.of_nat (length l) ->
  (r < Z.to_nat n)%nat ->
  slice l a (a + n) !! r = l !! (Z.to_nat a + r)%nat.
Proof.
  intros Ha Hn Hlen Hr. rewrite slice_inside by assumption.
  rewrite lookup_take_lt by exact Hr. apply lookup_drop.
Qed.

(** A slice whose two bounds coincide is empty, wherever it starts. *)
Lemma slice_same_bounds l a : slice l a (a + 0) = [].
Proof.
  unfold slice. rewrite Z.add_0_r, Z.sub_diag. reflexivity.
Qed.

End PyFacts.

(** ** Guidance weighting *)

Section GuidanceFacts.
Import DynamicGuidanceSystem.
Local Open Scope Q_scope.

(** The position [frame_idx / total_frames] of a frame inside its clip. *)
Lemma position_unit_interval (frame_idx total_frames : Z) :
  (0 <= frame_idx <= total_frames)%Z -> (1 <= total_frames)%Z ->
  0 <= inject_Z frame_idx / inject_Z total_frames <= 1.
Proof.
  intros [Hlo Hhi] Hpos.
  assert (Ht : 0 < inject_Z total_frames).
  { change 0 with (inject_Z 0). rewrite <- Zlt_Qlt. lia. }
  split.
  - apply Qle_shift_div_l; [exact Ht |].
    rewrite Qmult_0_l. change 0 with (inject_Z 0). rewrite <- Zle_Qle. lia.
  - apply Qle_shift_div_r; [exact Ht |].
    rewrite Qmult_1_l. rewrite <- Zle_Qle. lia.
Qed.

(** 0.85 at both ends of the clip, 1 in the middle. *)
Lemma temporal_weight_range (q : Q) :
  0 <= q <= 1 -> 0.85 <= temporal_weight q <= 1.
Proof.
  intros [Hlo Hhi]. unfold temporal_weight.
  assert (Habs : 0 <= Qabs (q - 0.5) <= 0.5).
  { split; [apply Qabs_nonneg |].
    apply Qabs_Qle_condition. split; lra. }
  destruct Habs. split; lra.
Qed.

Lemma audio_weight_range (audio_power : Q) :
  0 <= audio_power -> 0 <= audio_weight audio_power <= 1.
Proof.
  intros Hp. unfold audio_weight, Py.min.
  destruct (Qlt_le_dec 1 (audio_power * 2)); split; lra.
Qed.

(** Inside the loop the guidance computation cannot raise: the frame
    count is the length of a list that has a frame at this index. *)
Lemma guidance_in_loop (g : DynamicGuidanceSystem.t) (p : Q) (i total : nat) :
  (i < total)%nat ->
  exists s, compute_guidance_strength g p (Z.of_nat i) (Z.of_nat total) = Ok s.
Proof.
  intros Hi. unfold compute_guidance_strength.
  rewrite truediv_nonzero by lia. cbn. eauto.
Qed.

End GuidanceFacts.

(** C4.  For valid inputs (a non-negative base strength, a non-negative
    audio power, a frame index between 0 and the frame count, at least one
    frame) the guidance weight is computed without error and lies between
    0 and the base strength; the temporal factor and the audio factor both
    lie between 0 and 1. *)
Theorem C4_guidance_weight_bounded
    (self : DynamicGuidanceSystem.t) (audio_power : Q) (frame_idx total_frames : Z) :
  (0 <= DynamicGuidanceSystem.base_strength self)%Q ->
  (0 <= audio_power)%Q ->
  0 <= frame_idx <= total_frames ->
  1 <= total_frames ->
  exists q weight : Q,
    truediv frame_idx total_frames = Ok q /\
    DynamicGuidanceSystem.compute_guidance_strength
      self audio_power frame_idx total_frames = Ok weight /\
    (0 <= DynamicGuidanceSystem.temporal_weight q <= 1)%Q /\
    (0 <= DynamicGuidanceSystem.audio_weight audio_power <= 1)%Q /\
    (0 <= weight <= DynamicGuidanceSystem.base_strength self)%Q.
Proof.
  intros Hbase Hpow Hidx Htot.
  pose proof (position_unit_interval frame_idx total_frames Hidx Htot) as Hq.
  pose proof (temporal_weight_range _ Hq) as [Ht0 Ht1].
  pose proof (audio_weight_range _ Hpow) as [Ha0 Ha1].
  eexists; eexists. split; [apply truediv_nonzero; lia |].
  unfold DynamicGuidanceSystem.compute_guidance_strength.
  rewrite truediv_nonzero by lia. cbn [Py.bind].
  split; [reflexivity |].
  set (tw := DynamicGuidanceSystem.temporal_weight _) in *.
  set (aw := DynamicGuidanceSystem.audio_weight _) in *.
  set (b := DynamicGuidanceSystem.base_strength self) in *.
  assert (Hbt : (0 <= b * tw <= b)%Q) by (split; nra).
  destruct Hbt.
  repeat split; try lra; nra.
Qed.

(** C4 at the default base strength 0.7, audio power 0.4, frame 25 of 100. *)
Lemma C4_guidance_weight_bounded_witness :
  (0 <= DynamicGuidanceSystem.base_strength DynamicGuidanceSystem.default)%Q /\
  (0 <= 0.4)%Q /\ 0 <= 25 <= 100 /\ 1 <= 100 /\
  exists q weight : Q,
    truediv 25 100 = Ok q /\
    DynamicGuidanceSystem.compute_guidance_strength
      DynamicGuidanceSystem.default 0.4 25 100 = Ok weight /\
    (0 <= DynamicGuidanceSystem.temporal_weight q <= 1)%Q /\
    (0 <= DynamicGuidanceSystem.audio_weight 0.4 <= 1)%Q /\
    (0 <= weight <= DynamicGuidanceSystem.base_strength DynamicGuidanceSystem.default)%Q.
Proof.
  assert (H1 : (0 <= DynamicGuidanceSystem.base_strength DynamicGuidanceSystem.default)%Q)
    by (vm_compute; discriminate).
  assert (H2 : (0 <= 0.4)%Q) by (vm_compute; discriminate).
  assert (H3 : 0 <= 25 <= 100) by lia.
  assert (H4 : 1 <= 100) by lia.
  split; [exact H1 |]. split; [exact H2 |]. split; [exact H3 |]. split; [exact H4 |].
  exact (C4_guidance_weight_bounded DynamicGuidanceSystem.default 0.4 25 100 H1 H2 H3 H4).
Defined.

(** C5 (as the code behaves).  With [total_frames = 0] the computation
    fails with Python's [ZeroDivisionError], whatever the base strength,
    the audio power and the frame index are: the division
    [frame_idx / total_frames] is the first statement and nothing checks
    its divisor. *)
Theorem C5_zero_total_frames_raises_zero_division
    (self : DynamicGuidanceSystem.t) (audio_power : Q) (frame_idx : Z) :
  DynamicGuidanceSystem.compute_guidance_strength self audio_power frame_idx 0
  = Raise ZeroDivisionError.
Proof. reflexivity. Qed.

(** C5, counterexample to the claim as stated: at base strength 0.7,
    audio power 1, frame 0 of 0 the failure is a division by zero and not
    [InvalidArgument]. *)
Lemma C5_not_invalid_argument :
  DynamicGuidanceSystem.compute_guidance_strength DynamicGuidanceSystem.default 1 0 0
    = Raise ZeroDivisionError /\
  DynamicGuidanceSystem.compute_guidance_strength DynamicGuidanceSystem.default 1 0 0
    <> Raise InvalidArgument.
Proof. split; [reflexivity | discriminate]. Qed.

(** ** The lip region *)

Section LipRegionFacts.
Context {px : Type}.
Implicit Types (frame : image px) (x y w h : Z).

(** The four numbers of the crop window, in integer arithmetic
    ([Z.quot] truncates toward zero, as [int()] does). *)
Lemma lip_window x y w h :
  lip_y (x, y, w, h) = y + Z.quot (h * 67) 100 /\
  lip_h (x, y, w, h) = Z.quot (h * 33) 100 /\
  lip_x (x, y, w, h) = x + Z.quot (w * 2) 10 /\
  lip_w (x, y, w, h) = Z.quot (w * 6) 10.
Proof. unfold lip_y, lip_h, lip_x, lip_w. rewrite !int_mul_literal. auto. Qed.

Lemma zero_height_crop frame x y w h :
  lip_h (x, y, w, h) = 0 -> height (extract_lip_region frame (x, y, w, h)) = 0%nat.
Proof.
  intros Hh. unfold extract_lip_region, slice2, height.
  rewrite Hh, slice_same_bounds. reflexivity.
Qed.

Lemma zero_width_crop frame x y w h :
  lip_w (x, y, w, h) = 0 ->
  Forall (fun row => row = []) (extract_lip_region frame (x, y, w, h)).
Proof.
  intros Hw. unfold extract_lip_region, slice2.
  rewrite Hw. apply Forall_fmap, Forall_forall.
  intros row _. cbn. apply slice_same_bounds.
Qed.

(** A window that lies inside a rectangular array: its size and its
    pixels. *)
Lemma slice2_inside frame (frame_width : nat) (r0 nr c0 nc : Z) :
  rectangular frame_width frame ->
  0 <= r0 -> 0 <= nr -> r0 + nr <= Z.of_nat (height frame) ->
  0 <= c0 -> 0 <= nc -> c0 + nc <= Z.of_nat frame_width ->
  height (slice2 frame r0 (r0 + nr) c0 (c0 + nc)) = Z.to_nat nr /\
  rectangular (Z.to_nat nc) (slice2 frame r0 (r0 + nr) c0 (c0 + nc)) /\
  forall r c : nat,
    (r < Z.to_nat nr)%nat -> (c < Z.to_nat nc)%nat ->
    pixel (slice2 frame r0 (r0 + nr) c0 (c0 + nc)) r c
    = pixel frame (Z.to_nat r0 + r) (Z.to_nat c0 + c).
Proof.
  intros Hrect Hr0 Hnr Hrows Hc0 Hnc Hcols. unfold height in *.
  assert (Hsub : Forall (fun row => length row = frame_width) (slice frame r0 (r0 + nr))).
  { rewrite slice_inside by assumption.
    apply Forall_take, Forall_drop, Hrect. }
  split; [| split].
  - unfold slice2. rewrite length_fmap. apply slice_inside_length; assumption.
  - unfold rectangular, slice2. apply Forall_fmap.
    eapply Forall_impl; [exact Hsub |].
    intros row Hrow. cbn in *. apply slice_inside_length; [assumption .. |].
    rewrite Hrow. exact Hcols.
  - intros r c Hr Hc. unfold pixel, slice2.
    rewrite list_lookup_fmap.
    rewrite slice_inside_lookup by assumption.
    destruct (frame !! (Z.to_nat r0 + r)%nat) as [row |] eqn:Erow; cbn; [| reflexivity].
    apply slice_inside_lookup; try assumption.
    assert (Hlen : length row = frame_width).
    { eapply (proj1 (Forall_forall _ _) Hrect).
      apply list_elem_of_lookup. eauto. }
    rewrite Hlen. exact Hcols.
Qed.

End LipRegionFacts.

(** C3 (as the code behaves).  The crop is the NumPy slice
    [frame[lip_y : lip_y + lip_h, lip_x : lip_x + lip_w]] whose four
    numbers are truncated to integers: [lip_y = y + int(0.67 h)],
    [lip_h = int(0.33 h)], [lip_x = x + int(0.2 w)], [lip_w = int(0.6 w)].
    When that window lies inside the frame, the crop has exactly [lip_h]
    rows of [lip_w] pixels, and its pixel [(r, c)] is the pixel
    [(lip_y + r, lip_x + c)] of the frame. *)
Theorem C3_lip_region_is_truncated_window
    {px : Type} (frame : image px) (x y w h : Z) :
  extract_lip_region frame (x, y, w, h)
    = slice2 frame
        (y + Z.quot (h * 67) 100) (y + Z.quot (h * 67) 100 + Z.quot (h * 33) 100)
        (x + Z.quot (w * 2) 10) (x + Z.quot (w * 2) 10 + Z.quot (w * 6) 10) /\
  forall frame_width : nat,
    rectangular frame_width frame ->
    0 <= y + Z.quot (h * 67) 100 ->
    0 <= Z.quot (h * 33) 100 ->
    y + Z.quot (h * 67) 100 + Z.quot (h * 33) 100 <= Z.of_nat (height frame) ->
    0 <= x + Z.quot (w * 2) 10 ->
    0 <= Z.quot (w * 6) 10 ->
    x + Z.quot (w * 2) 10 + Z.quot (w * 6) 10 <= Z.of_nat frame_width ->
    height (extract_lip_region frame (x, y, w, h)) = Z.to_nat (Z.quot (h * 33) 100) /\
    rectangular (Z.to_nat (Z.quot (w * 6) 10)) (extract_lip_region frame (x, y, w, h)) /\
    forall r c : nat,
      (r < Z.to_nat (Z.quot (h * 33) 100))%nat ->
      (c < Z.to_nat (Z.quot (w * 6) 10))%nat ->
      pixel (extract_lip_region frame (x, y, w, h)) r c
      = pixel frame (Z.to_nat (y + Z.quot (h * 67) 100) + r)
                    (Z.to_nat (x + Z.quot (w * 2) 10) + c).
Proof.
  assert (Hcrop : extract_lip_region frame (x, y, w, h)
                  = slice2 frame
                      (y + Z.quot (h * 67) 100)
                      (y + Z.quot (h * 67) 100 + Z.quot (h * 33) 100)
                      (x + Z.quot (w * 2) 10)
                      (x + Z.quot (w * 2) 10 + Z.quot (w * 6) 10)).
  { unfold extract_lip_region.
    destruct (lip_window x y w h) as (-> & -> & -> & ->). reflexivity. }
  split; [exact Hcrop |].
  intros frame_width Hrect Hy Hh Hrows Hx Hw Hcols.
  rewrite Hcrop. apply (slice2_inside frame frame_width); assumption.
Qed.

(** C3 on the 10 x 10 frame with the bounding box (0, 0, 10, 10): the
    window is rows 6 to 8, columns 2 to 7. *)
Lemma C3_lip_region_is_truncated_window_witness :
  rectangular 10 Examples.frame10 /\
  0 <= 0 + Z.quot (10 * 67) 100 /\
  0 <= Z.quot (10 * 33) 100 /\
  0 + Z.quot (10 * 67) 100 + Z.quot (10 * 33) 100 <= Z.of_nat (height Examples.frame10) /\
  0 <= 0 + Z.quot (10 * 2) 10 /\
  0 <= Z.quot (10 * 6) 10 /\
  0 + Z.quot (10 * 2) 10 + Z.quot (10 * 6) 10 <= Z.of_nat 10 /\
  height (extract_lip_region Examples.frame10 (0, 0, 10, 10)) = 3%nat /\
  rectangular 6 (extract_lip_region Examples.frame10 (0, 0, 10, 10)) /\
  pixel (extract_lip_region Examples.frame10 (0, 0, 10, 10)) 2 5
    = pixel Examples.frame10 (6 + 2) (2 + 5).
Proof.
  assert (H0 : rectangular 10 Examples.frame10)
    by (vm_compute; repeat constructor).
  assert (H1 : 0 <= 0 + Z.quot (10 * 67) 100) by (vm_compute; discriminate).
  assert (H2 : 0 <= Z.quot (10 * 33) 100) by (vm_compute; discriminate).
  assert (H3 : 0 + Z.quot (10 * 67) 100 + Z.quot (10 * 33) 100
               <= Z.of_nat (height Examples.frame10))
    by (vm_compute; discriminate).
  assert (H4 : 0 <= 0 + Z.quot (10 * 2) 10) by (vm_compute; discriminate).
  assert (H5 : 0 <= Z.quot (10 * 6) 10) by (vm_compute; discriminate).
  assert (H6 : 0 + Z.quot (10 * 2) 10 + Z.quot (10 * 6) 10 <= Z.of_nat 10)
    by (vm_compute; discriminate).
  destruct (C3_lip_region_is_truncated_window Examples.frame10 0 0 10 10)
    as (_ & Hinside).
  destruct (Hinside 10%nat H0 H1 H2 H3 H4 H5 H6) as (Hheight & Hrect & Hpixel).
  repeat (split; [assumption |]).
  apply (Hpixel 2%nat 5%nat); vm_compute; lia.
Defined.

(** C3, counterexample to the claim as stated: on the 10 x 10 frame with
    the bounding box (0, 0, 10, 10) the crop is rows 6 to 8, columns 2 to
    7.  The slice [frame[y + 0.67h : y + h, x + 0.2w : x + 0.8w]] ends at
    row [y + h - 1 = 9], whichever way its first bound 6.7 is rounded; the
    crop has 3 rows, not [0.33 h = 3.3] and not [h - 0.67 h]. *)
Lemma C3_crop_is_not_the_stated_slice :
  extract_lip_region Examples.frame10 (0, 0, 10, 10)
    = [[62; 63; 64; 65; 66; 67]; [72; 73; 74; 75; 76; 77]; [82; 83; 84; 85; 86; 87]]%nat /\
  extract_lip_region Examples.frame10 (0, 0, 10, 10)
    <> Spec.extractRegion Qfloor Examples.frame10 (0, 0, 10, 10) /\
  extract_lip_region Examples.frame10 (0, 0, 10, 10)
    <> Spec.extractRegion Qceiling Examples.frame10 (0, 0, 10, 10) /\
  last (Spec.extractRegion Qfloor Examples.frame10 (0, 0, 10, 10))
    = Some [92; 93; 94; 95; 96; 97]%nat /\
  last (Spec.extractRegion Qceiling Examples.frame10 (0, 0, 10, 10))
    = Some [92; 93; 94; 95; 96; 97]%nat.
Proof.
  split; [vm_compute; reflexivity |].
  split; [intros H; vm_compute in H; discriminate H |].
  split; [intros H; vm_compute in H; discriminate H |].
  split; vm_compute; reflexivity.
Qed.

(** ** The per-frame loop *)

Section LoopFacts.
Context {px tensor : Type}.
Implicit Types (self : OmniSyncFramework.t px tensor) (frame : image px)
  (frames output_frames : list (image px)) (aligned_audio : list (list Q)).

Lemma bindT_ok {A B} (tr : list (event px tensor)) (a : A)
    (k : A -> traced px tensor B) :
  bindT (tr, Ok a) k = after tr (k a).
Proof. reflexivity. Qed.

Lemma bindT_raise {A B} (tr : list (event px tensor)) (e : exn)
    (k : A -> traced px tensor B) :
  bindT (tr, Raise e) k = (tr, Raise e).
Proof. reflexivity. Qed.

Lemma after_pair {A} (tr tr' : list (event px tensor)) (r : result A) :
  after tr (tr', r) = (tr ++ tr', r).
Proof. reflexivity. Qed.

Lemma outcome_after {A} (tr : list (event px tensor)) (m : traced px tensor A) :
  outcome (after tr m) = outcome m.
Proof. reflexivity. Qed.

(** A call is the first event of whatever follows it. *)
Lemma bindT_call_head {A B} (ev : event px tensor) (r : result A)
    (k : A -> traced px tensor B) :
  exists tr res, bindT (call ev r) k = (ev :: tr, res).
Proof.
  unfold call. destruct r as [a | e].
  - rewrite bindT_ok. unfold after. eauto.
  - rewrite bindT_raise. eauto.
Qed.

Lemma process_frame_absent self aligned_audio total output_frames i frame :
  detect_face self frame = Ok None ->
  process_frame self aligned_audio total output_frames i frame
  = ([EvDetect frame], Ok (output_frames ++ [frame])).
Proof.
  intros Hdet. unfold process_frame, call. rewrite Hdet. reflexivity.
Qed.

Lemma process_frame_detected self aligned_audio total output_frames i frame
    face_bbox audio_input lip_resized visual_input output_features :
  (i < total)%nat ->
  detect_face self frame = Ok (Some face_bbox) ->
  aligned_audio !! i = Some audio_input ->
  cv2_resize self (extract_lip_region frame face_bbox) (64, 64) = Ok lip_resized ->
  visual_tensor self lip_resized = Ok visual_input ->
  model self audio_input visual_input = Ok output_features ->
  process_frame self aligned_audio total output_frames i frame
  = ([EvDetect frame; EvResize (extract_lip_region frame face_bbox) (64, 64);
      EvForward audio_input visual_input],
     Ok (output_frames ++ [frame])).
Proof.
  intros Hi Hdet Hrow Hres Hvis Hmodel.
  unfold process_frame, call, lift.
  rewrite Hdet, bindT_ok.
  rewrite (index_nat _ _ _ Hrow), bindT_ok, Hres, bindT_ok, Hvis, bindT_ok.
  destruct (guidance_in_loop (guidance_system self)
              (mean ((fun v => v * v)%Q <$> audio_input)) i total Hi) as [s ->].
  rewrite bindT_ok, Hmodel, bindT_ok.
  reflexivity.
Qed.

(** The iteration for a frame with a detected face, up to the resize. *)
Lemma process_frame_reaches_resize self aligned_audio total output_frames i frame
    face_bbox audio_input :
  detect_face self frame = Ok (Some face_bbox) ->
  aligned_audio !! i = Some audio_input ->
  (exists tr res,
      process_frame self aligned_audio total output_frames i frame
      = (EvDetect frame :: EvResize (extract_lip_region frame face_bbox) (64, 64) :: tr,
         res)) /\
  (forall e,
      cv2_resize self (extract_lip_region frame face_bbox) (64, 64) = Raise e ->
      process_frame self aligned_audio total output_frames i frame
      = ([EvDetect frame; EvResize (extract_lip_region frame face_bbox) (64, 64)],
         Raise e)).
Proof.
  intros Hdet Hrow.
  split; [| intros e Hres]; unfold process_frame;
    unfold call at 1; rewrite Hdet, bindT_ok;
    unfold lift at 1; rewrite (index_nat _ _ _ Hrow), bindT_ok.
  - match goal with
    | |- context [bindT (call ?ev ?r) ?k] =>
        destruct (bindT_call_head ev r k) as (tr & res & ->)
    end.
    rewrite !after_pair. cbn. eauto.
  - unfold call at 1. rewrite Hres, bindT_raise. reflexivity.
Qed.

(** Whatever the collaborators do, an iteration that completes has
    appended the frame it was given. *)
Lemma process_frame_appends self aligned_audio total output_frames i frame out :
  outcome (process_frame self aligned_audio total output_frames i frame) = Ok out ->
  out = output_frames ++ [frame].
Proof.
  unfold process_frame, call, lift.
  destruct (detect_face self frame) as [[face_bbox |] | e]; cbn;
    [| congruence | discriminate].
  destruct (index aligned_audio (Z.of_nat i)) as [audio_input | e]; cbn;
    [| discriminate].
  destruct (cv2_resize self _ _) as [lip_resized | e]; cbn; [| discriminate].
  destruct (visual_tensor self lip_resized) as [visual_input | e]; cbn;
    [| discriminate].
  destruct (DynamicGuidanceSystem.compute_guidance_strength _ _ _ _) as [s | e];
    cbn; [| discriminate].
  destruct (model self audio_input visual_input) as [output_features | e]; cbn;
    [congruence | discriminate].
Qed.

Lemma lip_sync_loop_appends self aligned_audio total frames :
  forall i output_frames out,
    outcome (lip_sync_loop self aligned_audio total i frames output_frames) = Ok out ->
    out = output_frames ++ frames.
Proof.
  induction frames as [| frame frames IH]; intros i output_frames out;
    cbn [lip_sync_loop].
  - cbn. rewrite app_nil_r. congruence.
  - destruct (process_frame self aligned_audio total output_frames i frame)
      as [tr [out1 | e]] eqn:Estep.
    + rewrite bindT_ok, outcome_after. intros Hrest.
      apply IH in Hrest. subst out.
      rewrite (process_frame_appends self aligned_audio total output_frames i frame out1)
        by (rewrite Estep; reflexivity).
      rewrite <- app_assoc. reflexivity.
    + rewrite bindT_raise. cbn. discriminate.
Qed.

(** With any collaborators at all: if the loop completes, it has emitted
    the input frames. *)
Lemma lip_sync_frames_appends self aligned_audio frames out :
  outcome (lip_sync_frames self aligned_audio frames) = Ok out -> out = frames.
Proof. apply lip_sync_loop_appends. Qed.

Lemma frame_trace_absent self audio_input frame :
  detect_face self frame = Ok None ->
  frame_trace self audio_input frame = [EvDetect frame].
Proof. intros Hdet. unfold frame_trace. rewrite Hdet. reflexivity. Qed.

Lemma frame_trace_detected self audio_input frame face_bbox lip_resized visual_input :
  detect_face self frame = Ok (Some face_bbox) ->
  cv2_resize self (extract_lip_region frame face_bbox) (64, 64) = Ok lip_resized ->
  visual_tensor self lip_resized = Ok visual_input ->
  frame_trace self audio_input frame
  = [EvDetect frame; EvResize (extract_lip_region frame face_bbox) (64, 64);
     EvForward audio_input visual_input].
Proof.
  intros Hdet Hres Hvis. unfold frame_trace. rewrite Hdet, Hres, Hvis. reflexivity.
Qed.

(** One iteration, when the collaborators return. *)
Lemma process_frame_returns self aligned_audio total output_frames i frame audio_input :
  (i < total)%nat ->
  aligned_audio !! i = Some audio_input ->
  collaborators_return self audio_input frame ->
  process_frame self aligned_audio total output_frames i frame
  = (frame_trace self audio_input frame, Ok (output_frames ++ [frame])).
Proof.
  intros Hi Hrow Hret. unfold collaborators_return in Hret.
  destruct (detect_face self frame) as [[face_bbox |] | e] eqn:Hdet.
  - destruct Hret as (lip_resized & visual_input & output_features & Hres & Hvis & Hmodel).
    rewrite (frame_trace_detected _ _ _ _ _ _ Hdet Hres Hvis).
    eapply process_frame_detected; eassumption.
  - rewrite (frame_trace_absent _ _ _ Hdet).
    apply process_frame_absent, Hdet.
  - contradiction.
Qed.

Lemma lip_sync_loop_run self aligned_audio total frames :
  forall i output_frames,
    (i + length frames <= total)%nat ->
    (i + length frames <= length aligned_audio)%nat ->
    (forall j frame audio_input,
        frames !! j = Some frame ->
        aligned_audio !! (i + j)%nat = Some audio_input ->
        collaborators_return self audio_input frame) ->
    lip_sync_loop self aligned_audio total i frames output_frames
    = (concat (zip_with (frame_trace self) (drop i aligned_audio) frames),
       Ok (output_frames ++ frames)).
Proof.
  induction frames as [| frame frames IH]; intros i output_frames Htot Hlen Hret;
    cbn [lip_sync_loop].
  - rewrite zip_with_nil_r, app_nil_r. reflexivity.
  - cbn [length] in Htot, Hlen.
    destruct (lookup_lt_is_Some_2 aligned_audio i) as [audio_input Hrow]; [lia |].
    rewrite (drop_S _ _ _ Hrow). cbn [zip_with concat].
    rewrite (process_frame_returns self aligned_audio total output_frames i frame audio_input);
      [| lia | exact Hrow |].
    2:{ apply (Hret 0%nat); [reflexivity |]. rewrite Nat.add_0_r. exact Hrow. }
    rewrite bindT_ok.
    rewrite IH; [| lia | lia |].
    2:{ intros j f a Hf Ha. apply (Hret (S j)); [exact Hf |].
        rewrite <- Ha. f_equal. lia. }
    rewrite after_pair, <- app_assoc. reflexivity.
Qed.

(** The whole loop, when the track is aligned and the collaborators
    return. *)
Lemma lip_sync_frames_run self aligned_audio frames :
  length aligned_audio = length frames ->
  (forall i frame audio_input,
      frames !! i = Some frame ->
      aligned_audio !! i = Some audio_input ->
      collaborators_return self audio_input frame) ->
  lip_sync_frames self aligned_audio frames
  = (concat (zip_with (frame_trace self) aligned_audio frames), Ok frames).
Proof.
  intros Hlen Hret. unfold lip_sync_frames.
  rewrite (lip_sync_loop_run self aligned_audio (length frames) frames 0 []).
  - rewrite drop_0. reflexivity.
  - cbn. lia.
  - cbn. lia.
  - intros j frame audio_input Hf Ha. eapply Hret; eassumption.
Qed.

Lemma write_frames_run frames :
  @write_frames px tensor frames = (EvWriterWrite <$> frames, Ok tt).
Proof.
  induction frames as [| frame frames IH]; [reflexivity |].
  cbn [write_frames]. unfold call. rewrite bindT_ok, IH. reflexivity.
Qed.

(** End to end: once the track is aligned, the calls of
    [generate_lip_sync] are those of the loop followed by those of
    [save_video] on the input frames. *)
Lemma generate_lip_sync_run self features frames output_path aligned_audio :
  align_audio_video features frames = Ok (aligned_audio, frames) ->
  length aligned_audio = length frames ->
  (forall i frame audio_input,
      frames !! i = Some frame ->
      aligned_audio !! i = Some audio_input ->
      collaborators_return self audio_input frame) ->
  generate_lip_sync self features frames output_path
  = after (concat (zip_with (frame_trace self) aligned_audio frames))
      (save_video frames output_path 25).
Proof.
  intros Halign Hlen Hret. unfold generate_lip_sync, lift.
  rewrite Halign, bindT_ok.
  rewrite (lip_sync_frames_run self aligned_audio frames Hlen Hret), bindT_ok.
  unfold after. cbn [events outcome fst snd app]. reflexivity.
Qed.

End LoopFacts.

(** C1.  Given an aligned track (one audio row per frame) and collaborators
    that return on every frame, the loop of [generate_lip_sync] completes
    and [output_frames] is the input frame list itself: one frame per
    input frame, in input order, each one the input frame.  The calls made
    are those of [frame_trace], frame after frame.  A frame without a
    detected face is appended after the detector call alone; a frame with
    a face is appended as well, after the predictor has been called and
    has returned features that the loop drops. *)
Theorem C1_loop_emits_the_input_frames
    {px tensor : Type} (self : OmniSyncFramework.t px tensor)
    (aligned_audio : list (list Q)) (frames : list (image px)) :
  length aligned_audio = length frames ->
  (forall i frame audio_input,
      frames !! i = Some frame ->
      aligned_audio !! i = Some audio_input ->
      collaborators_return self audio_input frame) ->
  lip_sync_frames self aligned_audio frames
    = (concat (zip_with (frame_trace self) aligned_audio frames), Ok frames) /\
  (forall i frame output_frames,
      frames !! i = Some frame ->
      detect_face self frame = Ok None ->
      process_frame self aligned_audio (length frames) output_frames i frame
      = ([EvDetect frame], Ok (output_frames ++ [frame]))) /\
  (forall i frame face_bbox audio_input output_frames,
      frames !! i = Some frame ->
      aligned_audio !! i = Some audio_input ->
      detect_face self frame = Ok (Some face_bbox) ->
      exists lip_resized visual_input output_features,
        cv2_resize self (extract_lip_region frame face_bbox) (64, 64) = Ok lip_resized /\
        visual_tensor self lip_resized = Ok visual_input /\
        model self audio_input visual_input = Ok output_features /\
        process_frame self aligned_audio (length frames) output_frames i frame
        = ([EvDetect frame;
            EvResize (extract_lip_region frame face_bbox) (64, 64);
            EvForward audio_input visual_input],
           Ok (output_frames ++ [frame]))).
Proof.
  intros Hlen Hret. split; [| split].
  - apply lip_sync_frames_run; assumption.
  - intros i frame output_frames _ Hdet. apply process_frame_absent, Hdet.
  - intros i frame face_bbox audio_input output_frames Hf Ha Hdet.
    pose proof (Hret i frame audio_input Hf Ha) as Hc.
    unfold collaborators_return in Hc. rewrite Hdet in Hc.
    destruct Hc as (lip_resized & visual_input & output_features & Hres & Hvis & Hmodel).
    exists lip_resized, visual_input, output_features.
    repeat (split; [assumption |]).
    eapply process_frame_detected; try eassumption.
    apply (lookup_lt_Some _ _ _ Hf).
Qed.

(** C1 on three frames, the first and the last with a detected face. *)
Lemma C1_loop_emits_the_input_frames_witness :
  length [[1; 2]; [3; 4]; [5; 6]]%Q
    = length [Examples.frame10; Examples.blank4; Examples.frame10] /\
  outcome
    (lip_sync_frames (Examples.self (0, 0, 10, 10))
       [[1; 2]; [3; 4]; [5; 6]]%Q
       [Examples.frame10; Examples.blank4; Examples.frame10])
    = Ok [Examples.frame10; Examples.blank4; Examples.frame10].
Proof.
  assert (Hlen : length [[1; 2]; [3; 4]; [5; 6]]%Q
                 = length [Examples.frame10; Examples.blank4; Examples.frame10])
    by reflexivity.
  assert (Hret : forall i frame audio_input,
             [Examples.frame10; Examples.blank4; Examples.frame10] !! i = Some frame ->
             [[1; 2]; [3; 4]; [5; 6]]%Q !! i = Some audio_input ->
             collaborators_return (Examples.self (0, 0, 10, 10)) audio_input frame).
  { intros [| [| [| i]]] frame audio_input Hf Ha; cbn in Hf, Ha;
      try discriminate Hf;
      injection Hf as <-; injection Ha as <-;
      vm_compute; try exact I; repeat eexists. }
  split; [exact Hlen |].
  destruct (C1_loop_emits_the_input_frames
              (Examples.self (0, 0, 10, 10))
              [[1; 2]; [3; 4]; [5; 6]]%Q
              [Examples.frame10; Examples.blank4; Examples.frame10] Hlen Hret)
    as (Hrun & _).
  rewrite Hrun. reflexivity.
Defined.

(** C1, counterexample to the claim as stated: one frame with the track
    that [align_audio_video] returns for it, and a detected face whose
    lip window lies below the frame.  The crop is empty, the resize
    raises on it as OpenCV does, and the loop raises with it: no frame is
    emitted. *)
Lemma C1_resize_error_emits_no_frame :
  align_audio_video (Examples.features 4 Examples.mel4) [Examples.frame10]
  = Ok ([[1; 2]]%Q, [Examples.frame10]) /\
  length [[1; 2]]%Q = length [Examples.frame10] /\
  lip_sync_frames (Examples.self (5, 5, 10, 10)) [[1; 2]]%Q [Examples.frame10]
  = ([EvDetect Examples.frame10; EvResize [] (64, 64)], Raise Cv2Error) /\
  outcome (lip_sync_frames (Examples.self (5, 5, 10, 10)) [[1; 2]]%Q [Examples.frame10])
  <> Ok [Examples.frame10].
Proof.
  split; [vm_compute; reflexivity |]. split; [reflexivity |].
  split; [vm_compute; reflexivity |].
  vm_compute. discriminate.
Qed.

(** C8.  [save_video] on an empty frame list returns at once: no codec
    call is made (no four-character code, no writer, no frame written, no
    release) and nothing is raised.  On a non-empty list the writer is
    opened with the size of the first frame, every frame is written in
    order and the writer is released. *)
Theorem C8_save_video_empty_is_noop
    {px tensor : Type} (output_path : string) (fps : Z) :
  @save_video px tensor [] output_path fps = ([], Ok tt) /\
  forall frame frames,
    @save_video px tensor (frame :: frames) output_path fps
    = (EvFourcc "mp4v"
       :: EvWriterOpen output_path fps (width frame, height frame)
       :: (EvWriterWrite <$> frame :: frames)
       ++ [EvWriterRelease],
       Ok tt).
Proof.
  split; [reflexivity |].
  intros frame frames. unfold save_video, call.
  rewrite !bindT_ok, write_frames_run, bindT_ok. reflexivity.
Qed.

(** C10.  A bounding box of positive width and height with [h = 3] or
    [w = 1] has [int(h * 0.33) = 0] or [int(w * 0.6) = 0]: the crop has no
    row, or rows of no pixel.  In the iteration for a frame where the
    detector returns such a box, that empty crop is the image handed to
    [cv2.resize(_, (64, 64))], and an exception raised by the resize ends
    the iteration right there. *)
Theorem C10_empty_crop_reaches_resize
    {px tensor : Type} (self : OmniSyncFramework.t px tensor)
    (aligned_audio : list (list Q)) (total_frames : nat)
    (output_frames : list (image px)) (i : nat)
    (frame : image px) (x y w h : Z) (audio_input : list Q) :
  0 < w -> 0 < h -> h = 3 \/ w = 1 ->
  detect_face self frame = Ok (Some (x, y, w, h)) ->
  aligned_audio !! i = Some audio_input ->
  (int (inject_Z h * 0.33) = 0 \/ int (inject_Z w * 0.6) = 0) /\
  (lip_h (x, y, w, h) = 0 \/ lip_w (x, y, w, h) = 0) /\
  empty_image (extract_lip_region frame (x, y, w, h)) /\
  (exists tr res,
      process_frame self aligned_audio total_frames output_frames i frame
      = (EvDetect frame
         :: EvResize (extract_lip_region frame (x, y, w, h)) (64, 64)
         :: tr, res)) /\
  (forall e,
      cv2_resize self (extract_lip_region frame (x, y, w, h)) (64, 64) = Raise e ->
      process_frame self aligned_audio total_frames output_frames i frame
      = ([EvDetect frame; EvResize (extract_lip_region frame (x, y, w, h)) (64, 64)],
         Raise e)).
Proof.
  intros Hw Hh Hthin Hdet Hrow.
  assert (Hzero : lip_h (x, y, w, h) = 0 \/ lip_w (x, y, w, h) = 0).
  { destruct (lip_window x y w h) as (_ & -> & _ & ->).
    destruct Hthin as [-> | ->]; [left | right]; reflexivity. }
  split; [exact Hzero |]. split; [exact Hzero |]. split.
  - destruct Hzero as [Hz | Hz]; [left | right].
    + apply zero_height_crop, Hz.
    + apply zero_width_crop, Hz.
  - exact (process_frame_reaches_resize self aligned_audio total_frames output_frames
             i frame (x, y, w, h) audio_input Hdet Hrow).
Qed.

(** C10 with the box (2, 1, 40, 3) and a resize that raises on an image
    without pixels. *)
Lemma C10_empty_crop_reaches_resize_witness :
  0 < 40 /\ 0 < 3 /\ (3 = 3 \/ 40 = 1) /\
  detect_face (Examples.self (2, 1, 40, 3)) Examples.frame10 = Ok (Some (2, 1, 40, 3)) /\
  [[1; 2]]%Q !! 0%nat = Some [1; 2]%Q /\
  extract_lip_region Examples.frame10 (2, 1, 40, 3) = [] /\
  process_frame (Examples.self (2, 1, 40, 3)) [[1; 2]]%Q 1 [] 0 Examples.frame10
  = ([EvDetect Examples.frame10; EvResize [] (64, 64)], Raise Cv2Error).
Proof.
  assert (H1 : 0 < 40) by lia.
  assert (H2 : 0 < 3) by lia.
  assert (H3 : 3 = 3 \/ 40 = 1) by (left; reflexivity).
  assert (H4 : detect_face (Examples.self (2, 1, 40, 3)) Examples.frame10
               = Ok (Some (2, 1, 40, 3))) by reflexivity.
  assert (H5 : [[1; 2]]%Q !! 0%nat = Some [1; 2]%Q) by reflexivity.
  assert (Hcrop : extract_lip_region Examples.frame10 (2, 1, 40, 3) = [])
    by (vm_compute; reflexivity).
  repeat (split; [assumption |]).
  destruct (C10_empty_crop_reaches_resize
              (Examples.self (2, 1, 40, 3)) [[1; 2]]%Q 1 [] 0 Examples.frame10
              2 1 40 3 [1; 2]%Q H1 H2 H3 H4 H5)
    as (_ & _ & _ & _ & Hraise).
  rewrite <- Hcrop. apply Hraise.
  rewrite Hcrop. reflexivity.
Defined.

(** ** Alignment *)

Section AlignFacts.

Lemma source_column_range (i n t : Z) :
  1 <= n -> 0 <= Spec.source_column i n t <= n - 1.
Proof. unfold Spec.source_column, Spec.clamp. lia. Qed.

Lemma source_column_mono (i j n t : Z) :
  1 <= n -> 1 <= t -> i <= j ->
  Spec.source_column i n t <= Spec.source_column j n t.
Proof.
  intros Hn Ht Hij. unfold Spec.source_column, Spec.clamp.
  assert (i * n / t <= j * n / t).
  { apply Z.div_le_mono; [lia |]. apply Z.mul_le_mono_nonneg_r; lia. }
  lia.
Qed.

(** The index computed by the code is the clamped floor of the
    specification. *)
Lemma audio_idx_source_column (mel_spec : ndarray) (target_frames i : nat) :
  1 <= shape1 mel_spec -> (1 <= target_frames)%nat ->
  audio_idx mel_spec target_frames i
  = Ok (Spec.source_column (Z.of_nat i) (shape1 mel_spec) (Z.of_nat target_frames)).
Proof.
  intros Hn Ht. unfold audio_idx.
  rewrite truediv_nonzero by lia. cbn [Py.bind].
  rewrite int_truediv by lia.
  rewrite Z.quot_div_nonneg by lia.
  unfold Spec.source_column, Spec.clamp, min_int.
  assert (0 <= Z.of_nat i * shape1 mel_spec / Z.of_nat target_frames)
    by (apply Z.div_pos; lia).
  f_equal. destruct (Z.ltb_spec (shape1 mel_spec - 1)
                       (Z.of_nat i * shape1 mel_spec / Z.of_nat target_frames)); lia.
Qed.

(** With no column the computed index is [-1], whatever [i] is. *)
Lemma audio_idx_no_column (mel_spec : ndarray) (target_frames i : nat) :
  shape1 mel_spec = 0 -> (1 <= target_frames)%nat ->
  audio_idx mel_spec target_frames i = Ok (-1).
Proof.
  intros Hn Ht. unfold audio_idx.
  rewrite truediv_nonzero by lia. cbn [Py.bind].
  rewrite int_truediv by lia.
  rewrite Hn, Z.mul_0_r. reflexivity.
Qed.

(** The loop over the rows: every index of [range] ends up holding its
    source column, the other rows are left as they were. *)
Lemma align_rows_spec (mel_spec : ndarray) (target_frames : nat) (range : list nat) :
  1 <= shape1 mel_spec -> (1 <= target_frames)%nat ->
  forall aligned_audio,
    length aligned_audio = target_frames ->
    Forall (fun i => (i < target_frames)%nat) range ->
    exists track,
      align_rows mel_spec target_frames range aligned_audio = Ok track /\
      length track = target_frames /\
      forall i : nat,
        track !! i =
        if decide (i ∈ range)
        then columns mel_spec
               !! Z.to_nat (Spec.source_column (Z.of_nat i) (shape1 mel_spec)
                              (Z.of_nat target_frames))
        else aligned_audio !! i.
Proof.
  intros Hn Ht.
  induction range as [| i range IH]; intros aligned_audio Hlen Hrange.
  - exists aligned_audio. split; [reflexivity |]. split; [exact Hlen |].
    intros i. destruct (decide (i ∈ [])) as [Hin | _]; [| reflexivity].
    inversion Hin.
  - apply Forall_cons in Hrange as [Hi Hrange].
    cbn [align_rows]. rewrite audio_idx_source_column by assumption.
    cbn [Py.bind].
    pose proof (source_column_range (Z.of_nat i) (shape1 mel_spec)
                  (Z.of_nat target_frames) Hn) as Hsc.
    set (k := Spec.source_column _ _ _) in *.
    destruct (lookup_lt_is_Some_2 (columns mel_spec) (Z.to_nat k)) as [column Hcol].
    { unfold shape1 in *. lia. }
    rewrite (index_nonneg _ _ _ (proj1 Hsc) Hcol). cbn [Py.bind].
    unfold setitem.
    destruct (Nat.ltb_spec i (length aligned_audio)); [| lia].
    cbn [Py.bind].
    destruct (IH (<[i := column]> aligned_audio)) as (track & Hrun & Htrack & Hlook).
    { rewrite length_insert. exact Hlen. }
    { exact Hrange. }
    exists track. split; [exact Hrun |]. split; [exact Htrack |].
    intros j. rewrite Hlook.
    destruct (decide (j ∈ range)) as [Hj | Hj].
    + rewrite decide_True by (right; exact Hj). reflexivity.
    + destruct (decide (j = i)) as [-> | Hne].
      * rewrite decide_True by left.
        rewrite list_lookup_insert_eq by lia. symmetry. exact Hcol.
      * rewrite decide_False.
        -- apply list_lookup_insert_ne. congruence.
        -- intros Hin. apply elem_of_cons in Hin as [? | ?]; contradiction.
Qed.

End AlignFacts.

(** C2 (as the code behaves).  For a non-zero audio duration, at least one
    video frame and a feature array with at least one column,
    [align_audio_video] returns the frames together with a track that has
    one row per frame; row [i] is the column
    [clamp(floor(i * audioFrameCount / targetFrameCount), 0,
    audioFrameCount - 1)] of the feature array, which is the index the
    code computes; that index lies in [[0, audioFrameCount - 1]] and does
    not decrease with [i].  In particular 100 frames give a track of
    length 100. *)
Theorem C2_align_selects_clamped_floor_columns
    {px : Type} (features : audio_features) (video_frames : list (image px)) :
  ~ (audio_length features == 0)%Q ->
  (1 <= length video_frames)%nat ->
  1 <= shape1 (mel_spectrogram features) ->
  exists aligned_audio : list (list Q),
    align_audio_video features video_frames = Ok (aligned_audio, video_frames) /\
    length aligned_audio = length video_frames /\
    (forall i : nat,
        (i < length video_frames)%nat ->
        exists column,
          aligned_audio !! i = Some column /\
          columns (mel_spectrogram features)
            !! Z.to_nat (Spec.source_column (Z.of_nat i)
                           (shape1 (mel_spectrogram features))
                           (Z.of_nat (length video_frames)))
          = Some column /\
          audio_idx (mel_spectrogram features) (length video_frames) i
          = Ok (Spec.source_column (Z.of_nat i)
                  (shape1 (mel_spectrogram features))
                  (Z.of_nat (length video_frames))) /\
          0 <= Spec.source_column (Z.of_nat i)
                 (shape1 (mel_spectrogram features))
                 (Z.of_nat (length video_frames))
            <= shape1 (mel_spectrogram features) - 1) /\
    (forall i j : nat,
        (i <= j)%nat -> (j < length video_frames)%nat ->
        Spec.source_column (Z.of_nat i)
          (shape1 (mel_spectrogram features)) (Z.of_nat (length video_frames))
        <= Spec.source_column (Z.of_nat j)
             (shape1 (mel_spectrogram features)) (Z.of_nat (length video_frames))) /\
    (length video_frames = 100%nat -> length aligned_audio = 100%nat).
Proof.
  intros Hdur Ht Hn.
  set (mel_spec := mel_spectrogram features) in *.
  set (t := length video_frames) in *.
  destruct (align_rows_spec mel_spec t (seq 0 t) Hn Ht
              (replicate t (replicate (shape0 mel_spec) 0%Q)))
    as (track & Hrun & Hlen & Hlook).
  { apply length_replicate. }
  { apply Forall_forall. intros i Hi. apply elem_of_seq in Hi. lia. }
  exists track.
  split.
  { unfold align_audio_video.
    rewrite truediv_float_nonzero by exact Hdur. cbn [Py.bind].
    fold mel_spec t. rewrite Hrun. reflexivity. }
  split; [exact Hlen |]. split; [| split].
  - intros i Hi.
    pose proof (source_column_range (Z.of_nat i) (shape1 mel_spec) (Z.of_nat t) Hn)
      as Hsc.
    destruct (lookup_lt_is_Some_2 (columns mel_spec)
                (Z.to_nat (Spec.source_column (Z.of_nat i) (shape1 mel_spec) (Z.of_nat t))))
      as [column Hcol].
    { unfold shape1 in *. lia. }
    exists column. split; [| split; [exact Hcol | split; [| exact Hsc]]].
    + rewrite Hlook, decide_True; [exact Hcol |].
      apply elem_of_seq. lia.
    + apply audio_idx_source_column; assumption.
  - intros i j Hij Hj. apply source_column_mono; lia.
  - intros H100. rewrite Hlen. exact H100.
Qed.

(** C2 on three frames, four audio columns and a 4-second track. *)
Lemma C2_align_selects_clamped_floor_columns_witness :
  ~ (audio_length (Examples.features 4 Examples.mel4) == 0)%Q /\
  (1 <= length (replicate 3 Examples.blank4))%nat /\
  1 <= shape1 (mel_spectrogram (Examples.features 4 Examples.mel4)) /\
  exists aligned_audio : list (list Q),
    align_audio_video (Examples.features 4 Examples.mel4) (replicate 3 Examples.blank4)
    = Ok (aligned_audio, replicate 3 Examples.blank4) /\
    length aligned_audio = 3%nat.
Proof.
  assert (H1 : ~ (audio_length (Examples.features 4 Examples.mel4) == 0)%Q)
    by (vm_compute; discriminate).
  assert (H2 : (1 <= length (replicate 3 Examples.blank4))%nat)
    by (vm_compute; lia).
  assert (H3 : 1 <= shape1 (mel_spectrogram (Examples.features 4 Examples.mel4)))
    by (vm_compute; discriminate).
  repeat (split; [assumption |]).
  destruct (C2_align_selects_clamped_floor_columns
              (Examples.features 4 Examples.mel4) (replicate 3 Examples.blank4) H1 H2 H3)
    as (aligned_audio & Hrun & Hlen & _).
  exists aligned_audio. split; [exact Hrun | exact Hlen].
Defined.

(** C2, counterexample to the claim as stated: one frame (or a hundred)
    and four audio columns, with an audio duration of zero.  The call
    raises [ZeroDivisionError] and returns no track. *)
Lemma C2_zero_duration_returns_no_track :
  shape1 (mel_spectrogram (Examples.features 0 Examples.mel4)) = 4 /\
  align_audio_video (Examples.features 0 Examples.mel4) [Examples.blank4]
    = Raise ZeroDivisionError /\
  length (replicate 100 Examples.blank4) = 100%nat /\
  align_audio_video (Examples.features 0 Examples.mel4) (replicate 100 Examples.blank4)
    = Raise ZeroDivisionError.
Proof. repeat split; vm_compute; reflexivity. Qed.

(** C6 (as the code behaves).  On a feature array with no column and with
    a non-zero audio duration, [align_audio_video] returns the empty track
    when there is no video frame; with at least one frame it fails at the
    first row with NumPy's [IndexError], the computed column index being
    [-1].  No [AlignmentError] is ever raised. *)
Theorem C6_no_column_raises_index_error
    {px : Type} (features : audio_features) (video_frames : list (image px)) :
  shape1 (mel_spectrogram features) = 0 ->
  ~ (audio_length features == 0)%Q ->
  align_audio_video features video_frames
  = match video_frames with
    | [] => Ok ([], [])
    | _ :: _ => Raise IndexError
    end.
Proof.
  intros Hn Hdur. unfold align_audio_video.
  rewrite truediv_float_nonzero by exact Hdur. cbn [Py.bind].
  destruct video_frames as [| frame frames]; [reflexivity |].
  cbn [length seq align_rows].
  rewrite audio_idx_no_column by (assumption || lia). cbn [Py.bind].
  unfold shape1 in Hn.
  destruct (columns (mel_spectrogram features)); [reflexivity | discriminate Hn].
Qed.

(** C6 on two frames and a 4-second track without audio columns. *)
Lemma C6_no_column_raises_index_error_witness :
  shape1 (mel_spectrogram (Examples.features 4 Examples.mel0)) = 0 /\
  ~ (audio_length (Examples.features 4 Examples.mel0) == 0)%Q /\
  align_audio_video (Examples.features 4 Examples.mel0) [Examples.blank4; Examples.blank4]
    = Raise IndexError.
Proof.
  assert (H1 : shape1 (mel_spectrogram (Examples.features 4 Examples.mel0)) = 0)
    by reflexivity.
  assert (H2 : ~ (audio_length (Examples.features 4 Examples.mel0) == 0)%Q)
    by (vm_compute; discriminate).
  repeat (split; [assumption |]).
  exact (C6_no_column_raises_index_error (Examples.features 4 Examples.mel0)
           [Examples.blank4; Examples.blank4] H1 H2).
Defined.

(** C6, counterexample to the claim as stated: a feature array with no
    column, a 4-second audio track and no video frame.  The call returns
    the empty track; nothing is raised.  With one frame the exception is
    [IndexError], not [AlignmentError]. *)
Lemma C6_no_column_no_frame_returns :
  shape1 (mel_spectrogram (Examples.features 4 Examples.mel0)) = 0 /\
  align_audio_video (px := nat) (Examples.features 4 Examples.mel0) [] = Ok ([], []) /\
  align_audio_video (Examples.features 4 Examples.mel0) [Examples.blank4]
    = Raise IndexError /\
  align_audio_video (Examples.features 4 Examples.mel0) [Examples.blank4]
    <> Raise AlignmentError.
Proof.
  split; [reflexivity |]. split; [vm_compute; reflexivity |].
  split; [vm_compute; reflexivity |].
  intros H. vm_compute in H. discriminate H.
Qed.

(** C7 (as the code behaves).  For a feature array with at least one
    column and a non-zero audio duration, [align_audio_video] on an empty
    frame list returns the empty track and raises nothing. *)
Theorem C7_no_frame_returns_empty_track
    {px : Type} (features : audio_features) :
  1 <= shape1 (mel_spectrogram features) ->
  ~ (audio_length features == 0)%Q ->
  align_audio_video (px := px) features [] = Ok ([], []).
Proof.
  intros _ Hdur. unfold align_audio_video.
  rewrite truediv_float_nonzero by exact Hdur. reflexivity.
Qed.

(** C7 on four audio columns and a 4-second track. *)
Lemma C7_no_frame_returns_empty_track_witness :
  1 <= shape1 (mel_spectrogram (Examples.features 4 Examples.mel4)) /\
  ~ (audio_length (Examples.features 4 Examples.mel4) == 0)%Q /\
  align_audio_video (px := nat) (Examples.features 4 Examples.mel4) [] = Ok ([], []).
Proof.
  assert (H1 : 1 <= shape1 (mel_spectrogram (Examples.features 4 Examples.mel4)))
    by (vm_compute; discriminate).
  assert (H2 : ~ (audio_length (Examples.features 4 Examples.mel4) == 0)%Q)
    by (vm_compute; discriminate).
  repeat (split; [assumption |]).
  exact (C7_no_frame_returns_empty_track (Examples.features 4 Examples.mel4) H1 H2).
Defined.

(** C7, counterexample to the claim as stated: four audio columns, no
    video frame, and an audio duration of zero.  The call raises
    [ZeroDivisionError] instead of returning the empty track. *)
Lemma C7_zero_duration_no_frame_raises :
  shape1 (mel_spectrogram (Examples.features 0 Examples.mel4)) = 4 /\
  align_audio_video (px := nat) (Examples.features 0 Examples.mel4) []
    = Raise ZeroDivisionError.
Proof. split; vm_compute; reflexivity. Qed.

(** C9.  [align_audio_video] first divides the number of frames by the
    audio duration.  When the duration is zero this raises
    [ZeroDivisionError], for every feature array and every frame list, the
    empty one included.  A call that returns therefore had a strictly
    positive duration (durations being non-negative).  The quotient itself
    is not used: two non-zero durations give the same result. *)
Theorem C9_zero_duration_raises_zero_division
    {px : Type} (features : audio_features) (video_frames : list (image px)) :
  (0 <= audio_length features)%Q ->
  ((audio_length features == 0)%Q ->
   align_audio_video features video_frames = Raise ZeroDivisionError /\
   align_audio_video (px := px) features [] = Raise ZeroDivisionError) /\
  (is_ok (align_audio_video features video_frames) = true ->
   (0 < audio_length features)%Q) /\
  (forall duration : Q,
      ~ (audio_length features == 0)%Q ->
      ~ (duration == 0)%Q ->
      align_audio_video
        {| audio_length := duration; mel_spectrogram := mel_spectrogram features |}
        video_frames
      = align_audio_video features video_frames).
Proof.
  intros Hnonneg. split; [| split].
  - intros Hzero. unfold align_audio_video.
    rewrite !truediv_float_zero by exact Hzero. split; reflexivity.
  - intros Hok.
    destruct (Qlt_le_dec 0 (audio_length features)) as [Hpos | Hle]; [exact Hpos |].
    assert (Hzero : (audio_length features == 0)%Q)
      by (apply Qle_antisym; assumption).
    unfold align_audio_video in Hok.
    rewrite truediv_float_zero in Hok by exact Hzero. discriminate Hok.
  - intros duration Hdur Hdur'. unfold align_audio_video.
    cbn [audio_length mel_spectrogram].
    rewrite !truediv_float_nonzero by assumption. reflexivity.
Qed.

(** C9 on a track of duration zero and no frame. *)
Lemma C9_zero_duration_raises_zero_division_witness :
  (0 <= audio_length (Examples.features 0 Examples.mel4))%Q /\
  align_audio_video (px := nat) (Examples.features 0 Examples.mel4) []
    = Raise ZeroDivisionError.
Proof.
  assert (H1 : (0 <= audio_length (Examples.features 0 Examples.mel4))%Q)
    by (vm_compute; discriminate).
  split; [exact H1 |].
  destruct (C9_zero_duration_raises_zero_division
              (Examples.features 0 Examples.mel4) (@nil (image nat)) H1)
    as (Hzero & _).
  apply Hzero. reflexivity.
Defined.

(** ** Rounding: the rational model against binary64 *)

Section Binary64Facts.

Lemma range_forallb (f : Z -> bool) (lo : Z) (n : nat) :
  forallb f (Binary64.range lo n) = true ->
  forall z, lo <= z < lo + Z.of_nat n -> f z = true.
Proof.
  intros Hall z Hz. apply (proj1 (forallb_forall f _) Hall).
  unfold Binary64.range. apply in_map_iff.
  exists (Z.to_nat (z - lo)). split; [lia |]. apply in_seq. lia.
Qed.

(** The literals of the source, as binary64 numbers [m * 2^e]: each is
    the float nearest to the decimal fraction. *)
Lemma binary64_literals :
  Binary64.lit_0_67 = Binary64.literal 67 100 /\
  Binary64.lit_0_33 = Binary64.literal 33 100 /\
  Binary64.lit_0_2 = Binary64.literal 2 10 /\
  Binary64.lit_0_6 = Binary64.literal 6 10 /\
  Binary64.lit_0_5 = Binary64.literal 5 10 /\
  Binary64.lit_0_3 = Binary64.literal 3 10 /\
  Binary64.lit_0_7 = Binary64.literal 7 10 /\
  Binary64.lit_0_67 = S754_finite false 6034823500676465 (-53) /\
  Binary64.lit_0_6 = S754_finite false 5404319552844595 (-53).
Proof.
  repeat match goal with |- _ /\ _ => split end; vm_compute; reflexivity.
Qed.

(** The truncations used in the examples of this file, in binary64:
    [int(10 * 0.67) = 6], [int(10 * 0.33) = 3], [int(10 * 0.2) = 2],
    [int(10 * 0.6) = 6], [int(3 * 0.33) = 0] and [int(1 * 0.6) = 0]. *)
Lemma binary64_example_truncations :
  Binary64.int_scaled 10 Binary64.lit_0_67 = Some 6 /\
  Binary64.int_scaled 10 Binary64.lit_0_33 = Some 3 /\
  Binary64.int_scaled 10 Binary64.lit_0_2 = Some 2 /\
  Binary64.int_scaled 10 Binary64.lit_0_6 = Some 6 /\
  Binary64.int_scaled 3 Binary64.lit_0_33 = Some 0 /\
  Binary64.int_scaled 1 Binary64.lit_0_6 = Some 0.
Proof.
  repeat match goal with |- _ /\ _ => split end; vm_compute; reflexivity.
Qed.

(** For every box side from 0 to 8192 pixels the four truncations of
    [extract_lip_region] give the same integers in binary64 and in the
    rational model. *)
Lemma binary64_lip_window (n : Z) :
  0 <= n <= 8192 ->
  Binary64.int_scaled n Binary64.lit_0_67 = Some (int (inject_Z n * 0.67)) /\
  Binary64.int_scaled n Binary64.lit_0_33 = Some (int (inject_Z n * 0.33)) /\
  Binary64.int_scaled n Binary64.lit_0_2 = Some (int (inject_Z n * 0.2)) /\
  Binary64.int_scaled n Binary64.lit_0_6 = Some (int (inject_Z n * 0.6)).
Proof.
  intros Hn.
  assert (Hall : forallb Binary64.lip_window_agrees (Binary64.range 0 (Z.to_nat 8193)) = true)
    by (vm_compute; reflexivity).
  assert (Hrange : 0 <= n < 0 + Z.of_nat (Z.to_nat 8193)) by lia.
  pose proof (range_forallb _ 0 (Z.to_nat 8193) Hall n Hrange) as Hat.
  clear Hall. unfold Binary64.lip_window_agrees in Hat.
  destruct (Binary64.int_scaled n Binary64.lit_0_67) as [a |]; [| discriminate].
  destruct (Binary64.int_scaled n Binary64.lit_0_33) as [b |]; [| discriminate].
  destruct (Binary64.int_scaled n Binary64.lit_0_2) as [c |]; [| discriminate].
  destruct (Binary64.int_scaled n Binary64.lit_0_6) as [d |]; [| discriminate].
  apply andb_prop in Hat as [Hat Hd]. apply andb_prop in Hat as [Hat Hc].
  apply andb_prop in Hat as [Ha Hb].
  apply Z.eqb_eq in Ha, Hb, Hc, Hd. subst. auto.
Qed.

(** For up to 32 frames and up to 40 audio columns, the column index of
    every row is the same integer in binary64 and in the rational model. *)
Lemma binary64_audio_idx (i n t : Z) :
  1 <= t <= 32 -> 0 <= n <= 40 -> 0 <= i < t ->
  Binary64.int_quotient i n t = Some (int (inject_Z (i * n) / inject_Z t)).
Proof.
  intros Ht Hn Hi.
  assert (Hall : forallb
                   (fun t => forallb (fun n => Binary64.audio_idx_agrees n t)
                               (Binary64.range 0 (Z.to_nat 41)))
                   (Binary64.range 1 (Z.to_nat 32)) = true)
    by (vm_compute; reflexivity).
  assert (Ht' : 1 <= t < 1 + Z.of_nat (Z.to_nat 32)) by lia.
  pose proof (range_forallb _ 1 (Z.to_nat 32) Hall t Ht') as Hat.
  clear Hall. cbv beta in Hat.
  assert (Hn' : 0 <= n < 0 + Z.of_nat (Z.to_nat 41)) by lia.
  pose proof (range_forallb _ 0 (Z.to_nat 41) Hat n Hn') as Hatn.
  clear Hat. cbv beta in Hatn. unfold Binary64.audio_idx_agrees in Hatn.
  assert (Hi' : 0 <= i < 0 + Z.of_nat (Z.to_nat t)) by lia.
  pose proof (range_forallb _ 0 (Z.to_nat t) Hatn i Hi') as Hati.
  cbv beta in Hati.
  destruct (Binary64.int_quotient i n t) as [k |]; [| discriminate].
  apply Z.eqb_eq in Hati. subst. reflexivity.
Qed.

(** Mid-clip, at full audio power, the binary64 weight is the base
    strength itself: both factors are exactly 1. *)
Lemma binary64_guidance_midpoint :
  Binary64.compute_guidance_strength Binary64.lit_0_7 (Binary64.of_int 1) 50 100
  = Binary64.lit_0_7.
Proof. vm_compute. reflexivity. Qed.

(** At the default base strength 0.7, for the audio powers 0.0, 0.1, ...,
    1.5 and every frame of every clip of up to 32 frames, the binary64
    guidance weight lies between 0 and 0.7. *)
Lemma binary64_guidance_bounded (i t : Z) (p : spec_float) :
  1 <= t <= 32 -> 0 <= i <= t -> In p Binary64.sample_powers ->
  SFleb (Binary64.of_int 0)
    (Binary64.compute_guidance_strength Binary64.lit_0_7 p i t) = true /\
  SFleb (Binary64.compute_guidance_strength Binary64.lit_0_7 p i t)
    Binary64.lit_0_7 = true.
Proof.
  intros Ht Hi Hp.
  assert (Hall : forallb
                   (Binary64.guidance_bounded Binary64.lit_0_7 Binary64.sample_powers)
                   (Binary64.range 1 (Z.to_nat 32)) = true)
    by (vm_compute; reflexivity).
  assert (Ht' : 1 <= t < 1 + Z.of_nat (Z.to_nat 32)) by lia.
  pose proof (range_forallb _ 1 (Z.to_nat 32) Hall t Ht') as Hat.
  clear Hall. unfold Binary64.guidance_bounded in Hat.
  assert (Hi' : 0 <= i < 0 + Z.of_nat (Z.to_nat (t + 1))) by lia.
  pose proof (range_forallb _ 0 (Z.to_nat (t + 1)) Hat i Hi') as Hati.
  clear Hat. cbv beta in Hati.
  pose proof (proj1 (forallb_forall _ _) Hati p Hp) as Hw.
  cbv beta zeta in Hw. apply andb_prop in Hw. exact Hw.
Qed.

End Binary64Facts.

(** * Further properties *)

(** ** More on the guidance weight *)

Section GuidanceMore.
Import DynamicGuidanceSystem.
Local Open Scope Q_scope.

Lemma temporal_weight_wd (q q' : Q) : q == q' -> temporal_weight q == temporal_weight q'.
Proof. intros H. unfold temporal_weight. rewrite H. reflexivity. Qed.

(** The temporal factor grows up to the middle of the clip and falls
    after it. *)
Lemma temporal_weight_rises (q q' : Q) :
  q <= q' -> q' <= 0.5 -> temporal_weight q <= temporal_weight q'.
Proof.
  intros Hq Hq'. unfold temporal_weight.
  rewrite (Qabs_neg (q - 0.5)) by lra. rewrite (Qabs_neg (q' - 0.5)) by lra. lra.
Qed.

Lemma temporal_weight_falls (q q' : Q) :
  0.5 <= q -> q <= q' -> temporal_weight q' <= temporal_weight q.
Proof.
  intros Hq Hq'. unfold temporal_weight.
  rewrite (Qabs_pos (q - 0.5)) by lra. rewrite (Qabs_pos (q' - 0.5)) by lra. lra.
Qed.

(** The position [frame_idx / total_frames] grows with the frame index,
    and reaches 0.5 where twice the index reaches the frame count. *)
Lemma position_mono (i j t : Z) :
  (1 <= t)%Z -> (i <= j)%Z -> inject_Z i / inject_Z t <= inject_Z j / inject_Z t.
Proof.
  intros Ht Hij.
  assert (Hq : 0 < inject_Z t) by (change 0 with (inject_Z 0); rewrite <- Zlt_Qlt; lia).
  apply Qle_shift_div_l; [exact Hq |].
  unfold Qdiv. rewrite <- Qmult_assoc, (Qmult_comm (/ inject_Z t)), Qmult_inv_r, Qmult_1_r.
  - rewrite <- Zle_Qle. exact Hij.
  - intros E. rewrite E in Hq. discriminate Hq.
Qed.

Lemma position_before_middle (j t : Z) :
  (1 <= t)%Z -> (2 * j <= t)%Z -> inject_Z j / inject_Z t <= 0.5.
Proof.
  intros Ht Hj.
  assert (Hq : 0 < inject_Z t) by (change 0 with (inject_Z 0); rewrite <- Zlt_Qlt; lia).
  apply Qle_shift_div_r; [exact Hq |].
  assert (H : inject_Z (2 * j) <= inject_Z t) by (rewrite <- Zle_Qle; exact Hj).
  rewrite inject_Z_mult in H. change (inject_Z 2) with 2 in H. lra.
Qed.

Lemma position_after_middle (i t : Z) :
  (1 <= t)%Z -> (t <= 2 * i)%Z -> 0.5 <= inject_Z i / inject_Z t.
Proof.
  intros Ht Hi.
  assert (Hq : 0 < inject_Z t) by (change 0 with (inject_Z 0); rewrite <- Zlt_Qlt; lia).
  apply Qle_shift_div_l; [exact Hq |].
  assert (H : inject_Z t <= inject_Z (2 * i)) by (rewrite <- Zle_Qle; exact Hi).
  rewrite inject_Z_mult in H. change (inject_Z 2) with 2 in H. lra.
Qed.

Lemma audio_weight_saturated (p : Q) : 0.5 <= p -> audio_weight p == 1.
Proof.
  intros Hp. unfold audio_weight, Py.min.
  destruct (Qlt_le_dec 1 (p * 2)); [reflexivity | lra].
Qed.

Lemma audio_weight_ramp (p : Q) : p <= 0.5 -> audio_weight p == p * 2.
Proof.
  intros Hp. unfold audio_weight, Py.min.
  destruct (Qlt_le_dec 1 (p * 2)); [lra | reflexivity].
Qed.

Lemma mean_squares_nonneg (row : list Q) : 0 <= mean ((fun v => v * v) <$> row).
Proof.
  unfold mean.
  assert (Hsum : 0 <= fold_right Qplus 0 ((fun v => v * v) <$> row)).
  { induction row as [| v row IH]; cbn; [lra |].
    assert (0 <= v * v) by nra. lra. }
  set (s := fold_right _ _ _) in *.
  rewrite length_fmap.
  destruct row as [| v row]; cbn [length].
  - unfold Qdiv. cbn. unfold Qle. cbn. lia.
  - apply Qle_shift_div_l; [| lra].
    change 0 with (inject_Z 0). rewrite <- Zlt_Qlt. lia.
Qed.

(** The weight lies between 0 and the base strength for a frame index
    between 0 and the frame count and a non-negative audio power. *)
Lemma guidance_weight_range (g : DynamicGuidanceSystem.t) (p : Q) (i t : Z) :
  0 <= base_strength g -> 0 <= p -> (0 <= i <= t)%Z -> (1 <= t)%Z ->
  exists w, compute_guidance_strength g p i t = Ok w /\ 0 <= w <= base_strength g.
Proof.
  intros Hbase Hp Hi Ht. unfold compute_guidance_strength.
  rewrite truediv_nonzero by lia. cbn [Py.bind].
  eexists. split; [reflexivity |].
  pose proof (temporal_weight_range _ (position_unit_interval i t Hi Ht)) as [Ht0 Ht1].
  pose proof (audio_weight_range _ Hp) as [Ha0 Ha1].
  set (tw := temporal_weight _) in *. set (aw := audio_weight _) in *.
  set (b := base_strength g) in *.
  assert (Hbt : 0 <= b * tw <= b) by (split; nra).
  destruct Hbt. split; nra.
Qed.

End GuidanceMore.

(** In binary64 the weights of two frames at the same distance from the
    middle of the clip need not be equal: at the default base strength
    and an audio power of 0.2, frames 30 and 70 of 100 get weights that
    differ in the last place.  The rational model does not show this. *)
Lemma binary64_mirror_frames_differ :
  Binary64.compute_guidance_strength Binary64.lit_0_7 Binary64.lit_0_2 30 100
  <> Binary64.compute_guidance_strength Binary64.lit_0_7 Binary64.lit_0_2 70 100.
Proof. vm_compute. discriminate. Qed.

(** At the default base strength 0.7, for the audio powers 0.0, 0.1, ...,
    1.5 and every clip of up to 12 frames, the binary64 weight grows up
    to the middle of the clip and falls after it. *)
Lemma binary64_guidance_rises (i j t : Z) (p : spec_float) :
  1 <= t <= 12 -> 0 <= i <= j -> j <= t -> In p Binary64.sample_powers ->
  (2 * j <= t ->
   SFleb (Binary64.compute_guidance_strength Binary64.lit_0_7 p i t)
     (Binary64.compute_guidance_strength Binary64.lit_0_7 p j t) = true) /\
  (t <= 2 * i ->
   SFleb (Binary64.compute_guidance_strength Binary64.lit_0_7 p j t)
     (Binary64.compute_guidance_strength Binary64.lit_0_7 p i t) = true).
Proof.
  intros Ht Hij Hj Hp.
  assert (Hall : forallb
                   (Binary64Shape.guidance_rises Binary64.lit_0_7 Binary64.sample_powers)
                   (Binary64.range 1 (Z.to_nat 12)) = true)
    by (vm_compute; reflexivity).
  assert (Ht' : 1 <= t < 1 + Z.of_nat (Z.to_nat 12)) by lia.
  pose proof (range_forallb _ 1 (Z.to_nat 12) Hall t Ht') as Hat.
  clear Hall. unfold Binary64Shape.guidance_rises in Hat.
  assert (Hj' : 0 <= j < 0 + Z.of_nat (Z.to_nat (t + 1))) by lia.
  pose proof (range_forallb _ 0 (Z.to_nat (t + 1)) Hat j Hj') as Hatj.
  clear Hat. cbv beta in Hatj.
  assert (Hi' : 0 <= i < 0 + Z.of_nat (Z.to_nat (j + 1))) by lia.
  pose proof (range_forallb _ 0 (Z.to_nat (j + 1)) Hatj i Hi') as Hati.
  clear Hatj. cbv beta in Hati.
  pose proof (proj1 (forallb_forall _ _) Hati p Hp) as Hw.
  cbv beta zeta in Hw. apply andb_prop in Hw as [Hrise Hfall].
  split.
  - intros H. destruct (Z.leb_spec (2 * j) t); [exact Hrise | lia].
  - intros H. destruct (Z.leb_spec t (2 * i)); [exact Hfall | lia].
Qed.

(** X1.  The guidance weight grows towards the middle of the clip and
    falls after it: for a non-negative base strength and audio power and
    two frame indices [i <= j] of the same clip, frame [j] gets at least
    the weight of frame [i] when [j] lies in the first half
    ([2 j <= total_frames]), and at most that weight when [i] lies in
    the second half ([total_frames <= 2 i]).  Each step of the
    computation is monotone, so the order is that of the floats too. *)
Theorem X1_guidance_grows_towards_the_middle
    (self : DynamicGuidanceSystem.t) (audio_power : Q) (i j total_frames : Z) :
  (0 <= DynamicGuidanceSystem.base_strength self)%Q ->
  (0 <= audio_power)%Q ->
  1 <= total_frames ->
  i <= j ->
  exists wi wj : Q,
    DynamicGuidanceSystem.compute_guidance_strength self audio_power i total_frames
      = Ok wi /\
    DynamicGuidanceSystem.compute_guidance_strength self audio_power j total_frames
      = Ok wj /\
    (2 * j <= total_frames -> (wi <= wj)%Q) /\
    (total_frames <= 2 * i -> (wj <= wi)%Q).
Proof.
  intros Hbase Hp Ht Hij. unfold DynamicGuidanceSystem.compute_guidance_strength.
  rewrite !truediv_nonzero by lia. cbn [Py.bind].
  eexists; eexists. split; [reflexivity |]. split; [reflexivity |].
  pose proof (audio_weight_range _ Hp) as [Ha0 _].
  pose proof (position_mono i j total_frames Ht Hij) as Hpos.
  set (aw := DynamicGuidanceSystem.audio_weight audio_power) in *.
  set (b := DynamicGuidanceSystem.base_strength self) in *.
  split.
  - intros Hj.
    pose proof (temporal_weight_rises _ _ Hpos (position_before_middle j total_frames Ht Hj))
      as Htw.
    apply Qmult_le_compat_r; [| exact Ha0].
    rewrite !(Qmult_comm b). apply Qmult_le_compat_r; assumption.
  - intros Hi.
    pose proof (temporal_weight_falls _ _ (position_after_middle i total_frames Ht Hi) Hpos)
      as Htw.
    apply Qmult_le_compat_r; [| exact Ha0].
    rewrite !(Qmult_comm b). apply Qmult_le_compat_r; assumption.
Qed.

(** X1 on frames 10 and 30 of a clip of 100. *)
Lemma X1_guidance_grows_towards_the_middle_witness :
  (0 <= DynamicGuidanceSystem.base_strength DynamicGuidanceSystem.default)%Q /\
  (0 <= 0.2)%Q /\ 1 <= 100 /\ 10 <= 30 /\
  exists wi wj : Q,
    DynamicGuidanceSystem.compute_guidance_strength DynamicGuidanceSystem.default 0.2 10 100
      = Ok wi /\
    DynamicGuidanceSystem.compute_guidance_strength DynamicGuidanceSystem.default 0.2 30 100
      = Ok wj /\
    (wi <= wj)%Q.
Proof.
  assert (H1 : (0 <= DynamicGuidanceSystem.base_strength DynamicGuidanceSystem.default)%Q)
    by (vm_compute; discriminate).
  assert (H2 : (0 <= 0.2)%Q) by (vm_compute; discriminate).
  assert (H3 : 1 <= 100) by lia.
  assert (H4 : 10 <= 30) by lia.
  split; [exact H1 |]. split; [exact H2 |]. split; [exact H3 |]. split; [exact H4 |].
  destruct (X1_guidance_grows_towards_the_middle DynamicGuidanceSystem.default
              0.2 10 30 100 H1 H2 H3 H4) as (wi & wj & Hwi & Hwj & Hrise & _).
  exists wi, wj. split; [exact Hwi |]. split; [exact Hwj |]. apply Hrise. lia.
Defined.

(** X2.  For an audio power of at least 0.5 (a saturated audio factor)
    the weight is the base strength at the middle frame of the clip and
    0.85 times the base strength at frame index 0 and at frame index
    [total_frames]: the temporal factor takes away at most 15 percent. *)
Theorem X2_guidance_peak_and_edges
    (self : DynamicGuidanceSystem.t) (audio_power : Q) (total_frames : Z) :
  1 <= total_frames -> (0.5 <= audio_power)%Q ->
  exists w0 wt : Q,
    DynamicGuidanceSystem.compute_guidance_strength self audio_power 0 total_frames = Ok w0 /\
    DynamicGuidanceSystem.compute_guidance_strength self audio_power total_frames total_frames
      = Ok wt /\
    (w0 == 0.85 * DynamicGuidanceSystem.base_strength self)%Q /\
    (wt == 0.85 * DynamicGuidanceSystem.base_strength self)%Q /\
    forall frame_idx, 2 * frame_idx = total_frames ->
      exists wm,
        DynamicGuidanceSystem.compute_guidance_strength self audio_power frame_idx total_frames
          = Ok wm /\
        (wm == DynamicGuidanceSystem.base_strength self)%Q.
Proof.
  intros Ht Hp. unfold DynamicGuidanceSystem.compute_guidance_strength.
  rewrite !truediv_nonzero by lia. cbn [Py.bind].
  assert (Hnz : ~ (inject_Z total_frames == 0)%Q).
  { intros H. unfold Qeq in H. cbn in H. lia. }
  assert (Haw := audio_weight_saturated audio_power Hp).
  assert (H0 : (inject_Z 0 / inject_Z total_frames == 0)%Q) by (field; exact Hnz).
  assert (H1 : (inject_Z total_frames / inject_Z total_frames == 1)%Q) by (field; exact Hnz).
  eexists; eexists. split; [reflexivity |]. split; [reflexivity |].
  split; [| split].
  - rewrite Haw, (temporal_weight_wd _ _ H0). unfold DynamicGuidanceSystem.temporal_weight.
    assert (E : (Qabs (0 - 0.5) == 0.5)%Q) by reflexivity. rewrite E. ring.
  - rewrite Haw, (temporal_weight_wd _ _ H1). unfold DynamicGuidanceSystem.temporal_weight.
    assert (E : (Qabs (1 - 0.5) == 0.5)%Q) by reflexivity. rewrite E. ring.
  - intros frame_idx Hmid. rewrite truediv_nonzero by lia. cbn [Py.bind].
    eexists. split; [reflexivity |].
    assert (Hq : (inject_Z frame_idx / inject_Z total_frames == 0.5)%Q).
    { subst total_frames. rewrite inject_Z_mult. field.
      intros H. unfold Qeq in H. cbn in H. lia. }
    rewrite Haw, (temporal_weight_wd _ _ Hq). unfold DynamicGuidanceSystem.temporal_weight.
    assert (E : (Qabs (0.5 - 0.5) == 0)%Q) by reflexivity. rewrite E. ring.
Qed.

(** X2 at frame 50 of 100 with the default base strength. *)
Lemma X2_guidance_peak_and_edges_witness :
  1 <= 100 /\ (0.5 <= 1)%Q /\
  exists wm,
    DynamicGuidanceSystem.compute_guidance_strength DynamicGuidanceSystem.default 1 50 100
      = Ok wm /\
    (wm == DynamicGuidanceSystem.base_strength DynamicGuidanceSystem.default)%Q.
Proof.
  assert (H1 : 1 <= 100) by lia.
  assert (H2 : (0.5 <= 1)%Q) by (vm_compute; discriminate).
  split; [exact H1 |]. split; [exact H2 |].
  destruct (X2_guidance_peak_and_edges DynamicGuidanceSystem.default 1 100 H1 H2)
    as (w0 & wt & _ & _ & _ & _ & Hmid).
  apply Hmid. reflexivity.
Defined.

(** X3.  The audio factor is a ramp that saturates at an audio power
    of 0.5: at or above 0.5 the weight does not depend on the audio
    power any more, and at or below 0.5 it is the saturated weight times
    twice the audio power.  A negative audio power gives a weight of the
    opposite sign: [min] bounds the factor from above only. *)
Theorem X3_audio_power_ramp_saturates_at_half
    (self : DynamicGuidanceSystem.t) (audio_power saturated : Q) (frame_idx total_frames : Z) :
  total_frames <> 0 -> (0.5 <= saturated)%Q ->
  exists w ws : Q,
    DynamicGuidanceSystem.compute_guidance_strength self audio_power frame_idx total_frames
      = Ok w /\
    DynamicGuidanceSystem.compute_guidance_strength self saturated frame_idx total_frames
      = Ok ws /\
    ((0.5 <= audio_power)%Q -> (w == ws)%Q) /\
    ((audio_power <= 0.5)%Q -> (w == audio_power * 2 * ws)%Q).
Proof.
  intros Ht Hs. unfold DynamicGuidanceSystem.compute_guidance_strength.
  rewrite !truediv_nonzero by exact Ht. cbn [Py.bind].
  eexists; eexists. split; [reflexivity |]. split; [reflexivity |].
  rewrite (audio_weight_saturated saturated Hs). split.
  - intros Hp. rewrite (audio_weight_saturated audio_power Hp). reflexivity.
  - intros Hp. rewrite (audio_weight_ramp audio_power Hp). ring.
Qed.

(** X3 with an audio power of 0.25: half the saturated weight. *)
Lemma X3_audio_power_ramp_saturates_at_half_witness :
  10 <> 0 /\ (0.5 <= 0.9)%Q /\
  exists w ws : Q,
    DynamicGuidanceSystem.compute_guidance_strength DynamicGuidanceSystem.default 0.25 3 10
      = Ok w /\
    DynamicGuidanceSystem.compute_guidance_strength DynamicGuidanceSystem.default 0.9 3 10
      = Ok ws /\
    (w == 0.25 * 2 * ws)%Q.
Proof.
  assert (H1 : 10 <> 0) by discriminate.
  assert (H2 : (0.5 <= 0.9)%Q) by (vm_compute; discriminate).
  split; [exact H1 |]. split; [exact H2 |].
  destruct (X3_audio_power_ramp_saturates_at_half
              DynamicGuidanceSystem.default 0.25 0.9 3 10 H1 H2)
    as (w & ws & Hw & Hws & _ & Hramp).
  exists w, ws. split; [exact Hw |]. split; [exact Hws |].
  apply Hramp. vm_compute. discriminate.
Defined.

(** X4.  With the arguments the loop passes, the guidance computation
    returns a weight between 0 and the base strength: the audio power is
    the mean of the squares of a row of the track, which is not
    negative, and the frame index lies below the frame count.  The row
    is taken with at least one entry, the mean of an empty array being
    undefined in NumPy. *)
Theorem X4_guidance_in_loop_is_bounded
    (g : DynamicGuidanceSystem.t) (audio_row : list Q) (i total_frames : nat) :
  (0 <= DynamicGuidanceSystem.base_strength g)%Q ->
  audio_row <> [] ->
  (i < total_frames)%nat ->
  (0 <= mean ((fun v => v * v)%Q <$> audio_row))%Q /\
  exists w,
    DynamicGuidanceSystem.compute_guidance_strength g
      (mean ((fun v => v * v)%Q <$> audio_row)) (Z.of_nat i) (Z.of_nat total_frames) = Ok w /\
    (0 <= w <= DynamicGuidanceSystem.base_strength g)%Q.
Proof.
  intros Hbase _ Hi. split; [apply mean_squares_nonneg |].
  apply guidance_weight_range; [exact Hbase | apply mean_squares_nonneg | lia | lia].
Qed.

(** X4 on a row of two entries at frame 2 of 5. *)
Lemma X4_guidance_in_loop_is_bounded_witness :
  (0 <= DynamicGuidanceSystem.base_strength DynamicGuidanceSystem.default)%Q /\
  [0.3; -0.4]%Q <> [] /\
  (2 < 5)%nat /\
  exists w,
    DynamicGuidanceSystem.compute_guidance_strength DynamicGuidanceSystem.default
      (mean ((fun v => v * v)%Q <$> [0.3; -0.4]%Q)) (Z.of_nat 2) (Z.of_nat 5) = Ok w /\
    (0 <= w <= DynamicGuidanceSystem.base_strength DynamicGuidanceSystem.default)%Q.
Proof.
  assert (H1 : (0 <= DynamicGuidanceSystem.base_strength DynamicGuidanceSystem.default)%Q)
    by (vm_compute; discriminate).
  assert (H2 : (2 < 5)%nat) by lia.
  assert (H3 : [0.3; -0.4]%Q <> []) by discriminate.
  split; [exact H1 |]. split; [exact H3 |]. split; [exact H2 |].
  exact (proj2 (X4_guidance_in_loop_is_bounded DynamicGuidanceSystem.default
                  [0.3; -0.4]%Q 2 5 H1 H3 H2)).
Defined.

(** ** More on slices and on the lip region *)

Section SliceMore.
Context {A : Type}.
Implicit Types (l : list A) (a b n : Z).

Lemma slice_bound_range (len i : Z) : 0 <= len -> 0 <= slice_bound len i <= len.
Proof.
  intros Hlen. unfold slice_bound. destruct (Z.ltb_spec i 0); lia.
Qed.

Lemma slice_length l a b :
  length (slice l a b)
  = Z.to_nat (slice_bound (Z.of_nat (length l)) b - slice_bound (Z.of_nat (length l)) a).
Proof.
  unfold slice. rewrite length_take, length_drop.
  pose proof (slice_bound_range (Z.of_nat (length l)) a ltac:(lia)).
  pose proof (slice_bound_range (Z.of_nat (length l)) b ltac:(lia)).
  lia.
Qed.

(** A slice never has more elements than its sequence, nor, when its
    bounds are in order, than the distance between them. *)
Lemma slice_length_le l a b :
  (length (slice l a b) <= length l)%nat /\
  (a <= b -> (length (slice l a b) <= Z.to_nat (b - a))%nat).
Proof.
  rewrite slice_length.
  pose proof (slice_bound_range (Z.of_nat (length l)) a ltac:(lia)).
  pose proof (slice_bound_range (Z.of_nat (length l)) b ltac:(lia)).
  split; [lia |]. intros Hab. unfold slice_bound in *.
  destruct (Z.ltb_spec a 0), (Z.ltb_spec b 0); lia.
Qed.

(** A window that starts before index 0 and stops at or after it is
    empty unless it is longer than the sequence: the negative start
    counts from the end. *)
Lemma slice_straddle_empty l a b :
  a < 0 -> 0 <= b -> b - a <= Z.of_nat (length l) -> slice l a b = [].
Proof.
  intros Ha Hb Hn. apply length_zero_iff_nil. rewrite slice_length.
  unfold slice_bound.
  destruct (Z.ltb_spec a 0), (Z.ltb_spec b 0); lia.
Qed.

(** A window that lies before index 0 selects from the end. *)
Lemma slice_wrap l a n :
  - Z.of_nat (length l) <= a -> 0 <= n -> a + n < 0 ->
  slice l a (a + n)
  = take (Z.to_nat n) (drop (Z.to_nat (a + Z.of_nat (length l))) l).
Proof.
  intros Ha Hn Hb. unfold slice, slice_bound.
  destruct (Z.ltb_spec a 0), (Z.ltb_spec (a + n) 0); try lia.
  f_equal; [lia |]. f_equal. lia.
Qed.

Lemma slice_elem_of l a b (x : A) : x ∈ slice l a b -> x ∈ l.
Proof.
  unfold slice. intros Hx.
  apply (subseteq_drop (Z.to_nat (slice_bound (Z.of_nat (length l)) a)) l).
  eapply subseteq_take. exact Hx.
Qed.

End SliceMore.

Section LipRegionMore.
Context {px : Type}.
Implicit Types (frame : image px) (x y w h : Z).

(** For a box of non-negative size the four numbers of the window are
    floors. *)
Lemma lip_window_nonneg x y w h :
  0 <= w -> 0 <= h ->
  lip_y (x, y, w, h) = y + h * 67 / 100 /\
  lip_h (x, y, w, h) = h * 33 / 100 /\
  lip_x (x, y, w, h) = x + w * 2 / 10 /\
  lip_w (x, y, w, h) = w * 6 / 10.
Proof.
  intros Hw Hh. destruct (lip_window x y w h) as (-> & -> & -> & ->).
  rewrite !Z.quot_div_nonneg by lia. auto.
Qed.

(** The columns [c0 .. c0 + nc - 1] of rows that all have [row_width]
    pixels. *)
Lemma column_window (rows : image px) (row_width : nat) (c0 nc : Z) :
  rectangular row_width rows ->
  0 <= c0 -> 0 <= nc -> c0 + nc <= Z.of_nat row_width ->
  rectangular (Z.to_nat nc) ((fun row => slice row c0 (c0 + nc)) <$> rows) /\
  forall r c : nat,
    (c < Z.to_nat nc)%nat ->
    pixel ((fun row => slice row c0 (c0 + nc)) <$> rows) r c
    = pixel rows r (Z.to_nat c0 + c).
Proof.
  intros Hrect Hc0 Hnc Hcols. split.
  - unfold rectangular. apply Forall_fmap.
    eapply Forall_impl; [exact Hrect |].
    intros row Hrow. cbn in *. apply slice_inside_length; [assumption .. |].
    rewrite Hrow. exact Hcols.
  - intros r c Hc. unfold pixel. rewrite list_lookup_fmap.
    destruct (rows !! r) as [row |] eqn:Erow; cbn; [| reflexivity].
    apply slice_inside_lookup; try assumption.
    assert (Hlen : length row = row_width).
    { eapply (proj1 (Forall_forall _ _) Hrect).
      apply list_elem_of_lookup. eauto. }
    rewrite Hlen. exact Hcols.
Qed.

End LipRegionMore.

(** X5.  For every frame and every box of non-negative width and height
    the crop fits both the window and the frame: it has at most
    [int(0.33 h)] rows and no more rows than the frame, and each of its
    rows has at most [int(0.6 w)] pixels and is cut from a row of the
    frame. *)
Theorem X5_crop_fits_window_and_frame
    {px : Type} (frame : image px) (x y w h : Z) :
  0 <= w -> 0 <= h ->
  (height (extract_lip_region frame (x, y, w, h)) <= height frame)%nat /\
  Z.of_nat (height (extract_lip_region frame (x, y, w, h))) <= h * 33 / 100 /\
  Forall (fun row =>
            Z.of_nat (length row) <= w * 6 / 10 /\
            exists frame_row, frame_row ∈ frame /\ (length row <= length frame_row)%nat)
         (extract_lip_region frame (x, y, w, h)).
Proof.
  intros Hw Hh. unfold extract_lip_region, height, slice2.
  destruct (lip_window_nonneg x y w h Hw Hh) as (-> & -> & -> & ->).
  assert (H33 : 0 <= h * 33 / 100) by (apply Z.div_pos; lia).
  assert (H6 : 0 <= w * 6 / 10) by (apply Z.div_pos; lia).
  rewrite length_fmap.
  destruct (slice_length_le frame (y + h * 67 / 100) (y + h * 67 / 100 + h * 33 / 100))
    as [Hle Hwin].
  split; [exact Hle |]. split; [specialize (Hwin ltac:(lia)); lia |].
  apply Forall_fmap, Forall_forall. intros frame_row Hin. cbn.
  destruct (slice_length_le frame_row (x + w * 2 / 10) (x + w * 2 / 10 + w * 6 / 10))
    as [Hle' Hwin'].
  split; [specialize (Hwin' ltac:(lia)); lia |].
  exists frame_row. split; [| exact Hle'].
  eapply slice_elem_of. exact Hin.
Qed.

(** X5 on the 10 x 10 frame with a box that overhangs its bottom right
    corner. *)
Lemma X5_crop_fits_window_and_frame_witness :
  0 <= 10 /\ 0 <= 10 /\
  (height (extract_lip_region Examples.frame10 (5, 5, 10, 10)%Z) <= height Examples.frame10)%nat /\
  Z.of_nat (height (extract_lip_region Examples.frame10 (5, 5, 10, 10))) <= 10 * 33 / 100.
Proof.
  assert (H1 : 0 <= 10) by lia.
  split; [exact H1 |]. split; [exact H1 |].
  destruct (X5_crop_fits_window_and_frame Examples.frame10 5 5 10 10 H1 H1)
    as (Hframe & Hwindow & _).
  split; [exact Hframe | exact Hwindow].
Defined.

(** X6.  For a box of non-negative width and height the window lies
    inside the box: it starts at or below the top of the box and at or
    right of its left side, and it ends at the bottom row of the box or
    one row above it, the former exactly when [h] is a multiple of 100.
    Horizontally it covers at most the columns up to [x + 0.8 w]. *)
Theorem X6_lip_window_lies_inside_the_box (x y w h : Z) :
  0 <= w -> 0 <= h ->
  y <= lip_y (x, y, w, h) /\
  0 <= lip_h (x, y, w, h) /\
  y + h - 1 <= lip_y (x, y, w, h) + lip_h (x, y, w, h) <= y + h /\
  (lip_y (x, y, w, h) + lip_h (x, y, w, h) = y + h <-> h mod 100 = 0) /\
  x <= lip_x (x, y, w, h) /\
  0 <= lip_w (x, y, w, h) /\
  10 * (lip_x (x, y, w, h) + lip_w (x, y, w, h) - x) <= 8 * w /\
  lip_x (x, y, w, h) + lip_w (x, y, w, h) <= x + w.
Proof.
  intros Hw Hh.
  destruct (lip_window_nonneg x y w h Hw Hh) as (-> & -> & -> & ->).
  repeat split; Z.div_mod_to_equations; lia.
Qed.

Lemma X6_lip_window_lies_inside_the_box_witness :
  0 <= 64 /\ 0 <= 48 /\
  9 + 48 - 1 <= lip_y (7, 9, 64, 48) + lip_h (7, 9, 64, 48) <= 9 + 48 /\
  lip_x (7, 9, 64, 48) + lip_w (7, 9, 64, 48) <= 7 + 64.
Proof.
  assert (H1 : 0 <= 64) by lia.
  assert (H2 : 0 <= 48) by lia.
  split; [exact H1 |]. split; [exact H2 |].
  destruct (X6_lip_window_lies_inside_the_box 7 9 64 48 H1 H2)
    as (_ & _ & Hbottom & _ & _ & _ & _ & Hright).
  split; [exact Hbottom | exact Hright].
Defined.

(** X7.  A window that starts above row 0 (or left of column 0) and ends
    at or past it, and that is no taller (no wider) than the frame, gives
    an image without pixels: NumPy counts the negative start from the far
    edge, which puts it at or after the stop. *)
Theorem X7_window_across_the_edge_is_empty
    {px : Type} (frame : image px) (frame_width : nat) (face_bbox : bbox) :
  rectangular frame_width frame ->
  (lip_y face_bbox < 0 <= lip_y face_bbox + lip_h face_bbox /\
   lip_h face_bbox <= Z.of_nat (height frame)) \/
  (lip_x face_bbox < 0 <= lip_x face_bbox + lip_w face_bbox /\
   lip_w face_bbox <= Z.of_nat frame_width) ->
  empty_image (extract_lip_region frame face_bbox).
Proof.
  intros Hrect [[[Hy Hstop] Hh] | [[Hx Hstop] Hw]]; unfold extract_lip_region, slice2.
  - left. unfold height in *. rewrite slice_straddle_empty by lia. reflexivity.
  - right. apply Forall_fmap, Forall_forall. intros row Hin. cbn.
    assert (Hlen : length row = frame_width).
    { apply (proj1 (Forall_forall _ _) Hrect). eapply slice_elem_of. exact Hin. }
    apply slice_straddle_empty; lia.
Qed.

(** X7 on the 10 x 10 frame with the box (-3, 0, 10, 10), whose window
    covers the columns -1 to 4: three rows without a pixel. *)
Lemma X7_window_across_the_edge_is_empty_witness :
  rectangular 10 Examples.frame10 /\
  (lip_x (-3, 0, 10, 10) < 0 <= lip_x (-3, 0, 10, 10) + lip_w (-3, 0, 10, 10) /\
   lip_w (-3, 0, 10, 10) <= Z.of_nat 10) /\
  extract_lip_region Examples.frame10 (-3, 0, 10, 10) = [[]; []; []].
Proof.
  assert (H0 : rectangular 10 Examples.frame10) by (vm_compute; repeat constructor).
  assert (H1 : lip_x (-3, 0, 10, 10) < 0 <= lip_x (-3, 0, 10, 10) + lip_w (-3, 0, 10, 10) /\
               lip_w (-3, 0, 10, 10) <= Z.of_nat 10) by (vm_compute; intuition discriminate).
  split; [exact H0 |]. split; [exact H1 |].
  destruct (X7_window_across_the_edge_is_empty Examples.frame10 10 (-3, 0, 10, 10)
              H0 (or_intror H1)) as [Hrows | Hcols].
  - vm_compute in Hrows. discriminate Hrows.
  - vm_compute. reflexivity.
Defined.

(** X8.  A window that lies entirely above row 0, by no more than the
    height of the frame, is not empty: its rows are read from the bottom
    of the frame, row [r] of the crop being row [height + lip_y + r]. *)
Theorem X8_window_above_the_frame_wraps_around
    {px : Type} (frame : image px) (frame_width : nat) (face_bbox : bbox) :
  rectangular frame_width frame ->
  - Z.of_nat (height frame) <= lip_y face_bbox ->
  0 <= lip_h face_bbox ->
  lip_y face_bbox + lip_h face_bbox < 0 ->
  0 <= lip_x face_bbox -> 0 <= lip_w face_bbox ->
  lip_x face_bbox + lip_w face_bbox <= Z.of_nat frame_width ->
  height (extract_lip_region frame face_bbox) = Z.to_nat (lip_h face_bbox) /\
  forall r c : nat,
    (r < Z.to_nat (lip_h face_bbox))%nat -> (c < Z.to_nat (lip_w face_bbox))%nat ->
    pixel (extract_lip_region frame face_bbox) r c
    = pixel frame (Z.to_nat (Z.of_nat (height frame) + lip_y face_bbox) + r)
                  (Z.to_nat (lip_x face_bbox) + c).
Proof.
  intros Hrect Hy Hh Hstop Hx Hw Hcols. unfold extract_lip_region, slice2, height in *.
  rewrite (slice_wrap frame (lip_y face_bbox) (lip_h face_bbox)) by lia.
  set (k := Z.to_nat (lip_y face_bbox + Z.of_nat (length frame))).
  assert (Hrows : rectangular frame_width (take (Z.to_nat (lip_h face_bbox)) (drop k frame)))
    by (apply Forall_take, Forall_drop, Hrect).
  destruct (column_window _ frame_width (lip_x face_bbox) (lip_w face_bbox)
              Hrows Hx Hw Hcols) as [_ Hpix].
  split.
  - rewrite length_fmap, length_take, length_drop. lia.
  - intros r c Hr Hc. rewrite (Hpix r c Hc). unfold pixel.
    rewrite lookup_take_lt by exact Hr. rewrite lookup_drop.
    replace (Z.to_nat (Z.of_nat (length frame) + lip_y face_bbox)) with k by lia.
    reflexivity.
Qed.

(** X8 on the 10 x 10 frame with the box (0, -12, 10, 10): the window is
    rows -6 to -4, that is rows 4 to 6 of the frame. *)
Lemma X8_window_above_the_frame_wraps_around_witness :
  rectangular 10 Examples.frame10 /\
  - Z.of_nat (height Examples.frame10) <= lip_y (0, -12, 10, 10) /\
  0 <= lip_h (0, -12, 10, 10) /\
  lip_y (0, -12, 10, 10) + lip_h (0, -12, 10, 10) < 0 /\
  0 <= lip_x (0, -12, 10, 10) /\ 0 <= lip_w (0, -12, 10, 10) /\
  lip_x (0, -12, 10, 10) + lip_w (0, -12, 10, 10) <= Z.of_nat 10 /\
  height (extract_lip_region Examples.frame10 (0, -12, 10, 10)) = 3%nat /\
  pixel (extract_lip_region Examples.frame10 (0, -12, 10, 10)) 0 0 = Some 42%nat.
Proof.
  assert (H0 : rectangular 10 Examples.frame10) by (vm_compute; repeat constructor).
  assert (H1 : - Z.of_nat (height Examples.frame10) <= lip_y (0, -12, 10, 10))
    by (vm_compute; discriminate).
  assert (H2 : 0 <= lip_h (0, -12, 10, 10)) by (vm_compute; discriminate).
  assert (H3 : lip_y (0, -12, 10, 10) + lip_h (0, -12, 10, 10) < 0)
    by (vm_compute; reflexivity).
  assert (H4 : 0 <= lip_x (0, -12, 10, 10)) by (vm_compute; discriminate).
  assert (H5 : 0 <= lip_w (0, -12, 10, 10)) by (vm_compute; discriminate).
  assert (H6 : lip_x (0, -12, 10, 10) + lip_w (0, -12, 10, 10) <= Z.of_nat 10)
    by (vm_compute; discriminate).
  destruct (X8_window_above_the_frame_wraps_around Examples.frame10 10 (0, -12, 10, 10)
              H0 H1 H2 H3 H4 H5 H6) as [Hheight Hpixel].
  repeat (split; [assumption |]).
  rewrite (Hpixel 0%nat 0%nat) by (vm_compute; lia).
  vm_compute. reflexivity.
Defined.

(** ** More on alignment *)

Section AlignMore.

(** Below the frame count the floor already lies below the column count:
    the [min] of the source changes nothing. *)
Lemma audio_idx_floor (mel_spec : ndarray) (target_frames i : nat) :
  1 <= shape1 mel_spec -> (i < target_frames)%nat ->
  audio_idx mel_spec target_frames i
    = Ok (Z.of_nat i * shape1 mel_spec / Z.of_nat target_frames) /\
  0 <= Z.of_nat i * shape1 mel_spec / Z.of_nat target_frames <= shape1 mel_spec - 1.
Proof.
  intros Hn Hi.
  assert (Hrange : 0 <= Z.of_nat i * shape1 mel_spec / Z.of_nat target_frames
                   <= shape1 mel_spec - 1).
  { split; [apply Z.div_pos; lia |].
    assert (Z.of_nat i * shape1 mel_spec / Z.of_nat target_frames < shape1 mel_spec);
      [| lia].
    apply Z.div_lt_upper_bound; [lia |]. nia. }
  split; [| exact Hrange].
  rewrite audio_idx_source_column by lia.
  unfold Spec.source_column, Spec.clamp. f_equal. lia.
Qed.

(** What [align_audio_video] returns when it has something to align. *)
Lemma align_audio_video_track {px : Type} (features : audio_features)
    (video_frames : list (image px)) :
  ~ (audio_length features == 0)%Q ->
  (1 <= length video_frames)%nat ->
  1 <= shape1 (mel_spectrogram features) ->
  exists aligned_audio,
    align_audio_video features video_frames = Ok (aligned_audio, video_frames) /\
    length aligned_audio = length video_frames /\
    forall i : nat,
      (i < length video_frames)%nat ->
      aligned_audio !! i
      = columns (mel_spectrogram features)
          !! Z.to_nat (Z.of_nat i * shape1 (mel_spectrogram features)
                       / Z.of_nat (length video_frames)).
Proof.
  intros Hdur Ht Hn.
  set (mel_spec := mel_spectrogram features) in *.
  set (t := length video_frames) in *.
  destruct (align_rows_spec mel_spec t (seq 0 t) Hn Ht
              (replicate t (replicate (shape0 mel_spec) 0%Q)))
    as (track & Hrun & Hlen & Hlook).
  { apply length_replicate. }
  { apply Forall_forall. intros i Hi. apply elem_of_seq in Hi. lia. }
  exists track. split; [| split; [exact Hlen |]].
  - unfold align_audio_video.
    rewrite truediv_float_nonzero by exact Hdur. cbn [Py.bind].
    fold mel_spec t. rewrite Hrun. reflexivity.
  - intros i Hi. rewrite Hlook, decide_True by (apply elem_of_seq; lia).
    destruct (audio_idx_floor mel_spec t i Hn Hi) as [Hidx _].
    rewrite audio_idx_source_column in Hidx by lia.
    injection Hidx as ->. reflexivity.
Qed.

End AlignMore.

(** X9.  With at least one audio column the clamp of the source never
    acts: for every row [i] below the frame count, [int(i * n / t)] is
    already at most [n - 1], and the index used is that floor. *)
Theorem X9_column_clamp_never_acts
    (mel_spec : ndarray) (target_frames i : nat) :
  1 <= shape1 mel_spec -> (i < target_frames)%nat ->
  int (inject_Z (Z.of_nat i * shape1 mel_spec) / inject_Z (Z.of_nat target_frames))%Q
    <= shape1 mel_spec - 1 /\
  audio_idx mel_spec target_frames i
    = Ok (int (inject_Z (Z.of_nat i * shape1 mel_spec)
               / inject_Z (Z.of_nat target_frames))%Q) /\
  audio_idx mel_spec target_frames i
    = Ok (Z.of_nat i * shape1 mel_spec / Z.of_nat target_frames).
Proof.
  intros Hn Hi.
  destruct (audio_idx_floor mel_spec target_frames i Hn Hi) as [Hidx Hrange].
  rewrite int_truediv by lia. rewrite Z.quot_div_nonneg by lia.
  split; [lia |]. split; exact Hidx.
Qed.

Lemma X9_column_clamp_never_acts_witness :
  1 <= shape1 Examples.mel4 /\ (6 < 7)%nat /\
  audio_idx Examples.mel4 7 6 = Ok (Z.of_nat 6 * shape1 Examples.mel4 / Z.of_nat 7).
Proof.
  assert (H1 : 1 <= shape1 Examples.mel4) by (vm_compute; discriminate).
  assert (H2 : (6 < 7)%nat) by lia.
  split; [exact H1 |]. split; [exact H2 |].
  exact (proj2 (proj2 (X9_column_clamp_never_acts Examples.mel4 7 6 H1 H2))).
Defined.

(** X10.  When the number of frames is [k] times the number of audio
    columns ([k >= 1]) and the duration is not zero, row [i] of the
    aligned track is column [i / k]: each column is repeated [k] times in
    a row.  With as many frames as columns ([k = 1]) the track is the list
    of columns itself. *)
Theorem X10_whole_multiple_repeats_each_column
    {px : Type} (features : audio_features) (video_frames : list (image px)) (k : nat) :
  ~ (audio_length features == 0)%Q ->
  (1 <= k)%nat ->
  1 <= shape1 (mel_spectrogram features) ->
  length video_frames = (k * length (columns (mel_spectrogram features)))%nat ->
  exists aligned_audio,
    align_audio_video features video_frames = Ok (aligned_audio, video_frames) /\
    (forall i : nat,
        (i < length video_frames)%nat ->
        aligned_audio !! i = columns (mel_spectrogram features) !! (i / k)%nat) /\
    (k = 1%nat -> aligned_audio = columns (mel_spectrogram features)).
Proof.
  intros Hdur Hk Hn Ht.
  assert (Hn' : (1 <= length (columns (mel_spectrogram features)))%nat)
    by (unfold shape1 in Hn; lia).
  destruct (align_audio_video_track features video_frames Hdur ltac:(nia) Hn)
    as (track & Hrun & Hlen & Hlook).
  assert (Hrows : forall i : nat,
             (i < length video_frames)%nat ->
             track !! i = columns (mel_spectrogram features) !! (i / k)%nat).
  { intros i Hi. rewrite (Hlook i Hi). f_equal.
    unfold shape1. rewrite Ht, Nat2Z.inj_mul.
    rewrite Z.div_mul_cancel_r by lia.
    rewrite <- Nat2Z.inj_div. apply Nat2Z.id. }
  exists track. split; [exact Hrun |]. split; [exact Hrows |].
  intros ->. apply list_eq. intros i.
  destruct (decide (i < length video_frames)%nat) as [Hi | Hi].
  - rewrite (Hrows i Hi), Nat.div_1_r. reflexivity.
  - rewrite !lookup_ge_None_2 by lia. reflexivity.
Qed.

(** X10 with eight frames for four columns. *)
Lemma X10_whole_multiple_repeats_each_column_witness :
  ~ (audio_length (Examples.features 4 Examples.mel4) == 0)%Q /\
  (1 <= 2)%nat /\
  1 <= shape1 (mel_spectrogram (Examples.features 4 Examples.mel4)) /\
  length (replicate 8 Examples.blank4)
    = (2 * length (columns (mel_spectrogram (Examples.features 4 Examples.mel4))))%nat /\
  exists aligned_audio,
    align_audio_video (Examples.features 4 Examples.mel4) (replicate 8 Examples.blank4)
      = Ok (aligned_audio, replicate 8 Examples.blank4) /\
    aligned_audio !! 5%nat = Some [5; 6]%Q.
Proof.
  assert (H1 : ~ (audio_length (Examples.features 4 Examples.mel4) == 0)%Q)
    by (vm_compute; discriminate).
  assert (H2 : (1 <= 2)%nat) by lia.
  assert (H3 : 1 <= shape1 (mel_spectrogram (Examples.features 4 Examples.mel4)))
    by (vm_compute; discriminate).
  assert (H4 : length (replicate 8 Examples.blank4)
               = (2 * length (columns (mel_spectrogram (Examples.features 4 Examples.mel4))))%nat)
    by reflexivity.
  repeat (split; [assumption |]).
  destruct (X10_whole_multiple_repeats_each_column
              (Examples.features 4 Examples.mel4) (replicate 8 Examples.blank4) 2 H1 H2 H3 H4)
    as (aligned_audio & Hrun & Hrows & _).
  exists aligned_audio. split; [exact Hrun |].
  rewrite (Hrows 5%nat) by (vm_compute; lia). reflexivity.
Defined.

Section Resampling.

(** Consecutive rows when there are at least as many frames as columns. *)
Lemma floor_step_small (i n t : Z) :
  0 <= i -> 1 <= n <= t ->
  i * n / t <= (i + 1) * n / t <= i * n / t + 1.
Proof.
  intros Hi Hnt. split.
  - apply Z.div_le_mono; nia.
  - assert ((i + 1) * n / t < i * n / t + 1 + 1); [| lia].
    apply Z.div_lt_upper_bound; [lia |].
    pose proof (Z.mul_succ_div_gt (i * n) t ltac:(lia)). nia.
Qed.

(** The first row that reads column [j]. *)
Lemma floor_hits_column (j n t : Z) :
  0 <= j < n -> n <= t ->
  0 <= (j * t + n - 1) / n < t /\ ((j * t + n - 1) / n) * n / t = j.
Proof.
  intros Hj Hnt.
  set (i := (j * t + n - 1) / n).
  assert (Hi : n * i <= j * t + n - 1 < n * (i + 1)).
  { unfold i. split.
    - apply Z.mul_div_le. lia.
    - pose proof (Z.mul_succ_div_gt (j * t + n - 1) n ltac:(lia)). lia. }
  assert (Hpos : 0 <= i) by (unfold i; apply Z.div_pos; nia).
  split; [split; [exact Hpos | nia] |].
  symmetry. apply (Z.div_unique (i * n) t j (i * n - j * t)); [left; nia | lia].
Qed.

(** Consecutive rows when there are at most as many frames as columns. *)
Lemma floor_step_large (i n t : Z) :
  0 <= i -> 1 <= t <= n -> i * n / t + 1 <= (i + 1) * n / t.
Proof.
  intros Hi Htn.
  apply Z.div_le_lower_bound; [lia |].
  pose proof (Z.mul_div_le (i * n) t ltac:(lia)). nia.
Qed.

End Resampling.

(** X11.  With at least as many frames as audio columns (and a non-zero
    duration) no column is lost: every column of the feature array is a
    row of the aligned track, and from one row to the next the column
    index stays or grows by one. *)
Theorem X11_upsampling_keeps_every_column
    {px : Type} (features : audio_features) (video_frames : list (image px)) :
  ~ (audio_length features == 0)%Q ->
  1 <= shape1 (mel_spectrogram features) <= Z.of_nat (length video_frames) ->
  exists aligned_audio,
    align_audio_video features video_frames = Ok (aligned_audio, video_frames) /\
    (forall column, column ∈ columns (mel_spectrogram features) -> column ∈ aligned_audio) /\
    (forall i : nat,
        (S i < length video_frames)%nat ->
        exists k k',
          audio_idx (mel_spectrogram features) (length video_frames) i = Ok k /\
          audio_idx (mel_spectrogram features) (length video_frames) (S i) = Ok k' /\
          k <= k' <= k + 1).
Proof.
  intros Hdur [Hn Hnt].
  destruct (align_audio_video_track features video_frames Hdur ltac:(lia) Hn)
    as (track & Hrun & Hlen & Hlook).
  set (n := shape1 (mel_spectrogram features)) in *.
  set (t := Z.of_nat (length video_frames)) in *.
  exists track. split; [exact Hrun |]. split.
  - intros column Hin. apply list_elem_of_lookup in Hin as [j Hj].
    pose proof (lookup_lt_Some _ _ _ Hj) as Hjn.
    destruct (floor_hits_column (Z.of_nat j) n t) as [Hi Hfloor];
      [unfold n, shape1; lia | lia |].
    set (i := (Z.of_nat j * t + n - 1) / n) in *.
    apply list_elem_of_lookup. exists (Z.to_nat i).
    rewrite Hlook by lia. rewrite Z2Nat.id by lia.
    fold n t. rewrite Hfloor, Nat2Z.id. exact Hj.
  - intros i Hi.
    destruct (audio_idx_floor (mel_spectrogram features) (length video_frames) i Hn ltac:(lia))
      as [-> _].
    destruct (audio_idx_floor (mel_spectrogram features) (length video_frames) (S i) Hn Hi)
      as [-> _].
    eexists; eexists. split; [reflexivity |]. split; [reflexivity |].
    fold n t. rewrite Nat2Z.inj_succ. unfold Z.succ.
    apply floor_step_small; lia.
Qed.

(** X11 with six frames for four columns. *)
Lemma X11_upsampling_keeps_every_column_witness :
  ~ (audio_length (Examples.features 4 Examples.mel4) == 0)%Q /\
  1 <= shape1 (mel_spectrogram (Examples.features 4 Examples.mel4))
    <= Z.of_nat (length (replicate 6 Examples.blank4)) /\
  exists aligned_audio,
    align_audio_video (Examples.features 4 Examples.mel4) (replicate 6 Examples.blank4)
      = Ok (aligned_audio, replicate 6 Examples.blank4) /\
    [7; 8]%Q ∈ aligned_audio.
Proof.
  assert (H1 : ~ (audio_length (Examples.features 4 Examples.mel4) == 0)%Q)
    by (vm_compute; discriminate).
  assert (H2 : 1 <= shape1 (mel_spectrogram (Examples.features 4 Examples.mel4))
               <= Z.of_nat (length (replicate 6 Examples.blank4)))
    by (vm_compute; split; discriminate).
  split; [exact H1 |]. split; [exact H2 |].
  destruct (X11_upsampling_keeps_every_column
              (Examples.features 4 Examples.mel4) (replicate 6 Examples.blank4) H1 H2)
    as (aligned_audio & Hrun & Hall & _).
  exists aligned_audio. split; [exact Hrun |].
  apply Hall. cbn. repeat constructor.
Defined.

(** X12.  With at most as many frames as audio columns the column index
    grows strictly with the row: two different rows never read the same
    column, and the columns in between are skipped. *)
Theorem X12_downsampling_reads_distinct_columns
    (mel_spec : ndarray) (target_frames i j : nat) :
  (1 <= target_frames)%nat ->
  Z.of_nat target_frames <= shape1 mel_spec ->
  (i < j)%nat -> (j < target_frames)%nat ->
  exists k k',
    audio_idx mel_spec target_frames i = Ok k /\
    audio_idx mel_spec target_frames j = Ok k' /\
    k < k'.
Proof.
  intros Ht Htn Hij Hj.
  destruct (audio_idx_floor mel_spec target_frames i ltac:(lia) ltac:(lia)) as [-> _].
  destruct (audio_idx_floor mel_spec target_frames j ltac:(lia) Hj) as [-> _].
  eexists; eexists. split; [reflexivity |]. split; [reflexivity |].
  pose proof (floor_step_large (Z.of_nat i) (shape1 mel_spec) (Z.of_nat target_frames)
                ltac:(lia) ltac:(lia)) as Hstep.
  assert ((Z.of_nat i + 1) * shape1 mel_spec / Z.of_nat target_frames
          <= Z.of_nat j * shape1 mel_spec / Z.of_nat target_frames).
  { apply Z.div_le_mono; [lia |]. apply Z.mul_le_mono_nonneg_r; lia. }
  lia.
Qed.

(** X12 with three frames for four columns. *)
Lemma X12_downsampling_reads_distinct_columns_witness :
  (1 <= 3)%nat /\ Z.of_nat 3 <= shape1 Examples.mel4 /\ (1 < 2)%nat /\ (2 < 3)%nat /\
  exists k k',
    audio_idx Examples.mel4 3 1 = Ok k /\ audio_idx Examples.mel4 3 2 = Ok k' /\ k < k'.
Proof.
  assert (H1 : (1 <= 3)%nat) by lia.
  assert (H2 : Z.of_nat 3 <= shape1 Examples.mel4) by (vm_compute; discriminate).
  assert (H3 : (1 < 2)%nat) by lia.
  assert (H4 : (2 < 3)%nat) by lia.
  repeat (split; [assumption |]).
  exact (X12_downsampling_reads_distinct_columns Examples.mel4 3 1 2 H1 H2 H3 H4).
Defined.

(** ** More on the per-frame loop *)

Section LoopMore.
Import Observe.
Context {px tensor : Type}.
Implicit Types (self : OmniSyncFramework.t px tensor) (frame : image px)
  (frames output_frames : list (image px)) (aligned_audio : list (list Q)).

(** The loop on frames in which no face is found. *)
Lemma lip_sync_loop_no_face self aligned_audio total frames :
  Forall (fun frame => detect_face self frame = Ok None) frames ->
  forall i output_frames,
    lip_sync_loop self aligned_audio total i frames output_frames
    = (EvDetect <$> frames, Ok (output_frames ++ frames)).
Proof.
  induction 1 as [| frame frames Hdet _ IH]; intros i output_frames; cbn [lip_sync_loop].
  - rewrite app_nil_r. reflexivity.
  - rewrite (process_frame_absent _ _ _ _ _ _ Hdet), bindT_ok, IH, after_pair.
    rewrite <- app_assoc. reflexivity.
Qed.

(** The calls of one iteration: the detector on the frame, then calls
    that are neither detector nor codec calls. *)
Lemma process_frame_events self aligned_audio total output_frames i frame :
  exists tr,
    events (process_frame self aligned_audio total output_frames i frame)
      = EvDetect frame :: tr /\
    detected tr = [] /\
    Forall (fun ev => is_codec ev = false) tr.
Proof.
  unfold process_frame, call, lift.
  destruct (detect_face self frame) as [[face_bbox |] | e];
    [| exists []; repeat split; constructor ..].
  rewrite bindT_ok.
  destruct (index aligned_audio (Z.of_nat i)) as [audio_input | e];
    [| exists []; repeat split; constructor].
  rewrite bindT_ok.
  destruct (cv2_resize self _ _) as [lip_resized | e];
    [| eexists; split; [reflexivity |]; split; [reflexivity | repeat constructor]].
  rewrite bindT_ok.
  destruct (visual_tensor self lip_resized) as [visual_input | e];
    [| eexists; split; [reflexivity |]; split; [reflexivity | repeat constructor]].
  rewrite bindT_ok.
  destruct (DynamicGuidanceSystem.compute_guidance_strength _ _ _ _) as [s | e];
    [| eexists; split; [reflexivity |]; split; [reflexivity | repeat constructor]].
  rewrite bindT_ok.
  destruct (model self audio_input visual_input) as [output_features | e];
    eexists; (split; [reflexivity |]); (split; [reflexivity | repeat constructor]).
Qed.

Lemma detected_cons frame (tr : list (event px tensor)) :
  detected (EvDetect frame :: tr) = frame :: detected tr.
Proof. reflexivity. Qed.

Lemma detected_app (tr tr' : list (event px tensor)) :
  detected (tr ++ tr') = detected tr ++ detected tr'.
Proof. apply omap_app. Qed.

Lemma lip_sync_loop_calls self aligned_audio total frames :
  forall i output_frames,
    exists k : nat,
      (k <= length frames)%nat /\
      detected (events (lip_sync_loop self aligned_audio total i frames output_frames))
        = take k frames /\
      (is_ok (outcome (lip_sync_loop self aligned_audio total i frames output_frames)) = true ->
       k = length frames) /\
      Forall (fun ev => is_codec ev = false)
        (events (lip_sync_loop self aligned_audio total i frames output_frames)).
Proof.
  induction frames as [| frame frames IH]; intros i output_frames; cbn [lip_sync_loop].
  - exists 0%nat. repeat split; constructor.
  - destruct (process_frame_events self aligned_audio total output_frames i frame)
      as (tr & Hev & Hdet & Hcodec).
    destruct (process_frame self aligned_audio total output_frames i frame)
      as [tr0 [out1 | e]] eqn:Estep; cbn [events fst] in Hev; subst tr0.
    + rewrite bindT_ok.
      destruct (IH (S i) out1) as (k & Hk & Hdetected & Hall & Hnocodec).
      destruct (lip_sync_loop self aligned_audio total (S i) frames out1) as [tr' r'].
      rewrite after_pair. cbn [events outcome fst snd] in *.
      exists (S k). split; [cbn; lia |]. split; [| split].
      * rewrite detected_app, detected_cons, Hdet, Hdetected. reflexivity.
      * intros Hok. cbn. f_equal. apply Hall, Hok.
      * constructor; [reflexivity |]. apply Forall_app. split; assumption.
    + rewrite bindT_raise. cbn [events outcome fst snd].
      exists 1%nat. split; [cbn; lia |]. split; [| split].
      * rewrite detected_cons, Hdet. reflexivity.
      * discriminate.
      * constructor; [reflexivity | exact Hcodec].
Qed.

End LoopMore.

Section LoopMore2.
Import Observe.
Context {px tensor : Type}.
Implicit Types (self : OmniSyncFramework.t px tensor) (frame : image px)
  (frames output_frames : list (image px)) (aligned_audio : list (list Q)).

(** The rows of the track are written in place: the track keeps the
    length it was created with, one row per frame. *)
Lemma align_rows_length (mel_spec : ndarray) (target_frames : nat) (range : list nat) :
  forall aligned_audio track,
    align_rows mel_spec target_frames range aligned_audio = Ok track ->
    length track = length aligned_audio.
Proof.
  induction range as [| i range IH]; intros aligned_audio track Hrun.
  - cbn in Hrun. injection Hrun as <-. reflexivity.
  - cbn [align_rows] in Hrun.
    destruct (audio_idx mel_spec target_frames i) as [k |]; [| discriminate Hrun].
    cbn [Py.bind] in Hrun.
    destruct (index (columns mel_spec) k) as [column |]; [| discriminate Hrun].
    cbn [Py.bind] in Hrun. unfold setitem in Hrun.
    destruct (i <? length aligned_audio)%nat; [| discriminate Hrun].
    cbn [Py.bind] in Hrun. rewrite (IH _ _ Hrun). apply length_insert.
Qed.

Lemma align_audio_video_shape (features : audio_features) frames
    (aligned_audio : list (list Q)) (aligned_frames : list (image px)) :
  align_audio_video features frames = Ok (aligned_audio, aligned_frames) ->
  aligned_frames = frames /\ length aligned_audio = length frames.
Proof.
  unfold align_audio_video. intros H.
  destruct (truediv_float _ _); [| discriminate H]. cbn [Py.bind] in H.
  destruct (align_rows _ _ _ _) as [track |] eqn:Hrows; [| discriminate H].
  cbn [Py.bind] in H. injection H as <- <-.
  split; [reflexivity |].
  rewrite (align_rows_length _ _ _ _ _ Hrows). apply length_replicate.
Qed.

(** An iteration on a frame that has its audio row raises only what a
    collaborator raises: neither the lookup of the row nor the guidance
    computation can fail. *)
Lemma process_frame_raises self aligned_audio total output_frames i frame audio_input e :
  (i < total)%nat ->
  aligned_audio !! i = Some audio_input ->
  outcome (process_frame self aligned_audio total output_frames i frame) = Raise e ->
  collaborator_raises self audio_input frame e.
Proof.
  intros Hi Hrow. unfold process_frame, collaborator_raises, call, lift.
  destruct (detect_face self frame) as [[face_bbox |] | e'].
  - rewrite bindT_ok, outcome_after, (index_nat _ _ _ Hrow), bindT_ok, outcome_after.
    destruct (cv2_resize self _ _) as [lip_resized | e'].
    + rewrite bindT_ok, outcome_after.
      destruct (visual_tensor self lip_resized) as [visual_input | e'].
      * rewrite bindT_ok, outcome_after.
        destruct (guidance_in_loop (guidance_system self)
                    (mean ((fun v => v * v)%Q <$> audio_input)) i total Hi) as [s ->].
        rewrite bindT_ok, outcome_after.
        destruct (model self audio_input visual_input) as [output_features | e'].
        -- rewrite bindT_ok. intros H. discriminate H.
        -- rewrite bindT_raise. intros H. injection H as <-. reflexivity.
      * rewrite bindT_raise. intros H. injection H as <-. reflexivity.
    + rewrite bindT_raise. intros H. injection H as <-. reflexivity.
  - rewrite bindT_ok. intros H. discriminate H.
  - rewrite bindT_raise. intros H. injection H as <-. reflexivity.
Qed.

(** The loop on a track that has a row for every frame: when it raises,
    a collaborator raised on one of the frames. *)
Lemma lip_sync_loop_raises self aligned_audio total frames e :
  forall i output_frames,
    (i + length frames <= total)%nat ->
    (i + length frames <= length aligned_audio)%nat ->
    outcome (lip_sync_loop self aligned_audio total i frames output_frames) = Raise e ->
    exists (k : nat) frame audio_input,
      frames !! k = Some frame /\
      aligned_audio !! (i + k)%nat = Some audio_input /\
      collaborator_raises self audio_input frame e.
Proof.
  induction frames as [| frame frames IH]; intros i output_frames Htotal Hrows Hraise.
  - discriminate Hraise.
  - cbn [length] in Htotal, Hrows. cbn [lip_sync_loop] in Hraise.
    destruct (lookup_lt_is_Some_2 aligned_audio i) as [audio_input Hrow]; [lia |].
    destruct (process_frame self aligned_audio total output_frames i frame)
      as [tr [output_frames' | e']] eqn:Hstep.
    + rewrite bindT_ok, outcome_after in Hraise.
      destruct (IH (S i) output_frames') as (k & frame' & audio_input' & Hf & Ha & Hc);
        [lia | lia | exact Hraise |].
      exists (S k), frame', audio_input'. split; [exact Hf |]. split; [| exact Hc].
      replace (i + S k)%nat with (S i + k)%nat by lia. exact Ha.
    + rewrite bindT_raise in Hraise. injection Hraise as ->.
      exists 0%nat, frame, audio_input. split; [reflexivity |].
      rewrite Nat.add_0_r. split; [exact Hrow |].
      apply (process_frame_raises self aligned_audio total output_frames i); [lia | exact Hrow |].
      rewrite Hstep. reflexivity.
Qed.

(** The three ways in which [align_audio_video] fails or has nothing to
    do, seen from [generate_lip_sync]. *)
Lemma generate_lip_sync_align_raises self features frames output_path e :
  align_audio_video features frames = Raise e ->
  generate_lip_sync self features frames output_path = ([], Raise e).
Proof. intros Halign. unfold generate_lip_sync, lift. rewrite Halign. reflexivity. Qed.

Lemma align_audio_video_no_column (features : audio_features) frame frames :
  shape1 (mel_spectrogram features) = 0 ->
  ~ (audio_length features == 0)%Q ->
  align_audio_video features (frame :: frames) = Raise IndexError.
Proof.
  intros Hn Hdur. unfold align_audio_video.
  rewrite truediv_float_nonzero by exact Hdur. cbn [Py.bind].
  cbn [length seq align_rows].
  rewrite audio_idx_no_column by (assumption || lia). cbn [Py.bind].
  unfold shape1 in Hn.
  destruct (columns (mel_spectrogram features)); [reflexivity | discriminate Hn].
Qed.

End LoopMore2.

(** X13.  When the detector finds no face in any frame, the loop returns
    the input frames after one detector call per frame and nothing else,
    whatever the audio track is: no row of it is read, so a track that is
    too short, or empty, does no harm. *)
Theorem X13_frames_without_face_need_no_audio
    {px tensor : Type} (self : OmniSyncFramework.t px tensor)
    (aligned_audio : list (list Q)) (frames : list (image px)) :
  Forall (fun frame => detect_face self frame = Ok None) frames ->
  lip_sync_frames self aligned_audio frames = (EvDetect <$> frames, Ok frames).
Proof.
  intros Hnone. unfold lip_sync_frames.
  rewrite (lip_sync_loop_no_face self aligned_audio (length frames) frames Hnone).
  reflexivity.
Qed.

(** X13 on two frames without a face and an empty track. *)
Lemma X13_frames_without_face_need_no_audio_witness :
  Forall (fun frame => detect_face (Examples.self (0, 0, 10, 10)) frame = Ok None)
    [Examples.blank4; Examples.blank4] /\
  lip_sync_frames (Examples.self (0, 0, 10, 10)) [] [Examples.blank4; Examples.blank4]
  = (EvDetect <$> [Examples.blank4; Examples.blank4],
     Ok [Examples.blank4; Examples.blank4]).
Proof.
  assert (H : Forall (fun frame => detect_face (Examples.self (0, 0, 10, 10)) frame = Ok None)
                [Examples.blank4; Examples.blank4]) by (repeat constructor).
  split; [exact H |].
  exact (X13_frames_without_face_need_no_audio (Examples.self (0, 0, 10, 10)) []
           [Examples.blank4; Examples.blank4] H).
Defined.

(** X14.  In [generate_lip_sync] the loop fails only where a
    collaborator fails.  The track that [align_audio_video] returns has
    one row per frame, so the lookup [aligned_audio[i]] cannot raise, and
    neither can the guidance computation, the frame count being at least
    one inside the loop.  When the loop raises [e], the detector, the
    resize, the tensor conversion or the predictor raised [e] on one of
    the frames, the collaborators called before it on that frame having
    returned. *)
Theorem X14_loop_fails_only_where_a_collaborator_fails
    {px tensor : Type} (self : OmniSyncFramework.t px tensor)
    (features : audio_features) (frames : list (image px))
    (aligned_audio : list (list Q)) (aligned_frames : list (image px)) (e : exn) :
  align_audio_video features frames = Ok (aligned_audio, aligned_frames) ->
  outcome (lip_sync_frames self aligned_audio aligned_frames) = Raise e ->
  aligned_frames = frames /\
  length aligned_audio = length frames /\
  exists (i : nat) (frame : image px) (audio_input : list Q),
    frames !! i = Some frame /\
    aligned_audio !! i = Some audio_input /\
    Observe.collaborator_raises self audio_input frame e.
Proof.
  intros Halign Hraise.
  destruct (align_audio_video_shape features frames aligned_audio aligned_frames Halign)
    as [-> Hlen].
  split; [reflexivity |]. split; [exact Hlen |].
  unfold lip_sync_frames in Hraise.
  destruct (lip_sync_loop_raises self aligned_audio (length frames) frames e 0 [])
    as (k & frame & audio_input & Hf & Ha & Hc); [cbn; lia | cbn; lia | exact Hraise |].
  exists k, frame, audio_input. split; [exact Hf |]. split; [exact Ha | exact Hc].
Qed.

(** X14 on one frame whose lip window lies below the frame: the resize
    raises on the empty crop. *)
Lemma X14_loop_fails_only_where_a_collaborator_fails_witness :
  align_audio_video (Examples.features 4 Examples.mel4) [Examples.frame10]
  = Ok ([[1; 2]]%Q, [Examples.frame10]) /\
  outcome (lip_sync_frames (Examples.self (5, 5, 10, 10)) [[1; 2]]%Q [Examples.frame10])
  = Raise Cv2Error /\
  exists (i : nat) (frame : image nat) (audio_input : list Q),
    [Examples.frame10] !! i = Some frame /\
    [[1; 2]]%Q !! i = Some audio_input /\
    Observe.collaborator_raises (Examples.self (5, 5, 10, 10)) audio_input frame Cv2Error.
Proof.
  assert (H1 : align_audio_video (Examples.features 4 Examples.mel4) [Examples.frame10]
               = Ok ([[1; 2]]%Q, [Examples.frame10])) by (vm_compute; reflexivity).
  assert (H2 : outcome (lip_sync_frames (Examples.self (5, 5, 10, 10)) [[1; 2]]%Q
                          [Examples.frame10]) = Raise Cv2Error)
    by (vm_compute; reflexivity).
  split; [exact H1 |]. split; [exact H2 |].
  exact (proj2 (proj2 (X14_loop_fails_only_where_a_collaborator_fails
                         (Examples.self (5, 5, 10, 10)) (Examples.features 4 Examples.mel4)
                         [Examples.frame10] [[1; 2]]%Q [Examples.frame10] Cv2Error H1 H2))).
Defined.

(** X15.  Whatever the collaborators do, the loop calls the detector on
    the frames in input order, once each, stopping at the first frame
    whose iteration raises; when the loop completes, the detector has
    been called on every frame.  The loop makes no call to the video
    codec. *)
Theorem X15_detector_called_once_per_frame_in_order
    {px tensor : Type} (self : OmniSyncFramework.t px tensor)
    (aligned_audio : list (list Q)) (frames : list (image px)) :
  exists k : nat,
    (k <= length frames)%nat /\
    Observe.detected (events (lip_sync_frames self aligned_audio frames)) = take k frames /\
    (is_ok (outcome (lip_sync_frames self aligned_audio frames)) = true ->
     Observe.detected (events (lip_sync_frames self aligned_audio frames)) = frames) /\
    Forall (fun ev => Observe.is_codec ev = false)
      (events (lip_sync_frames self aligned_audio frames)).
Proof.
  unfold lip_sync_frames.
  destruct (lip_sync_loop_calls self aligned_audio (length frames) frames 0 [])
    as (k & Hk & Hdet & Hall & Hcodec).
  exists k. split; [exact Hk |]. split; [exact Hdet |]. split; [| exact Hcodec].
  intros Hok. rewrite Hdet, (Hall Hok). apply take_ge. lia.
Qed.

(** ** The whole of the framework run

    [OmniSyncFramework.generate_lip_sync] is lines 245-283 of the source
    function: the alignment, the loop and [save_video], on the features
    and the frames it is given.  The function from its first line,
    loading included, is [Program.generate_lip_sync]. *)

Section GenerateMore.
Import Observe.
Context {px tensor : Type}.
Implicit Types (self : OmniSyncFramework.t px tensor) (frame : image px)
  (frames output_frames : list (image px)) (aligned_audio : list (list Q)).

Lemma written_app (tr tr' : list (event px tensor)) :
  written (tr ++ tr') = written tr ++ written tr'.
Proof. apply omap_app. Qed.

Lemma written_no_codec (tr : list (event px tensor)) :
  Forall (fun ev => is_codec ev = false) tr -> written tr = [].
Proof.
  induction 1 as [| ev tr Hev _ IH]; [reflexivity |].
  destruct ev; cbn in Hev; try discriminate Hev; exact IH.
Qed.

Lemma written_writes frames :
  written (EvWriterWrite <$> frames : list (event px tensor)) = frames.
Proof.
  induction frames as [| frame frames IH]; [reflexivity |].
  change (written (EvWriterWrite <$> frame :: frames : list (event px tensor)))
    with (frame :: written (EvWriterWrite <$> frames : list (event px tensor))).
  rewrite IH. reflexivity.
Qed.

Lemma codec_filter_app (tr tr' : list (event px tensor)) :
  List.filter is_codec (tr ++ tr') = List.filter is_codec tr ++ List.filter is_codec tr'.
Proof. apply List.filter_app. Qed.

Lemma codec_filter_none (tr : list (event px tensor)) :
  Forall (fun ev => is_codec ev = false) tr -> List.filter is_codec tr = [].
Proof.
  induction 1 as [| ev tr Hev _ IH]; [reflexivity |].
  cbn [List.filter]. rewrite Hev. exact IH.
Qed.

Lemma codec_filter_writes frames :
  List.filter is_codec (EvWriterWrite <$> frames : list (event px tensor))
  = EvWriterWrite <$> frames.
Proof.
  induction frames as [| frame frames IH]; [reflexivity |].
  cbn. f_equal. exact IH.
Qed.

(** The calls of [save_video] on a list that starts with [frame]. *)
Lemma save_video_run frame frames output_path fps :
  @save_video px tensor (frame :: frames) output_path fps
  = (EvFourcc "mp4v" :: EvWriterOpen output_path fps (width frame, height frame)
       :: (EvWriterWrite <$> frame :: frames) ++ [EvWriterRelease],
     Ok tt).
Proof.
  unfold save_video, call.
  rewrite !bindT_ok, write_frames_run, bindT_ok. reflexivity.
Qed.

(** The loop never calls the codec. *)
Lemma lip_sync_frames_no_codec self aligned_audio frames :
  Forall (fun ev => is_codec ev = false) (events (lip_sync_frames self aligned_audio frames)).
Proof.
  unfold lip_sync_frames.
  destruct (lip_sync_loop_calls self aligned_audio (length frames) frames 0 [])
    as (k & _ & _ & _ & Hcodec).
  exact Hcodec.
Qed.

Lemma generate_lip_sync_loop_raises self features frames output_path
    aligned_audio aligned_frames e :
  align_audio_video features frames = Ok (aligned_audio, aligned_frames) ->
  outcome (lip_sync_frames self aligned_audio aligned_frames) = Raise e ->
  generate_lip_sync self features frames output_path
  = (events (lip_sync_frames self aligned_audio aligned_frames), Raise e).
Proof.
  intros Halign Hraise. unfold generate_lip_sync, lift.
  rewrite Halign, bindT_ok.
  destruct (lip_sync_frames self aligned_audio aligned_frames) as [tr r].
  cbn [outcome snd] in Hraise. subst r.
  rewrite bindT_raise. reflexivity.
Qed.

(** A run in which every collaborator returns, seen from the codec. *)
Lemma generate_lip_sync_writes_input self (features : audio_features) frame frames
    (output_path : string) :
  ~ (audio_length features == 0)%Q ->
  1 <= shape1 (mel_spectrogram features) ->
  (forall frame' audio_input,
      frame' ∈ frame :: frames ->
      audio_input ∈ columns (mel_spectrogram features) ->
      collaborators_return self audio_input frame') ->
  outcome (generate_lip_sync self features (frame :: frames) output_path) = Ok tt /\
  written (events (generate_lip_sync self features (frame :: frames) output_path))
  = frame :: frames /\
  List.filter is_codec
    (events (generate_lip_sync self features (frame :: frames) output_path))
  = EvFourcc "mp4v" :: EvWriterOpen output_path 25 (width frame, height frame)
      :: (EvWriterWrite <$> frame :: frames) ++ [EvWriterRelease].
Proof.
  intros Hdur Hn Hret.
  destruct (align_audio_video_track features (frame :: frames) Hdur) as
    (aligned_audio & Halign & Hlen & Hrows); [cbn; lia | exact Hn |].
  assert (Hcollab : forall i frame' audio_input,
             (frame :: frames) !! i = Some frame' ->
             aligned_audio !! i = Some audio_input ->
             collaborators_return self audio_input frame').
  { intros i frame' audio_input Hf Ha. apply Hret.
    - eapply list_elem_of_lookup_2. exact Hf.
    - apply lookup_lt_Some in Hf as Hi. rewrite Hrows in Ha by exact Hi.
      eapply list_elem_of_lookup_2. exact Ha. }
  pose proof (lip_sync_frames_no_codec self aligned_audio (frame :: frames)) as Hcodec.
  rewrite (lip_sync_frames_run self aligned_audio (frame :: frames) Hlen Hcollab) in Hcodec.
  cbn [events fst] in Hcodec.
  rewrite (generate_lip_sync_run self features (frame :: frames) output_path
             aligned_audio Halign Hlen Hcollab).
  rewrite save_video_run, after_pair. cbn [outcome events fst snd].
  split; [reflexivity |]. split.
  - rewrite written_app, (written_no_codec _ Hcodec).
    change (written (EvFourcc "mp4v" :: EvWriterOpen output_path 25 (width frame, height frame)
                       :: (EvWriterWrite <$> frame :: frames) ++ [EvWriterRelease]))
      with (written ((EvWriterWrite <$> frame :: frames) ++ [EvWriterRelease]
                     : list (event px tensor))).
    rewrite written_app, written_writes. cbn. rewrite app_nil_r. reflexivity.
  - rewrite codec_filter_app, (codec_filter_none _ Hcodec).
    cbn [app List.filter is_codec]. do 2 f_equal.
    rewrite codec_filter_app, codec_filter_writes. reflexivity.
Qed.

(** The degenerate inputs: no frame, and an audio without duration. *)
Lemma generate_lip_sync_no_frame self (features : audio_features) (output_path : string) :
  ~ (audio_length features == 0)%Q ->
  generate_lip_sync self features [] output_path = ([], Ok tt).
Proof.
  intros Hdur. unfold generate_lip_sync, lift, align_audio_video.
  rewrite truediv_float_nonzero by exact Hdur. reflexivity.
Qed.

Lemma align_audio_video_zero_duration (features : audio_features) frames :
  (audio_length features == 0)%Q ->
  align_audio_video features frames = Raise ZeroDivisionError.
Proof.
  intros Hdur. unfold align_audio_video.
  rewrite truediv_float_zero by exact Hdur. reflexivity.
Qed.

End GenerateMore.

(** X16.  When the loop raises, [generate_lip_sync] raises the same
    exception after the calls the loop had made: [save_video] is not
    reached, so no codec is asked for, no writer is opened and no frame
    is written, however many frames had been processed before. *)
Theorem X16_loop_error_leaves_no_video
    {px tensor : Type} (self : OmniSyncFramework.t px tensor)
    (features : audio_features) (frames : list (image px)) (output_path : string)
    (aligned_audio : list (list Q)) (aligned_frames : list (image px)) (e : exn) :
  align_audio_video features frames = Ok (aligned_audio, aligned_frames) ->
  outcome (lip_sync_frames self aligned_audio aligned_frames) = Raise e ->
  generate_lip_sync self features frames output_path
  = (events (lip_sync_frames self aligned_audio aligned_frames), Raise e) /\
  Observe.written (events (generate_lip_sync self features frames output_path)) = [] /\
  Forall (fun ev => Observe.is_codec ev = false)
    (events (generate_lip_sync self features frames output_path)).
Proof.
  intros Halign Hraise.
  rewrite (generate_lip_sync_loop_raises self features frames output_path
             aligned_audio aligned_frames e Halign Hraise).
  cbn [events fst].
  split; [reflexivity |]. split.
  - apply written_no_codec, lip_sync_frames_no_codec.
  - apply lip_sync_frames_no_codec.
Qed.

(** X16 on two frames with a face whose lip window has no row: the
    resize raises on the first one. *)
Lemma X16_loop_error_leaves_no_video_witness :
  align_audio_video (Examples.features 4 Examples.mel4) [Examples.frame10; Examples.frame10]
  = Ok ([[1; 2]; [5; 6]]%Q, [Examples.frame10; Examples.frame10]) /\
  outcome (lip_sync_frames (Examples.self (2, 1, 40, 3)) [[1; 2]; [5; 6]]%Q
             [Examples.frame10; Examples.frame10]) = Raise Cv2Error /\
  generate_lip_sync (Examples.self (2, 1, 40, 3)) (Examples.features 4 Examples.mel4)
    [Examples.frame10; Examples.frame10] "out.mp4"
  = (events (lip_sync_frames (Examples.self (2, 1, 40, 3)) [[1; 2]; [5; 6]]%Q
               [Examples.frame10; Examples.frame10]), Raise Cv2Error) /\
  Observe.written
    (events (generate_lip_sync (Examples.self (2, 1, 40, 3))
               (Examples.features 4 Examples.mel4)
               [Examples.frame10; Examples.frame10] "out.mp4")) = [] /\
  Forall (fun ev => Observe.is_codec ev = false)
    (events (generate_lip_sync (Examples.self (2, 1, 40, 3))
               (Examples.features 4 Examples.mel4)
               [Examples.frame10; Examples.frame10] "out.mp4")).
Proof.
  assert (H1 : align_audio_video (Examples.features 4 Examples.mel4)
                 [Examples.frame10; Examples.frame10]
               = Ok ([[1; 2]; [5; 6]]%Q, [Examples.frame10; Examples.frame10]))
    by (vm_compute; reflexivity).
  assert (H2 : outcome (lip_sync_frames (Examples.self (2, 1, 40, 3)) [[1; 2]; [5; 6]]%Q
                          [Examples.frame10; Examples.frame10]) = Raise Cv2Error)
    by (vm_compute; reflexivity).
  split; [exact H1 |]. split; [exact H2 |].
  exact (X16_loop_error_leaves_no_video (Examples.self (2, 1, 40, 3))
           (Examples.features 4 Examples.mel4) [Examples.frame10; Examples.frame10]
           "out.mp4" [[1; 2]; [5; 6]]%Q [Examples.frame10; Examples.frame10] Cv2Error H1 H2).
Defined.

(** X17.  A video without frames and an audio of non-zero duration:
    [generate_lip_sync] returns normally without calling any
    collaborator.  In particular no writer is opened, so no output file
    is made although no error is reported. *)
Theorem X17_empty_video_returns_without_output
    {px tensor : Type} (self : OmniSyncFramework.t px tensor)
    (features : audio_features) (output_path : string) :
  ~ (audio_length features == 0)%Q ->
  generate_lip_sync self features [] output_path = ([], Ok tt).
Proof.
  intros Hdur. apply generate_lip_sync_no_frame. exact Hdur.
Qed.

(** X17 with four seconds of audio. *)
Lemma X17_empty_video_returns_without_output_witness :
  ~ (audio_length (Examples.features 4 Examples.mel4) == 0)%Q /\
  generate_lip_sync (Examples.self (0, 0, 10, 10)) (Examples.features 4 Examples.mel4)
    [] "out.mp4" = ([], Ok tt).
Proof.
  assert (H : ~ (audio_length (Examples.features 4 Examples.mel4) == 0)%Q)
    by (intros E; discriminate E).
  split; [exact H |].
  exact (X17_empty_video_returns_without_output (Examples.self (0, 0, 10, 10))
           (Examples.features 4 Examples.mel4) "out.mp4" H).
Defined.

(** X18.  The two failures of the alignment stop [generate_lip_sync]
    before any collaborator is called.  An audio of duration zero raises
    [ZeroDivisionError] for every video, the empty one included; a mel
    spectrogram without columns raises [IndexError] as soon as the video
    has a frame.  Neither the detector nor the writer is reached. *)
Theorem X18_alignment_errors_come_first
    {px tensor : Type} (self : OmniSyncFramework.t px tensor)
    (features : audio_features) (frames : list (image px)) (output_path : string) :
  ((audio_length features == 0)%Q ->
   generate_lip_sync self features frames output_path = ([], Raise ZeroDivisionError)) /\
  (~ (audio_length features == 0)%Q ->
   shape1 (mel_spectrogram features) = 0 ->
   frames <> [] ->
   generate_lip_sync self features frames output_path = ([], Raise IndexError)).
Proof.
  split.
  - intros Hdur. apply generate_lip_sync_align_raises.
    apply align_audio_video_zero_duration. exact Hdur.
  - intros Hdur Hn Hframes. apply generate_lip_sync_align_raises.
    destruct frames as [| frame frames]; [contradiction |].
    apply align_audio_video_no_column; assumption.
Qed.

(** X19.  With an audio of non-zero duration, a spectrogram of at least
    one column and collaborators that return for every frame and every
    column, [generate_lip_sync] returns, and the video it writes is the
    input: the codec calls are the fourcc, one writer opened on the
    output path at 25 frames per second with the size of the first
    frame, one write per input frame in input order, and the release.
    What the predictor returned is in none of them. *)
Theorem X19_output_video_is_the_input_video
    {px tensor : Type} (self : OmniSyncFramework.t px tensor)
    (features : audio_features) (frame : image px) (frames : list (image px))
    (output_path : string) :
  ~ (audio_length features == 0)%Q ->
  1 <= shape1 (mel_spectrogram features) ->
  (forall frame' audio_input,
      frame' ∈ frame :: frames ->
      audio_input ∈ columns (mel_spectrogram features) ->
      collaborators_return self audio_input frame') ->
  outcome (generate_lip_sync self features (frame :: frames) output_path) = Ok tt /\
  Observe.written (events (generate_lip_sync self features (frame :: frames) output_path))
  = frame :: frames /\
  List.filter Observe.is_codec
    (events (generate_lip_sync self features (frame :: frames) output_path))
  = EvFourcc "mp4v" :: EvWriterOpen output_path 25 (width frame, height frame)
      :: (EvWriterWrite <$> frame :: frames) ++ [EvWriterRelease].
Proof.
  intros Hdur Hn Hret.
  exact (generate_lip_sync_writes_input self features frame frames output_path
           Hdur Hn Hret).
Qed.

(** X19 on a frame with a face followed by one without. *)
Lemma X19_output_video_is_the_input_video_witness :
  ~ (audio_length (Examples.features 4 Examples.mel4) == 0)%Q /\
  1 <= shape1 (mel_spectrogram (Examples.features 4 Examples.mel4)) /\
  (forall frame' audio_input,
      frame' ∈ Examples.frame10 :: [Examples.blank4] ->
      audio_input ∈ columns (mel_spectrogram (Examples.features 4 Examples.mel4)) ->
      collaborators_return (Examples.self (0, 0, 10, 10)) audio_input frame') /\
  outcome (generate_lip_sync (Examples.self (0, 0, 10, 10))
             (Examples.features 4 Examples.mel4)
             (Examples.frame10 :: [Examples.blank4]) "out.mp4") = Ok tt /\
  Observe.written
    (events (generate_lip_sync (Examples.self (0, 0, 10, 10))
               (Examples.features 4 Examples.mel4)
               (Examples.frame10 :: [Examples.blank4]) "out.mp4"))
  = Examples.frame10 :: [Examples.blank4] /\
  List.filter Observe.is_codec
    (events (generate_lip_sync (Examples.self (0, 0, 10, 10))
               (Examples.features 4 Examples.mel4)
               (Examples.frame10 :: [Examples.blank4]) "out.mp4"))
  = EvFourcc "mp4v"
      :: EvWriterOpen "out.mp4" 25 (width Examples.frame10, height Examples.frame10)
      :: (EvWriterWrite <$> Examples.frame10 :: [Examples.blank4]) ++ [EvWriterRelease].
Proof.
  assert (H1 : ~ (audio_length (Examples.features 4 Examples.mel4) == 0)%Q)
    by (intros E; discriminate E).
  assert (H2 : 1 <= shape1 (mel_spectrogram (Examples.features 4 Examples.mel4)))
    by (vm_compute; discriminate).
  assert (H3 : forall frame' audio_input,
             frame' ∈ Examples.frame10 :: [Examples.blank4] ->
             audio_input ∈ columns (mel_spectrogram (Examples.features 4 Examples.mel4)) ->
             collaborators_return (Examples.self (0, 0, 10, 10)) audio_input frame').
  { intros frame' audio_input Hf _.
    apply elem_of_cons in Hf as [-> | Hf].
    - cbn. eexists _, _, _. repeat split.
    - apply list_elem_of_singleton in Hf as ->. exact I. }
  split; [exact H1 |]. split; [exact H2 |]. split; [exact H3 |].
  exact (X19_output_video_is_the_input_video (Examples.self (0, 0, 10, 10))
           (Examples.features 4 Examples.mel4) Examples.frame10 [Examples.blank4]
           "out.mp4" H1 H2 H3).
Defined.

(** ** Face detection *)

Section DetectionFacts.
Context {px : Type}.
Implicit Types (frame : image px) (row : list Q) (detections : list (list Q))
  (rounding : Q -> Q).

(** On a non-negative number [int] is the floor. *)
Lemma int_floor (q : Q) : (0 <= q)%Q -> int q = Qfloor q.
Proof.
  destruct q as [n d]. unfold Qle, int. cbn. intros Hq.
  apply Z.quot_div_nonneg; lia.
Qed.

(** [int(d * n)] for a fraction [d] of a non-negative integer [n], the
    product being rounded by a monotone rounding that is exact on [0]
    and on [n]. *)
Lemma int_fraction rounding (d d' : Q) (n : Z) :
  (forall q q' : Q, (q <= q')%Q -> (rounding q <= rounding q')%Q) ->
  (rounding 0 == 0)%Q ->
  (rounding (inject_Z n) == inject_Z n)%Q ->
  0 <= n -> (0 <= d)%Q -> (d <= d')%Q -> (d' <= 1)%Q ->
  0 <= int (rounding (d * inject_Z n)%Q) <= int (rounding (d' * inject_Z n)%Q) /\
  int (rounding (d' * inject_Z n)%Q) <= n.
Proof.
  intros Hmono Hzero Hside Hn Hd Hdd Hd'.
  assert (Hq : (0 <= inject_Z n)%Q) by (change 0%Q with (inject_Z 0); rewrite <- Zle_Qle; exact Hn).
  assert (H0 : (0 <= d * inject_Z n)%Q) by (apply Qmult_le_0_compat; assumption).
  assert (H1 : (d * inject_Z n <= d' * inject_Z n)%Q)
    by (apply Qmult_le_compat_r; assumption).
  assert (H2 : (d' * inject_Z n <= inject_Z n)%Q).
  { apply Qle_trans with (1 * inject_Z n)%Q.
    - apply Qmult_le_compat_r; assumption.
    - rewrite Qmult_1_l. apply Qle_refl. }
  assert (Hr0 : (0 <= rounding (d * inject_Z n)%Q)%Q).
  { apply Qle_trans with (rounding 0%Q); [rewrite Hzero; apply Qle_refl |].
    apply Hmono. exact H0. }
  assert (Hr1 : (rounding (d * inject_Z n)%Q <= rounding (d' * inject_Z n)%Q)%Q)
    by (apply Hmono; exact H1).
  assert (Hr2 : (rounding (d' * inject_Z n)%Q <= inject_Z n)%Q).
  { apply Qle_trans with (rounding (inject_Z n)); [| rewrite Hside; apply Qle_refl].
    apply Hmono. exact H2. }
  rewrite !int_floor by (assumption || (eapply Qle_trans; eassumption)).
  split; [split |].
  - change 0 with (Qfloor 0). apply Qfloor_resp_le. exact Hr0.
  - apply Qfloor_resp_le. exact Hr1.
  - pose proof (Qfloor_resp_le _ _ Hr2) as Hfloor.
    rewrite Qfloor_Z in Hfloor. exact Hfloor.
Qed.

(** A row of seven numbers has its four corners. *)
Lemma box_of_row rounding (d0 d1 confidence d3 d4 d5 d6 : Q) (w h : Z) :
  Detection.box_of rounding [d0; d1; confidence; d3; d4; d5; d6] w h
  = Ok (int (rounding (d3 * inject_Z w)%Q), int (rounding (d4 * inject_Z h)%Q),
        int (rounding (d5 * inject_Z w)%Q) - int (rounding (d3 * inject_Z w)%Q),
        int (rounding (d6 * inject_Z h)%Q) - int (rounding (d4 * inject_Z h)%Q)).
Proof. reflexivity. Qed.

(** Candidates at or below the threshold are passed over. *)
Lemma scan_detections_skip rounding (w h : Z) before detections :
  Forall (fun row => exists confidence,
              row !! 2%nat = Some confidence /\ (confidence <= 0.5)%Q) before ->
  Detection.scan_detections rounding w h (before ++ detections)
  = Detection.scan_detections rounding w h detections.
Proof.
  induction 1 as [| row before (confidence & Hrow & Hle) _ IH]; [reflexivity |].
  cbn [app Detection.scan_detections].
  change 2 with (Z.of_nat 2).
  rewrite (index_nat row 2%nat confidence Hrow). cbn [Py.bind].
  destruct (Qlt_le_dec 0.5 confidence) as [Hlt | _]; [| exact IH].
  exfalso. apply (Qlt_irrefl 0.5). eapply Qlt_le_trans; eassumption.
Qed.

(** The float32 numbers of the samples, and the products of the second
    candidate with a frame side of 10 pixels: the exact product of the
    float32 nearest to 0.9 and 10 lies below 9, its float32 rounding
    is 9. *)
Lemma binary32_samples :
  Samples.f32_0_1 = Binary32.literal 1 10 /\
  Samples.f32_0_2 = Binary32.literal 2 10 /\
  Samples.f32_0_6 = Binary32.literal 6 10 /\
  Samples.f32_0_8 = Binary32.literal 8 10 /\
  Samples.f32_0_9 = Binary32.literal 9 10 /\
  Samples.f32_0_99 = Binary32.literal 99 100 /\
  Samples.f32_0_9 = (15099494 # 16777216)%Q /\
  (Samples.f32_0_9 * inject_Z 10 < 9)%Q /\
  (Binary32.rounding (Samples.f32_0_9 * inject_Z 10)%Q == 9)%Q.
Proof.
  repeat match goal with |- _ /\ _ => split end; vm_compute; reflexivity.
Qed.

(** The box of the second sample candidate in a frame of 10 by 10
    pixels: with the float32 product of NumPy 2 it is 8 pixels wide,
    with the exact product of NumPy 1 it is 7 pixels wide. *)
Lemma box_of_depends_on_rounding :
  Detection.box_of Binary32.rounding
    [0; 1; Samples.f32_0_6; Samples.f32_0_1; Samples.f32_0_2;
     Samples.f32_0_9; Samples.f32_0_8]%Q 10 10 = Ok (1, 2, 8, 6) /\
  Detection.box_of (fun q => q)
    [0; 1; Samples.f32_0_6; Samples.f32_0_1; Samples.f32_0_2;
     Samples.f32_0_9; Samples.f32_0_8]%Q 10 10 = Ok (1, 2, 7, 6).
Proof. split; vm_compute; reflexivity. Qed.

End DetectionFacts.

(** X20.  With the DNN model loaded, [detect_face] returns the box of
    the first candidate whose confidence is above 0.5, in the order in
    which the network lists them: candidates behind it are not looked
    at, however confident.  The box is [(x1, y1, x2 - x1, y2 - y1)],
    each corner being [int] of the product of the candidate's entry and
    the frame side as NumPy rounds it (to float32 under NumPy 2, not at
    all under NumPy 1). *)
Theorem X20_first_confident_detection_wins
    {px : Type} (rounding : Q -> Q) (self : Detection.t px)
    (forward : image px -> result (list (list Q)))
    (frame : image px) (before rest : list (list Q))
    (d0 d1 confidence d3 d4 d5 d6 : Q) :
  Detection.face_net self = Some forward ->
  forward frame = Ok (before ++ [d0; d1; confidence; d3; d4; d5; d6] :: rest) ->
  Forall (fun row => exists c, row !! 2%nat = Some c /\ (c <= 0.5)%Q) before ->
  (0.5 < confidence)%Q ->
  Detection.detect_face rounding self frame
  = Ok (Some (int (rounding (d3 * inject_Z (Z.of_nat (width frame)))%Q),
              int (rounding (d4 * inject_Z (Z.of_nat (height frame)))%Q),
              int (rounding (d5 * inject_Z (Z.of_nat (width frame)))%Q)
                - int (rounding (d3 * inject_Z (Z.of_nat (width frame)))%Q),
              int (rounding (d6 * inject_Z (Z.of_nat (height frame)))%Q)
                - int (rounding (d4 * inject_Z (Z.of_nat (height frame)))%Q))).
Proof.
  intros Hnet Hforward Hbefore Hconf. unfold Detection.detect_face.
  rewrite Hnet, Hforward. cbn [Py.bind].
  rewrite scan_detections_skip by exact Hbefore.
  cbn [Detection.scan_detections].
  change (index [d0; d1; confidence; d3; d4; d5; d6] 2) with (Ok confidence).
  cbn [Py.bind].
  destruct (Qlt_le_dec 0.5 confidence) as [_ | Hle].
  - rewrite box_of_row. reflexivity.
  - exfalso. apply (Qlt_irrefl 0.5). eapply Qlt_le_trans; eassumption.
Qed.

(** X20 on the three float32 candidates, with the float32 product: the
    second candidate is returned, with the box (1, 2, 8, 6); the third,
    more confident, is not. *)
Lemma X20_first_confident_detection_wins_witness :
  Detection.face_net (Samples.dnn Samples.candidates)
  = Some (fun _ => Ok Samples.candidates) /\
  (0.5 < Samples.f32_0_6)%Q /\
  Detection.detect_face Binary32.rounding (Samples.dnn Samples.candidates) Examples.frame10
  = Ok (Some (1, 2, 8, 6)).
Proof.
  assert (H1 : Detection.face_net (Samples.dnn Samples.candidates)
               = Some (fun _ => Ok Samples.candidates)) by reflexivity.
  assert (H2 : (fun _ : image nat => Ok Samples.candidates) Examples.frame10
               = Ok ([[0; 1; 0.5; Samples.f32_0_1; Samples.f32_0_1;
                       Samples.f32_0_9; Samples.f32_0_9]]
                     ++ [0; 1; Samples.f32_0_6; Samples.f32_0_1; Samples.f32_0_2;
                         Samples.f32_0_9; Samples.f32_0_8]
                     :: [[0; 1; Samples.f32_0_99; 0; 0; 1; 1]])%Q)
    by reflexivity.
  assert (H3 : Forall (fun row : list Q => exists c, row !! 2%nat = Some c /\ (c <= 0.5)%Q)
                 [[0; 1; 0.5; Samples.f32_0_1; Samples.f32_0_1;
                   Samples.f32_0_9; Samples.f32_0_9]]%Q).
  { constructor; [| constructor]. exists 0.5%Q. split; [reflexivity | apply Qle_refl]. }
  assert (H4 : (0.5 < Samples.f32_0_6)%Q) by (vm_compute; reflexivity).
  split; [exact H1 |]. split; [exact H4 |].
  refine (eq_trans
            (X20_first_confident_detection_wins Binary32.rounding
               (Samples.dnn Samples.candidates)
               (fun _ => Ok Samples.candidates) Examples.frame10
               [[0; 1; 0.5; Samples.f32_0_1; Samples.f32_0_1;
                 Samples.f32_0_9; Samples.f32_0_9]]%Q
               [[0; 1; Samples.f32_0_99; 0; 0; 1; 1]]%Q
               0 1 Samples.f32_0_6 Samples.f32_0_1 Samples.f32_0_2
               Samples.f32_0_9 Samples.f32_0_8 H1 H2 H3 H4) _).
  vm_compute. reflexivity.
Defined.

(** X21.  With the DNN model loaded, [detect_face] returns [None] when
    no candidate has a confidence above 0.5.  The comparison is strict:
    a confidence of exactly 0.5 does not count.  The Haar cascade is not
    consulted in that case. *)
Theorem X21_no_confident_detection_is_no_face
    {px : Type} (rounding : Q -> Q) (self : Detection.t px)
    (forward : image px -> result (list (list Q)))
    (frame : image px) (detections : list (list Q)) :
  Detection.face_net self = Some forward ->
  forward frame = Ok detections ->
  Forall (fun row => exists c, row !! 2%nat = Some c /\ (c <= 0.5)%Q) detections ->
  Detection.detect_face rounding self frame = Ok None.
Proof.
  intros Hnet Hforward Hlow. unfold Detection.detect_face.
  rewrite Hnet, Hforward. cbn [Py.bind].
  rewrite <- (app_nil_r detections), scan_detections_skip by exact Hlow.
  reflexivity.
Qed.

(** X21 on a single candidate of confidence 0.5. *)
Lemma X21_no_confident_detection_is_no_face_witness :
  Forall (fun row : list Q => exists c, row !! 2%nat = Some c /\ (c <= 0.5)%Q)
    [[0; 1; 0.5; 0.1; 0.1; 0.9; 0.9]]%Q /\
  Detection.detect_face Binary32.rounding
    (Samples.dnn [[0; 1; 0.5; 0.1; 0.1; 0.9; 0.9]]%Q) Examples.frame10
  = Ok None.
Proof.
  assert (H3 : Forall (fun row : list Q => exists c, row !! 2%nat = Some c /\ (c <= 0.5)%Q)
                 [[0; 1; 0.5; 0.1; 0.1; 0.9; 0.9]]%Q).
  { constructor; [| constructor]. exists 0.5%Q. split; [reflexivity | apply Qle_refl]. }
  split; [exact H3 |].
  exact (X21_no_confident_detection_is_no_face Binary32.rounding
           (Samples.dnn [[0; 1; 0.5; 0.1; 0.1; 0.9; 0.9]]%Q)
           (fun _ => Ok [[0; 1; 0.5; 0.1; 0.1; 0.9; 0.9]]%Q) Examples.frame10
           [[0; 1; 0.5; 0.1; 0.1; 0.9; 0.9]]%Q eq_refl eq_refl H3).
Defined.

(** X22.  A candidate whose corners are normalised, [0 <= x1 <= x2 <= 1]
    and [0 <= y1 <= y2 <= 1], gives a box inside the frame, of
    non-negative width and height.  The lip window of that box then lies
    inside the frame too: the crop has exactly [lip_h] rows of [lip_w]
    pixels, and its pixel [(r, c)] is the frame's pixel
    [(lip_y + r, lip_x + c)]; nothing is clipped and nothing wraps
    around.  This holds whichever way NumPy rounds the products, the
    rounding being monotone and exact on 0 and on the two sides of the
    frame: so are the exact product and the rounding to the nearest
    float32 or float64, for sides up to [2^24]. *)
Theorem X22_normalised_detection_crops_inside_frame
    {px : Type} (rounding : Q -> Q) (frame : image px)
    (d0 d1 confidence d3 d4 d5 d6 : Q) :
  (forall q q' : Q, (q <= q')%Q -> (rounding q <= rounding q')%Q) ->
  (rounding 0 == 0)%Q ->
  (rounding (inject_Z (Z.of_nat (width frame))) == inject_Z (Z.of_nat (width frame)))%Q ->
  (rounding (inject_Z (Z.of_nat (height frame))) == inject_Z (Z.of_nat (height frame)))%Q ->
  rectangular (width frame) frame ->
  (0 <= d3)%Q -> (d3 <= d5)%Q -> (d5 <= 1)%Q ->
  (0 <= d4)%Q -> (d4 <= d6)%Q -> (d6 <= 1)%Q ->
  exists face_bbox : bbox,
    Detection.box_of rounding [d0; d1; confidence; d3; d4; d5; d6]
      (Z.of_nat (width frame)) (Z.of_nat (height frame)) = Ok face_bbox /\
    (let '(x, y, w, h) := face_bbox in
     0 <= x /\ 0 <= w /\ x + w <= Z.of_nat (width frame) /\
     0 <= y /\ 0 <= h /\ y + h <= Z.of_nat (height frame)) /\
    height (extract_lip_region frame face_bbox) = Z.to_nat (lip_h face_bbox) /\
    rectangular (Z.to_nat (lip_w face_bbox)) (extract_lip_region frame face_bbox) /\
    forall r c : nat,
      (r < Z.to_nat (lip_h face_bbox))%nat -> (c < Z.to_nat (lip_w face_bbox))%nat ->
      pixel (extract_lip_region frame face_bbox) r c
      = pixel frame (Z.to_nat (lip_y face_bbox) + r) (Z.to_nat (lip_x face_bbox) + c).
Proof.
  intros Hmono Hzero Hwidth Hheight Hrect Hx1 Hx Hx2 Hy1 Hy Hy2.
  destruct (int_fraction rounding d3 d5 (Z.of_nat (width frame)) Hmono Hzero Hwidth)
    as [[Ha Hb] Hc]; [lia | assumption .. |].
  destruct (int_fraction rounding d4 d6 (Z.of_nat (height frame)) Hmono Hzero Hheight)
    as [[Ha' Hb'] Hc']; [lia | assumption .. |].
  rewrite box_of_row. eexists. split; [reflexivity |].
  set (x := int (rounding (d3 * inject_Z (Z.of_nat (width frame)))%Q)) in *.
  set (y := int (rounding (d4 * inject_Z (Z.of_nat (height frame)))%Q)) in *.
  set (x2 := int (rounding (d5 * inject_Z (Z.of_nat (width frame)))%Q)) in *.
  set (y2 := int (rounding (d6 * inject_Z (Z.of_nat (height frame)))%Q)) in *.
  split; [repeat split; lia |].
  unfold extract_lip_region.
  destruct (lip_window_nonneg x y (x2 - x) (y2 - y)) as (-> & -> & -> & ->); [lia | lia |].
  apply (slice2_inside frame (width frame)); try assumption;
    Z.div_mod_to_equations; lia.
Qed.

(** X22 on the 10 x 10 frame, with the exact product: the box is
    (1, 2, 8, 6) and the crop is one row of four pixels. *)
Lemma X22_normalised_detection_crops_inside_frame_witness :
  rectangular (width Examples.frame10) Examples.frame10 /\
  exists face_bbox : bbox,
    Detection.box_of (fun q => q) [0; 1; 0.6; 0.1; 0.2; 0.9; 0.8]%Q
      (Z.of_nat (width Examples.frame10)) (Z.of_nat (height Examples.frame10))
    = Ok face_bbox /\
    height (extract_lip_region Examples.frame10 face_bbox) = Z.to_nat (lip_h face_bbox).
Proof.
  assert (H0 : rectangular (width Examples.frame10) Examples.frame10)
    by (repeat constructor).
  split; [exact H0 |].
  destruct (X22_normalised_detection_crops_inside_frame (fun q => q) Examples.frame10
              0 1 0.6 0.1 0.2 0.9 0.8 (fun q q' H => H) (Qeq_refl _) (Qeq_refl _)
              (Qeq_refl _) H0)
    as (face_bbox & Hbox & _ & Hheight & _);
    try (intros E; discriminate E).
  exists face_bbox. split; [exact Hbox | exact Hheight].
Defined.

(** ** The program: loading, [generate_lip_sync] and [main] *)

Section ProgramFacts.
Import Program.
Context {px tensor : Type}.
Implicit Types (w : world px tensor) (self : OmniSyncFramework.t px tensor)
  (frame : image px) (frames : list (image px)) (tr : list (io_event px tensor)).

Lemma io_bind_ok {A B} tr (a : A) (k : A -> io px tensor B) :
  io_bind (tr, Ok a) k = io_after tr (k a).
Proof. reflexivity. Qed.

Lemma io_bind_raise {A B} tr (e : exn) (k : A -> io px tensor B) :
  io_bind (tr, Raise e) k = (tr, Raise e).
Proof. reflexivity. Qed.

Lemma io_after_pair {A} tr tr' (r : result A) :
  io_after tr (tr', r) = (tr ++ tr', r).
Proof. reflexivity. Qed.

Lemma io_after_after {A} tr tr' (m : io px tensor A) :
  io_after tr (io_after tr' m) = io_after (tr ++ tr') m.
Proof. unfold io_after. cbn [fst snd]. rewrite app_assoc. reflexivity. Qed.

(** The reads of [preprocess_video]: one per frame, and the one that
    fails. *)
Lemma read_frames_run frames (rest : list (option (image px))) :
  hd None rest = None ->
  forall frames0,
    @read_frames px tensor ((Some <$> frames) ++ rest) frames0
    = (replicate (S (length frames)) IoRead, Ok (frames0 ++ frames)).
Proof.
  intros Hrest. induction frames as [| frame frames IH]; intros frames0.
  - cbn [fmap list_fmap app length replicate]. rewrite app_nil_r.
    destruct rest as [| [frame |] rest]; [reflexivity | discriminate Hrest | reflexivity].
  - cbn [fmap list_fmap app read_frames]. unfold io_call.
    rewrite io_bind_ok. fold (@fmap list _ _ _ (@Some (image px)) frames).
    rewrite IH, io_after_pair, <- app_assoc. reflexivity.
Qed.

Lemma preprocess_video_run w video_path frames rest :
  video_capture w video_path = (Some <$> frames) ++ rest ->
  hd None rest = None ->
  preprocess_video w video_path
  = (IoCapture video_path :: replicate (S (length frames)) IoRead ++ [IoRelease],
     Ok frames).
Proof.
  intros Hcap Hrest. unfold preprocess_video, io_call.
  rewrite io_bind_ok, Hcap, (read_frames_run frames rest Hrest [])%list.
  rewrite io_bind_ok, io_bind_ok. reflexivity.
Qed.

(** [extract_audio_features] stops at the lookup of
    [librosa.feature.chroma]: it raises, after the calls of the mfcc and
    mel spectrogram extractors at most. *)
Lemma extract_audio_features_stops w (processor : AudioProcessor) (audio : list Q) :
  exists tr e,
    extract_audio_features w processor audio = (tr, Raise e) /\
    Forall (fun ev => ev = IoFeature "mfcc" audio (sample_rate processor) \/
                      ev = IoFeature "melspectrogram" audio (sample_rate processor)) tr.
Proof.
  unfold extract_audio_features, io_call, io_lift, librosa_feature_chroma.
  destruct (librosa_feature w "mfcc" audio (sample_rate processor)) as [mfcc | e].
  - rewrite io_bind_ok.
    destruct (librosa_feature w "melspectrogram" audio (sample_rate processor))
      as [mel_spec | e].
    + rewrite io_bind_ok, io_bind_raise, !io_after_pair.
      eexists; eexists. split; [reflexivity |].
      constructor; [left; reflexivity |].
      constructor; [right; reflexivity | constructor].
    + rewrite io_bind_raise, io_after_pair.
      eexists; eexists. split; [reflexivity |].
      constructor; [left; reflexivity |].
      constructor; [right; reflexivity | constructor].
  - rewrite io_bind_raise.
    eexists; eexists. split; [reflexivity |].
    constructor; [left; reflexivity | constructor].
Qed.

Lemma extract_audio_features_run w (processor : AudioProcessor) (audio : list Q)
    (mfcc mel_spec : ndarray) :
  librosa_feature w "mfcc" audio (sample_rate processor) = Ok mfcc ->
  librosa_feature w "melspectrogram" audio (sample_rate processor) = Ok mel_spec ->
  extract_audio_features w processor audio
  = ([IoFeature "mfcc" audio (sample_rate processor);
      IoFeature "melspectrogram" audio (sample_rate processor)],
     Raise AttributeError).
Proof.
  intros H1 H2.
  unfold extract_audio_features, io_call, io_lift, librosa_feature_chroma.
  rewrite H1, io_bind_ok, H2, io_bind_ok, io_bind_raise. reflexivity.
Qed.

(** [generate_lip_sync] stops where [extract_audio_features] does, or
    before. *)
Lemma generate_lip_sync_stops w (processor : AudioProcessor) self
    (video_path audio_path output_path : string) :
  exists tr e,
    Program.generate_lip_sync w processor self video_path audio_path output_path
    = (IoPrint (Text "Loading and processing inputs...")
         :: IoLoad audio_path (sample_rate processor) :: tr,
       Raise e) /\
    Forall (fun ev => exists name audio,
                ev = IoFeature name audio (sample_rate processor)) tr.
Proof.
  unfold Program.generate_lip_sync, print, load_audio, io_call.
  rewrite io_bind_ok.
  destruct (librosa_load w audio_path (sample_rate processor)) as [audio | e].
  - rewrite io_bind_ok.
    destruct (extract_audio_features_stops w processor audio) as (tr & e & -> & Hcalls).
    rewrite io_bind_raise, !io_after_pair.
    exists tr, e. split; [reflexivity |].
    eapply Forall_impl; [exact Hcalls |].
    intros ev [-> | ->]; eauto.
  - rewrite io_bind_raise, io_after_pair.
    exists [], e. split; [reflexivity | constructor].
Qed.

Lemma program_generate_lip_sync_run w (processor : AudioProcessor) self
    (video_path audio_path output_path : string) (audio : list Q)
    (mfcc mel_spec : ndarray) :
  librosa_load w audio_path (sample_rate processor) = Ok audio ->
  librosa_feature w "mfcc" audio (sample_rate processor) = Ok mfcc ->
  librosa_feature w "melspectrogram" audio (sample_rate processor) = Ok mel_spec ->
  Program.generate_lip_sync w processor self video_path audio_path output_path
  = ([IoPrint (Text "Loading and processing inputs...");
      IoLoad audio_path (sample_rate processor);
      IoFeature "mfcc" audio (sample_rate processor);
      IoFeature "melspectrogram" audio (sample_rate processor)],
     Raise AttributeError).
Proof.
  intros Hload H1 H2.
  unfold Program.generate_lip_sync, print, load_audio, io_call.
  rewrite io_bind_ok, Hload, io_bind_ok.
  rewrite (extract_audio_features_run w processor audio mfcc mel_spec H1 H2).
  rewrite io_bind_raise. reflexivity.
Qed.

(** What a run that stopped there shows. *)
Lemma feature_calls_only (sr : Z) (tr : list (io_event px tensor)) :
  Forall (fun ev => exists name audio, ev = IoFeature name audio sr) tr ->
  Forall (fun ev => reaches_video ev = false) tr /\ printed tr = [].
Proof.
  induction 1 as [| ev tr (name & audio & ->) _ [IH1 IH2]].
  - split; [constructor | reflexivity].
  - split; [constructor; [reflexivity | exact IH1] | exact IH2].
Qed.

End ProgramFacts.

(** X23.  [preprocess_video] returns the frames that the capture gives
    before its first failed read, in order, and nothing of what would
    come after it.  It reads once per frame and once more, releases the
    capture once, and never raises: a file that cannot be opened or
    decoded gives the empty list. *)
Theorem X23_video_is_read_up_to_first_failed_read
    {px tensor : Type} (w : Program.world px tensor) (video_path : string)
    (frames : list (image px)) (rest : list (option (image px))) :
  Program.video_capture w video_path = (Some <$> frames) ++ rest ->
  hd None rest = None ->
  Program.preprocess_video w video_path
  = (Program.IoCapture video_path
       :: replicate (S (length frames)) Program.IoRead ++ [Program.IoRelease],
     Ok frames).
Proof. intros Hcap Hrest. exact (preprocess_video_run w video_path frames rest Hcap Hrest). Qed.

(** X23 on a capture of two frames, a failed read and a third frame. *)
Lemma X23_video_is_read_up_to_first_failed_read_witness :
  Program.video_capture
    (Samples.world [] [Some Examples.frame10; Some Examples.blank4; None; Some Examples.blank4]
       true) "in.mp4"
  = (Some <$> [Examples.frame10; Examples.blank4]) ++ [None; Some Examples.blank4] /\
  hd None [None; Some Examples.blank4] = None /\
  Program.preprocess_video
    (Samples.world [] [Some Examples.frame10; Some Examples.blank4; None; Some Examples.blank4]
       true) "in.mp4"
  = (Program.IoCapture "in.mp4" :: replicate 3 Program.IoRead ++ [Program.IoRelease],
     Ok [Examples.frame10; Examples.blank4]).
Proof.
  split; [reflexivity |]. split; [reflexivity |].
  exact (X23_video_is_read_up_to_first_failed_read
           (Samples.world [] [Some Examples.frame10; Some Examples.blank4; None;
                              Some Examples.blank4] true)
           "in.mp4" [Examples.frame10; Examples.blank4] [None; Some Examples.blank4]
           eq_refl eq_refl).
Defined.

(** X24.  [extract_audio_features] never returns its dictionary: line
    44 looks up [librosa.feature.chroma], an attribute that librosa does
    not have, so the function raises whatever the audio is.  The only
    calls it makes are those of the mfcc and mel spectrogram extractors;
    when both return, the exception is [AttributeError].  The spectral
    centroid is never computed and [len(audio) / sample_rate] is never
    evaluated. *)
Theorem X24_extract_audio_features_always_raises
    {px tensor : Type} (w : Program.world px tensor) (processor : Program.AudioProcessor)
    (audio : list Q) :
  is_ok (snd (Program.extract_audio_features w processor audio)) = false /\
  Forall (fun ev =>
            ev = Program.IoFeature "mfcc" audio (Program.sample_rate processor) \/
            ev = Program.IoFeature "melspectrogram" audio (Program.sample_rate processor))
    (fst (Program.extract_audio_features w processor audio)) /\
  (forall mfcc mel_spec : ndarray,
      Program.librosa_feature w "mfcc" audio (Program.sample_rate processor) = Ok mfcc ->
      Program.librosa_feature w "melspectrogram" audio (Program.sample_rate processor)
      = Ok mel_spec ->
      Program.extract_audio_features w processor audio
      = ([Program.IoFeature "mfcc" audio (Program.sample_rate processor);
          Program.IoFeature "melspectrogram" audio (Program.sample_rate processor)],
         Raise AttributeError)).
Proof.
  split; [| split].
  - destruct (extract_audio_features_stops w processor audio) as (tr & e & -> & _).
    reflexivity.
  - destruct (extract_audio_features_stops w processor audio) as (tr & e & -> & Hcalls).
    exact Hcalls.
  - intros mfcc mel_spec H1 H2.
    exact (extract_audio_features_run w processor audio mfcc mel_spec H1 H2).
Qed.

(** X24 on three samples at 16 kHz, both extractors returning. *)
Lemma X24_extract_audio_features_always_raises_witness :
  Program.extract_audio_features (Samples.world [] [] true)
    Program.default_processor [1; 2; 3]%Q
  = ([Program.IoFeature "mfcc" [1; 2; 3]%Q 16000;
      Program.IoFeature "melspectrogram" [1; 2; 3]%Q 16000],
     Raise AttributeError).
Proof.
  exact (proj2 (proj2 (X24_extract_audio_features_always_raises
                         (Samples.world [] [] true) Program.default_processor
                         [1; 2; 3]%Q))
           Examples.mel4 Examples.mel4 eq_refl eq_refl).
Defined.

(** X25.  [generate_lip_sync] never completes: it raises while the audio
    features are extracted, or before, when the audio does not load.  It
    has then printed its first line only, loaded the audio and called
    feature extractors; it has not opened the video, and it has called
    neither the detector, nor the predictor, nor the codec, so no output
    file is made.  When the audio loads and the mfcc and mel spectrogram
    extractors return, the exception is the [AttributeError] of
    [librosa.feature.chroma]. *)
Theorem X25_generate_lip_sync_never_completes
    {px tensor : Type} (w : Program.world px tensor)
    (processor : Program.AudioProcessor) (self : OmniSyncFramework.t px tensor)
    (video_path audio_path output_path : string) :
  is_ok (snd (Program.generate_lip_sync w processor self video_path audio_path output_path))
  = false /\
  Forall (fun ev => Program.reaches_video ev = false)
    (fst (Program.generate_lip_sync w processor self video_path audio_path output_path)) /\
  Program.printed
    (fst (Program.generate_lip_sync w processor self video_path audio_path output_path))
  = [Program.Text "Loading and processing inputs..."] /\
  (forall (audio : list Q) (mfcc mel_spec : ndarray),
      Program.librosa_load w audio_path (Program.sample_rate processor) = Ok audio ->
      Program.librosa_feature w "mfcc" audio (Program.sample_rate processor) = Ok mfcc ->
      Program.librosa_feature w "melspectrogram" audio (Program.sample_rate processor)
      = Ok mel_spec ->
      Program.generate_lip_sync w processor self video_path audio_path output_path
      = ([Program.IoPrint (Program.Text "Loading and processing inputs...");
          Program.IoLoad audio_path (Program.sample_rate processor);
          Program.IoFeature "mfcc" audio (Program.sample_rate processor);
          Program.IoFeature "melspectrogram" audio (Program.sample_rate processor)],
         Raise AttributeError)).
Proof.
  destruct (generate_lip_sync_stops w processor self video_path audio_path output_path)
    as (tr & e & Hrun & Hcalls).
  destruct (feature_calls_only _ tr Hcalls) as [Hvideo Hprinted].
  split; [rewrite Hrun; reflexivity |].
  split; [rewrite Hrun; repeat (constructor; [reflexivity |]); exact Hvideo |].
  split.
  - rewrite Hrun. cbn [fst].
    change (Program.printed (Program.IoPrint ?l :: Program.IoLoad ?a ?sr :: tr))
      with (l :: Program.printed tr).
    rewrite Hprinted. reflexivity.
  - intros audio mfcc mel_spec Hload H1 H2.
    exact (program_generate_lip_sync_run w processor self video_path audio_path output_path
             audio mfcc mel_spec Hload H1 H2).
Qed.

(** X25 on an audio of three samples and a video of two frames: the
    video is not opened. *)
Lemma X25_generate_lip_sync_never_completes_witness :
  Program.generate_lip_sync
    (Samples.world [1; 2; 3]%Q [Some Examples.frame10; Some Examples.blank4] true)
    Program.default_processor (Examples.self (0, 0, 10, 10)) "in.mp4" "in.wav" "out.mp4"
  = ([Program.IoPrint (Program.Text "Loading and processing inputs...");
      Program.IoLoad "in.wav" 16000;
      Program.IoFeature "mfcc" [1; 2; 3]%Q 16000;
      Program.IoFeature "melspectrogram" [1; 2; 3]%Q 16000],
     Raise AttributeError).
Proof.
  exact (proj2 (proj2 (proj2 (X25_generate_lip_sync_never_completes
                                (Samples.world [1; 2; 3]%Q
                                   [Some Examples.frame10; Some Examples.blank4] true)
                                Program.default_processor (Examples.self (0, 0, 10, 10))
                                "in.mp4" "in.wav" "out.mp4")))
           [1; 2; 3]%Q Examples.mel4 Examples.mel4 eq_refl eq_refl eq_refl).
Defined.

Section MainFacts.
Import Program.
Context {px tensor : Type}.
Implicit Types (w : world px tensor) (omnisync : OmniSyncFramework.t px tensor).

(** [main] when both files exist. *)
Lemma main_both_found w omnisync :
  new_framework w = Ok omnisync ->
  path_exists w "input_video.mp4" = true ->
  path_exists w "target_audio.wav" = true ->
  main w
  = io_after
      [IoPrint (Text "Initializing OmniSync Framework..."); IoNew;
       IoExists "input_video.mp4"; IoExists "target_audio.wav";
       IoExists "input_video.mp4"; IoExists "target_audio.wav"]
      (Program.generate_lip_sync w default_processor omnisync
         "input_video.mp4" "target_audio.wav" "output_synced.mp4").
Proof.
  intros Hnew Hvideo Haudio. unfold main, exists_, print, io_call, io_ret.
  rewrite Hnew, Hvideo, Haudio. cbn [negb].
  rewrite !io_bind_ok, !io_after_after. reflexivity.
Qed.

(** [main] when one of the files is missing. *)
Lemma main_demo w omnisync :
  new_framework w = Ok omnisync ->
  path_exists w "input_video.mp4" && path_exists w "target_audio.wav" = false ->
  snd (main w) = Ok tt /\
  Forall (fun ev => touches_media ev = false) (fst (main w)) /\
  last (printed (fst (main w)))
  = Some (Text "3. For training: omnisync.train_model(training_data_path)").
Proof.
  intros Hnew Hfound. unfold main, exists_, print, io_call, io_ret.
  rewrite Hnew.
  destruct (path_exists w "input_video.mp4"), (path_exists w "target_audio.wav");
    try discriminate Hfound; cbn; repeat split; repeat constructor.
Qed.

End MainFacts.

(** X26.  When the constructor returns and both [input_video.mp4] and
    [target_audio.wav] exist, [main] never completes: it raises inside
    [generate_lip_sync], having printed its own first line and the
    loading line only, without having opened the video and without a
    call to the detector, the predictor or the codec.  The example
    program cannot produce [output_synced.mp4]. *)
Theorem X26_main_with_both_files_never_completes
    {px tensor : Type} (w : Program.world px tensor)
    (omnisync : OmniSyncFramework.t px tensor) :
  Program.new_framework w = Ok omnisync ->
  Program.path_exists w "input_video.mp4" = true ->
  Program.path_exists w "target_audio.wav" = true ->
  is_ok (snd (Program.main w)) = false /\
  Forall (fun ev => Program.reaches_video ev = false) (fst (Program.main w)) /\
  Program.printed (fst (Program.main w))
  = [Program.Text "Initializing OmniSync Framework...";
     Program.Text "Loading and processing inputs..."].
Proof.
  intros Hnew Hvideo Haudio.
  rewrite (main_both_found w omnisync Hnew Hvideo Haudio).
  destruct (generate_lip_sync_stops w Program.default_processor omnisync
              "input_video.mp4" "target_audio.wav" "output_synced.mp4")
    as (tr & e & -> & Hcalls).
  destruct (feature_calls_only _ tr Hcalls) as [Hreach Hprinted].
  unfold Program.io_after. cbn [fst snd app is_ok].
  split; [reflexivity |].
  split; [repeat (constructor; [reflexivity |]); exact Hreach |].
  change (Program.printed
            (Program.IoPrint ?l :: Program.IoNew :: Program.IoExists ?a :: Program.IoExists ?b
               :: Program.IoExists ?c :: Program.IoExists ?d
               :: Program.IoPrint ?l' :: Program.IoLoad ?p ?sr :: tr))
    with (l :: l' :: Program.printed tr).
  rewrite Hprinted. reflexivity.
Qed.

(** X26 in a world where every path exists. *)
Lemma X26_main_with_both_files_never_completes_witness :
  Program.new_framework (Samples.world [1; 2; 3]%Q [Some Examples.frame10] true)
  = Ok (Examples.self (0, 0, 10, 10)) /\
  Program.path_exists (Samples.world [1; 2; 3]%Q [Some Examples.frame10] true)
    "input_video.mp4" = true /\
  Program.path_exists (Samples.world [1; 2; 3]%Q [Some Examples.frame10] true)
    "target_audio.wav" = true /\
  is_ok (snd (Program.main (Samples.world [1; 2; 3]%Q [Some Examples.frame10] true)))
  = false /\
  Forall (fun ev => Program.reaches_video ev = false)
    (fst (Program.main (Samples.world [1; 2; 3]%Q [Some Examples.frame10] true))).
Proof.
  split; [reflexivity |]. split; [reflexivity |]. split; [reflexivity |].
  destruct (X26_main_with_both_files_never_completes
              (Samples.world [1; 2; 3]%Q [Some Examples.frame10] true)
              (Examples.self (0, 0, 10, 10)) eq_refl eq_refl eq_refl)
    as (Hraise & Hreach & _).
  split; [exact Hraise | exact Hreach].
Defined.

(** X29.  [main] calls [generate_lip_sync] exactly when both
    [input_video.mp4] and [target_audio.wav] exist, on these two paths,
    with the output path [output_synced.mp4] and the default sample rate
    of 16000.  When one of them is missing it returns normally in demo
    mode: it reads no audio and no video, calls no detector, predictor
    or codec, and its last line is the hint about training. *)
Theorem X29_main_synchronises_only_when_both_files_exist
    {px tensor : Type} (w : Program.world px tensor)
    (omnisync : OmniSyncFramework.t px tensor) :
  Program.new_framework w = Ok omnisync ->
  (Program.path_exists w "input_video.mp4" && Program.path_exists w "target_audio.wav"
   = true ->
   Program.main w
   = Program.io_after
       [Program.IoPrint (Program.Text "Initializing OmniSync Framework..."); Program.IoNew;
        Program.IoExists "input_video.mp4"; Program.IoExists "target_audio.wav";
        Program.IoExists "input_video.mp4"; Program.IoExists "target_audio.wav"]
       (Program.generate_lip_sync w Program.default_processor omnisync
          "input_video.mp4" "target_audio.wav" "output_synced.mp4")) /\
  (Program.path_exists w "input_video.mp4" && Program.path_exists w "target_audio.wav"
   = false ->
   snd (Program.main w) = Ok tt /\
   Forall (fun ev => Program.touches_media ev = false) (fst (Program.main w)) /\
   last (Program.printed (fst (Program.main w)))
   = Some (Program.Text "3. For training: omnisync.train_model(training_data_path)")).
Proof.
  intros Hnew. split.
  - intros Hfound. apply andb_true_iff in Hfound as [Hvideo Haudio].
    exact (main_both_found w omnisync Hnew Hvideo Haudio).
  - intros Hfound. exact (main_demo w omnisync Hnew Hfound).
Qed.

(** X29 in a world without files: demo mode. *)
Lemma X29_main_synchronises_only_when_both_files_exist_witness :
  Program.new_framework (Samples.world [] [] false) = Ok (Examples.self (0, 0, 10, 10)) /\
  snd (Program.main (Samples.world [] [] false)) = Ok tt /\
  Forall (fun ev => Program.touches_media ev = false)
    (fst (Program.main (Samples.world [] [] false))).
Proof.
  assert (H : Program.new_framework (Samples.world [] [] false)
              = Ok (Examples.self (0, 0, 10, 10))) by reflexivity.
  split; [exact H |].
  destruct (proj2 (X29_main_synchronises_only_when_both_files_exist
                     (Samples.world [] [] false) (Examples.self (0, 0, 10, 10)) H)
              eq_refl) as (Hret & Hquiet & _).
  split; [exact Hret | exact Hquiet].
Defined.
